(** * qua-libs: calibration macros, waveform helpers and configuration tables

    A shallow embedding of the Python helpers of the repository
    ([macros.py], [two_qubit_rb_config.py],
    [configuration_cavity_locking_ETHZ_OPX1.py]) together with the
    properties stated about them.

    Conventions of the embedding.
    - Python [int] is [Z]; Python [str] is [string].
    - In the numeric helpers a Python [float] is idealised as a real number
      ([R]): rounding is outside the model, and so are the values [inf] and
      [nan].  What Python itself raises is kept: a float power or a division
      of ints whose result leaves the range of the doubles raises
      [OverflowError].  Where Python or numpy go on with [inf] or [nan]
      (a product out of range, a division by zero), the run of the model
      ends in [NonFinite].
    - The numbers passed to the reset macros as keywords are Python ints
      ([Z]) or doubles with their own arithmetic ([PrimFloat.float]).
    - numpy arrays live in an explicit store; every numpy operation that
      returns an array allocates a fresh cell, exactly as numpy does.
    - The vendor's QUA statements ([wait], [measure], [play], ...) are
      recorded in the order in which the macros emit them. *)

From Stdlib Require Import ZArith QArith List String Ascii Bool Lia.
From Stdlib Require Import Reals Lra.
From Stdlib Require PrimFloat SpecFloat FloatOps.
Import ListNotations.

Set Warnings "-register-all".

Local Open Scope string_scope.
Local Open Scope Z_scope.

(** ** Python strings *)

Module PyStr.

(** [s[k:]] for a non-negative [k]. *)
Fixpoint drop (k : nat) (s : string) : string :=
  match k, s with
  | O, _ => s
  | S _, EmptyString => EmptyString
  | S k', String _ rest => drop k' rest
  end.

(** ['0' * k]. *)
Fixpoint zeros (k : nat) : string :=
  match k with
  | O => EmptyString
  | S k' => String "0" (zeros k')
  end.

Definition len (s : string) : Z := Z.of_nat (String.length s).

Definition is_sign (c : ascii) : bool :=
  (Ascii.eqb c "+" || Ascii.eqb c "-")%bool.

(** [str.zfill(width)]: pad on the left with ['0'] up to [width]
    characters; a leading sign stays in front of the padding. *)
Definition zfill (width : Z) (s : string) : string :=
  if width <=? len s then s
  else
    let fill := zeros (Z.to_nat (width - len s)) in
    match s with
    | String c rest =>
        if is_sign c then String c (fill ++ rest) else fill ++ s
    | EmptyString => fill
    end.

(** Digits of a positive number, most significant first. *)
Fixpoint bits_pos (p : positive) : string :=
  match p with
  | xH => "1"
  | xO q => bits_pos q ++ "0"
  | xI q => bits_pos q ++ "1"
  end.

(** The base-2 numeral of a non-negative integer, without prefix. *)
Definition digits (n : Z) : string :=
  match n with
  | Zpos p => bits_pos p
  | _ => "0"
  end.

(** The builtin [bin]. *)
Definition bin (n : Z) : string :=
  match n with
  | Z0 => "0b0"
  | Zpos p => "0b" ++ bits_pos p
  | Zneg p => "-0b" ++ bits_pos p
  end.

(** Value of a string of binary digits, read most significant first. *)
Fixpoint value_from (acc : Z) (s : string) : Z :=
  match s with
  | EmptyString => acc
  | String c rest =>
      value_from (2 * acc + (if Ascii.eqb c "1" then 1 else 0)) rest
  end.

Definition value (s : string) : Z := value_from 0 s.

Fixpoint all_binary (s : string) : bool :=
  match s with
  | EmptyString => true
  | String c rest =>
      ((Ascii.eqb c "0" || Ascii.eqb c "1") && all_binary rest)%bool
  end.

End PyStr.

(** ** macros.py: [binary] *)

(** [return bin(n)[2:].zfill(length)] *)
Definition binary (n length : Z) : string :=
  PyStr.zfill length (PyStr.drop 2 (PyStr.bin n)).

(** ** Python outcomes and the state-and-exception monad *)

Module Py.

(** Exceptions.  [RepoException msg] is [raise Exception(msg)] written in
    the repository's own code; [TypeError], [ValueError], [OverflowError]
    and [ZeroDivisionError] are raised by the Python runtime or by numpy.
    The last two are no Python exceptions.  [DanglingRef] is reached by no
    Python run (references are only created by allocation); it makes the
    store lookup total.  [NonFinite] ends a run in which Python or numpy
    have produced [inf] or [nan] without raising: such values are no real
    numbers, and the model does not follow the run further. *)
Inductive exn : Type :=
| RepoException (msg : string)
| TypeError
| ValueError
| OverflowError
| ZeroDivisionError
| DanglingRef
| NonFinite.

Inductive res (A : Type) : Type :=
| Ok (a : A)
| Raise (e : exn).
Arguments Ok {A} a.
Arguments Raise {A} e.

(** A computation over a state [S]; the state survives an exception. *)
Definition M (S A : Type) : Type := S -> res A * S.

Definition ret {S A : Type} (a : A) : M S A := fun s => (Ok a, s).

Definition raise {S A : Type} (e : exn) : M S A := fun s => (Raise e, s).

Definition bind {S A B : Type} (m : M S A) (k : A -> M S B) : M S B :=
  fun s =>
    match m s with
    | (Ok a, s') => k a s'
    | (Raise e, s') => (Raise e, s')
    end.

Definition is_repo_exception {A : Type} (r : res A) : bool :=
  match r with
  | Raise (RepoException _) => true
  | _ => false
  end.

Definition raises {A : Type} (r : res A) : bool :=
  match r with
  | Raise _ => true
  | Ok _ => false
  end.

(** The outcome of an expression that does not touch the state. *)
Definition lift {S A : Type} (r : res A) : M S A := fun s => (r, s).

End Py.

(** ** Python floats in the numeric helpers *)

Module PyFloat.
Import Py.
Local Open Scope R_scope.

(** The two ends of the range of the doubles.  A result is rounded to the
    nearest double: from [2^1024 - 2^970] on the nearest is infinity, and
    up to [2^-1075] it is zero. *)
Definition overflow_bound : Z := (2 ^ 1024 - 2 ^ 970)%Z.

Definition overflows (x : R) : bool :=
  if Rle_dec (IZR overflow_bound) (Rabs x) then true else false.

Definition underflows (x : R) : bool :=
  if Rle_dec (Rabs x * IZR (2 ^ 1075)) 1 then true else false.

(** [x ** n] for a float [x] and an int [n >= 0]: Python raises
    [OverflowError] when the result is out of range; a result too small
    is zero. *)
Definition float_pow (x : R) (n : nat) : res R :=
  if overflows (x ^ n) then Raise OverflowError
  else if underflows (x ^ n) then Ok 0
  else Ok (x ^ n).

(** [x * y] for two floats: Python does not raise, a product out of range
    is [inf]; a product too small is zero. *)
Definition float_mul (x y : R) : res R :=
  if overflows (x * y) then Raise NonFinite
  else if underflows (x * y) then Ok 0
  else Ok (x * y).

(** [a / b] for two ints, a float: [ZeroDivisionError] for [b = 0],
    [OverflowError] when the quotient is out of range. *)
Definition int_true_divide (a b : Z) : res R :=
  if (b =? 0)%Z then Raise ZeroDivisionError
  else if overflows (IZR a / IZR b) then Raise OverflowError
  else Ok (IZR a / IZR b).

End PyFloat.

Declare Scope py_scope.
Delimit Scope py_scope with py.
Notation "x <- m ;; k" := (Py.bind m (fun x => k))
  (at level 61, m at next level, right associativity) : py_scope.
Notation "m ;;; k" := (Py.bind m (fun _ => k))
  (at level 61, right associativity) : py_scope.

(** ** numpy: a store of one-dimensional float arrays *)

Module NumPy.
Import Py.
Local Open Scope R_scope.
Local Open Scope py_scope.

(** A reference to an array object. *)
Definition ndarray : Type := nat.

(** [cells] holds the array objects by reference; [logged] records, in
    order, every value [np.log] has been applied to. *)
Record store : Type := mkStore {
  cells : list (list R);
  logged : list R
}.

Definition np (A : Type) : Type := M store A.

Definition valid (a : ndarray) (st : store) : Prop :=
  (a < List.length (cells st))%nat.

Definition contents (a : ndarray) (st : store) : option (list R) :=
  nth_error (cells st) a.

(** A new array object. *)
Definition alloc (v : list R) : np ndarray :=
  fun st =>
    (Ok (List.length (cells st)),
     mkStore (cells st ++ [v]) (logged st)).

Definition read (a : ndarray) : np (list R) :=
  fun st =>
    match contents a st with
    | Some v => (Ok v, st)
    | None => (Raise DanglingRef, st)
    end.

(** An elementwise operation with scalar operands: a new array. *)
Definition elementwise (f : R -> R) (a : ndarray) : np ndarray :=
  v <- read a ;; alloc (map f v).

(** Replace the last entry ([y[-1] = stop]). *)
Fixpoint set_last (y : list R) (x : R) : list R :=
  match y with
  | [] => []
  | [_] => [x]
  | h :: t => h :: set_last t x
  end.

(** The samples of [np.linspace(start, stop, num)] (endpoint included):
    [arange(0, num) * step + start] with [step = (stop - start) / (num - 1)]
    when [num > 1], the last sample overwritten by [stop]; for [num = 1]
    the single sample is [start]. *)
Definition linspace_samples (start stop : R) (num : Z) : list R :=
  let div := (num - 1)%Z in
  let delta := stop - start in
  let y := map INR (seq 0 (Z.to_nat num)) in
  let y :=
    if (0 <? div)%Z then map (fun v => v * (delta / IZR div)) y
    else map (fun v => v * delta) y in
  let y := map (fun v => v + start) y in
  if (1 <? num)%Z then set_last y stop else y.

Definition linspace (start stop : R) (num : Z) : np ndarray :=
  if (num <? 0)%Z then raise ValueError
  else alloc (linspace_samples start stop num).

(** [np.maximum(a, c)] with a scalar [c]. *)
Definition maximum (a : ndarray) (c : R) : np ndarray :=
  elementwise (fun x => Rmax x c) a.

(** [a / c] with a scalar [c].  For [c = 0] numpy warns and fills the result
    with [inf] or [nan]; the run of the model ends there.  (An empty array
    has no entry to fill.) *)
Definition divide (a : ndarray) (c : R) : np ndarray :=
  v <- read a ;;
  match v with
  | [] => alloc []
  | _ :: _ =>
      if Req_dec_T c 0 then raise NonFinite
      else alloc (map (fun x => x / c) v)
  end.

(** [np.log(a)]; the arguments are recorded. *)
Definition log (a : ndarray) : np ndarray :=
  v <- read a ;;
  (fun st => (Ok tt, mkStore (cells st) (logged st ++ v))) ;;;
  alloc (map ln v).

(** Broadcasting of two one-dimensional operands: equal lengths, or one
    operand of length one; otherwise numpy raises [ValueError]. *)
Definition broadcast2 (f : R -> R -> R) (u v : list R)
  : option (list R) :=
  if Nat.eqb (List.length u) (List.length v)
  then Some (map (fun '(x, y) => f x y) (combine u v))
  else match u, v with
       | [x], _ => Some (map (fun y => f x y) v)
       | _, [y] => Some (map (fun x => f x y) u)
       | _, _ => None
       end.

(** [a * b] on arrays. *)
Definition multiply (a b : ndarray) : np ndarray :=
  u <- read a ;;
  v <- read b ;;
  match broadcast2 Rmult u v with
  | Some w => alloc w
  | None => raise ValueError
  end.

(** [np.sum(a)]: a scalar. *)
Definition sum (a : ndarray) : np R :=
  v <- read a ;; ret (fold_left Rplus v 0).

(** Iterating an array into a Python list of floats. *)
Definition tolist (a : ndarray) : np (list R) := read a.

End NumPy.

(** ** configuration_cavity_locking_ETHZ_OPX1.py: [gauss] *)

Section Gauss.
Import Py PyFloat NumPy.
Local Open Scope R_scope.
Local Open Scope py_scope.

(**
<<
  t = np.linspace(-length / 2, length / 2, length)
  gauss_wave = amplitude * np.exp(-((t - mu) ** 2) / (2 * sigma**2))
  return [float(x) for x in gauss_wave]
>>
    [length] is an int; [amplitude], [mu] and [sigma] are floats.  The
    operations on [t] are numpy's, on arrays; [-length / 2], [length / 2]
    and [2 * sigma**2] are Python's, on scalars, and the left operand of
    the division is evaluated before the right one. *)
Definition gauss (amplitude mu sigma : R) (length : Z) : np (list R) :=
  start <- lift (int_true_divide (- length) 2) ;;
  stop <- lift (int_true_divide length 2) ;;
  t <- linspace start stop length ;;
  d <- elementwise (fun x => x - mu) t ;;
  sq <- elementwise (fun x => x ^ 2) d ;;
  ng <- elementwise Ropp sq ;;
  s2 <- lift (float_pow sigma 2) ;;
  c <- lift (float_mul 2 s2) ;;
  q <- divide ng c ;;
  e <- elementwise exp q ;;
  gauss_wave <- elementwise (fun x => amplitude * x) e ;;
  tolist gauss_wave.

End Gauss.

(** ** two_qubit_rb_config.py: [IQ_imbalance] *)

Section IQImbalance.
Import Py PyFloat.
Local Open Scope R_scope.

(**
<<
  c = np.cos(phi)
  s = np.sin(phi)
  N = 1 / ((1 - g**2) * (2 * c**2 - 1))
  return [float(N * x) for x in [(1 - g) * c, (1 + g) * s, (1 - g) * s, (1 + g) * c]]
>>
    Only scalars are involved: no array object is created or read.  [g] and
    [phi] are floats, so [g**2] is Python's power; [c] is a numpy scalar,
    and with it the denominator and the division are numpy's: for a
    denominator of zero numpy warns and goes on with [inf]. *)
Definition IQ_imbalance (g phi : R) : res (list R) :=
  let c := cos phi in
  let s := sin phi in
  match float_pow g 2 with
  | Raise e => Raise e
  | Ok g2 =>
      let denominator := (1 - g2) * (2 * c ^ 2 - 1) in
      if Req_dec_T denominator 0 then Raise NonFinite
      else
        let N := 1 / denominator in
        Ok (map (fun x => N * x)
              [(1 - g) * c; (1 + g) * s; (1 - g) * s; (1 + g) * c])
  end.

End IQImbalance.

(** ** macros.py: [cross_entropy], [exponential_decay] *)

Section Fitting.
Import Py NumPy.
Local Open Scope R_scope.
Local Open Scope py_scope.

(**
<<
  q = np.maximum(q, epsilon)  # Avoid taking the logarithm of zero
  x_entropy = -np.sum(p * np.log(q))
  return x_entropy
>>
    The assignment rebinds the local name [q] to the new array. *)
Definition cross_entropy (p q : ndarray) (epsilon : R) : np R :=
  q' <- maximum q epsilon ;;
  l <- log q' ;;
  m <- multiply p l ;;
  s <- sum m ;;
  ret (- s).

(** The default [epsilon=1e-15]. *)
Definition cross_entropy_default_epsilon : R := 1 / 10 ^ 15.

(** numpy's elementwise power on floats ([**]); it belongs to numpy, not
    to the repository. *)
Variable power : R -> R -> R.

(** [return a * layer_fid**cycle_depths] *)
Definition exponential_decay (cycle_depths : ndarray) (a layer_fid : R)
  : np ndarray :=
  pw <- elementwise (fun d => power layer_fid d) cycle_depths ;;
  elementwise (fun x => a * x) pw.

End Fitting.

(** ** The vendor's QUA program builder *)

Module Qua.
Import Py.
Import PrimFloat.
Local Open Scope py_scope.

(** A Python value passed for a numeric keyword: [None], an [int] or a
    [float], that is a double ([inf] and [nan] included) with the
    arithmetic of doubles. *)
Inductive value : Type :=
| VNone
| VInt (z : Z)
| VFloat (f : float).

Definition is_none (v : value) : bool :=
  match v with VNone => true | _ => false end.

(** The double nearest to an int (ties to even); infinity when the int is
    out of range. *)
Definition nearest_double (z : Z) : SpecFloat.spec_float :=
  SpecFloat.binary_normalize FloatOps.prec FloatOps.emax z 0 false.

(** An int of small magnitude as the double it is. *)
Definition small_int (k : Z) : float := FloatOps.SF2Prim (nearest_double k).

(** [float(z)], also the conversion of the int operand of a mixed
    operation: [OverflowError] for an int too large for a double. *)
Definition float_of_int (z : Z) : res float :=
  match nearest_double z with
  | SpecFloat.S754_infinity _ => Raise OverflowError
  | sf => Ok (FloatOps.SF2Prim sf)
  end.

(** [f.is_integer()]: [f] is finite and has no fractional part. *)
Definition is_integer (f : float) : bool :=
  match FloatOps.Prim2SF f with
  | SpecFloat.S754_zero _ => true
  | SpecFloat.S754_finite _ m e =>
      (0 <=? e) || (Zpos m mod 2 ^ (- e) =? 0)
  | _ => false
  end.

(** [v < k] for an int literal [k] of small magnitude (1 and 4 in the
    macros); [None < k] is a [TypeError]. *)
Definition lt_int (v : value) (k : Z) : res bool :=
  match v with
  | VNone => Raise TypeError
  | VInt z => Ok (z <? k)
  | VFloat f => Ok (f <? small_int k)%float
  end.

(** [float(v).is_integer()]; [float(None)] is a [TypeError].  The float
    an int is converted to has no fractional part. *)
Definition float_is_integer (v : value) : res bool :=
  match v with
  | VNone => Raise TypeError
  | VInt z =>
      match float_of_int z with
      | Ok _ => Ok true
      | Raise e => Raise e
      end
  | VFloat f => Ok (is_integer f)
  end.

(** [2**-28], a float. *)
Definition two_pow_m28 : float := 0x1p-28%float.

(** [v + 2**-28]: an int is converted first, and the sum is a double. *)
Definition add_2_pow_m28 (v : value) : res value :=
  match v with
  | VNone => Raise TypeError
  | VInt z =>
      match float_of_int z with
      | Ok f => Ok (VFloat (f + two_pow_m28)%float)
      | Raise e => Raise e
      end
  | VFloat f => Ok (VFloat (f + two_pow_m28)%float)
  end.

(** QUA variables and expressions. *)
Inductive qtype : Type := fixed | int.

Definition var : Type := nat.

Inductive expr : Type :=
| Var (v : var)
| Lit (x : value)
| Add (a b : expr)
| Gt (a b : expr)
| Lt (a b : expr)
| And (a b : expr).

(** [dual_demod.full(iw1, out1, iw2, out2, target)] *)
Inductive demod : Type :=
| DualDemodFull (iw1 out1 iw2 out2 : string) (target : var).

Inductive stmt : Type :=
| Wait (duration : value) (element : string)
| Assign (target : var) (e : expr)
| Align (elements : list string)
| Measure (pulse element : string) (stream : option string)
    (outputs : list demod)
| Play (pulse element : string) (condition : option expr)
| While (cond : expr) (body : list stmt)
| UnfinishedWhile (cond : expr) (body : list stmt).

(** The program under construction: the declared variables (a variable is
    its index) and the statements emitted so far in the current scope. *)
Record program : Type := mkProgram {
  declared : list qtype;
  emitted : list stmt
}.

Definition qua (A : Type) : Type := M program A.

Definition declare (t : qtype) : qua var :=
  fun st =>
    (Ok (List.length (declared st)),
     mkProgram (declared st ++ [t]) (emitted st)).

Definition emit (s : stmt) : qua unit :=
  fun st => (Ok tt, mkProgram (declared st) (emitted st ++ [s])).

Definition wait (duration : value) (element : string) : qua unit :=
  emit (Wait duration element).

Definition assign (target : var) (e : expr) : qua unit :=
  emit (Assign target e).

Definition align (elements : list string) : qua unit :=
  emit (Align elements).

Definition measure (pulse element : string) (stream : option string)
    (outputs : list demod) : qua unit :=
  emit (Measure pulse element stream outputs).

Definition play (pulse element : string) (condition : option expr)
  : qua unit :=
  emit (Play pulse element condition).

(** [with while_(cond): body]: the body is emitted in a scope of its own
    and the loop is one statement of the enclosing scope.  When the body
    ends in an exception nothing it has emitted is taken back: the block
    stays in the program as it stands, unfinished. *)
Definition while_ (cond : expr) (body : qua unit) : qua unit :=
  fun st =>
    match body (mkProgram (declared st) []) with
    | (Ok _, st') =>
        (Ok tt,
         mkProgram (declared st') (emitted st ++ [While cond (emitted st')]))
    | (Raise e, st') =>
        (Raise e,
         mkProgram (declared st')
           (emitted st ++ [UnfinishedWhile cond (emitted st')]))
    end.

(** Lifting a pure outcome. *)
Definition lift {A : Type} (r : res A) : qua A := fun st => (r, st).

End Qua.

(** ** macros.py: [active_reset] and [reset_qubit] *)

Section Reset.
Import Py Qua.
Local Open Scope py_scope.

(** The keyword arguments the macro reads.  For each key, [None] is
    "keyword not given"; [Some VNone] is the keyword given as Python
    [None]. *)
Record kwargs : Type := mkKwargs {
  kw_cooldown_time : option value;
  kw_threshold : option value;
  kw_max_tries : option value;
  kw_Ig : option (option var)
}.

(** [kwargs.get(key, default)] *)
Definition kwargs_get {A : Type} (field : option A) (default : A) : A :=
  match field with
  | Some v => v
  | None => default
  end.

Definition no_kwargs : kwargs := mkKwargs None None None None.

Definition cooldown_message : string :=
  "'cooldown_time' must be an integer > 4 clock cycles".
Definition threshold_message : string :=
  "'threshold' must be specified for active reset.".
Definition max_tries_message : string :=
  "'max_tries' must be an integer > 0.".
Definition max_count_message : string :=
  "max_count must be an integer >= 1.".

(**
<<
  if Ig is None:
      Ig = declare(fixed)
  if (max_tries < 1) or (not float(max_tries).is_integer()):
      raise Exception("max_count must be an integer >= 1.")
  assign(Ig, threshold + 2**-28)
  counter = declare(int)
  assign(counter, 0)
  align(qubit, resonator)
  with while_((Ig > threshold) & (counter < max_tries)):
      measure("readout", resonator, None,
              dual_demod.full("rotated_cos", "out1", "rotated_sin", "out2", Ig))
      play("x180", qubit, condition=(Ig > threshold))
      assign(counter, counter + 1)
  return Ig, counter
>>
*)
Definition active_reset (threshold : value) (qubit resonator : string)
    (max_tries : value) (Ig : option var) : qua (var * var) :=
  Ig <- match Ig with
        | None => declare fixed
        | Some v => ret v
        end ;;
  below <- lift (lt_int max_tries 1) ;;
  bad <- (if below : bool then ret true
          else i <- lift (float_is_integer max_tries) ;; ret (negb i)) ;;
  if bad : bool then raise (RepoException max_count_message)
  else
    init <- lift (add_2_pow_m28 threshold) ;;
    assign Ig (Lit init) ;;;
    counter <- declare int ;;
    assign counter (Lit (VInt 0)) ;;;
    align [qubit; resonator] ;;;
    while_ (And (Gt (Var Ig) (Lit threshold))
                (Lt (Var counter) (Lit max_tries)))
      (measure "readout" resonator None
         [DualDemodFull "rotated_cos" "out1" "rotated_sin" "out2" Ig] ;;;
       play "x180" qubit (Some (Gt (Var Ig) (Lit threshold))) ;;;
       assign counter (Add (Var counter) (Lit (VInt 1)))) ;;;
    ret (Ig, counter).

(**
<<
  if method == "cooldown":
      cooldown_time = kwargs.get("cooldown_time", None)
      if (cooldown_time is None) or (cooldown_time < 4):
          raise Exception("'cooldown_time' must be an integer > 4 clock cycles")
      wait(cooldown_time, qubit)
  elif method == "active":
      threshold = kwargs.get("threshold", None)
      if threshold is None:
          raise Exception("'threshold' must be specified for active reset.")
      max_tries = kwargs.get("max_tries", 1)
      if (max_tries is None) or (not float(max_tries).is_integer()) or (max_tries < 1):
          raise Exception("'max_tries' must be an integer > 0.")
      Ig = kwargs.get("Ig", None)
      return active_reset(threshold, qubit, resonator, max_tries=max_tries, Ig=Ig)
>>
    The result is [None] unless the active branch returns the pair of
    [active_reset]. *)
Definition reset_qubit (method qubit resonator : string) (kw : kwargs)
  : qua (option (var * var)) :=
  if String.eqb method "cooldown" then
    let cooldown_time := kwargs_get (kw_cooldown_time kw) VNone in
    bad <- (if is_none cooldown_time then ret true
            else lift (lt_int cooldown_time 4)) ;;
    if bad : bool then raise (RepoException cooldown_message)
    else wait cooldown_time qubit ;;; ret None
  else if String.eqb method "active" then
    let threshold := kwargs_get (kw_threshold kw) VNone in
    if is_none threshold then raise (RepoException threshold_message)
    else
      let max_tries := kwargs_get (kw_max_tries kw) (VInt 1) in
      bad <- (if is_none max_tries then ret true
              else
                i <- lift (float_is_integer max_tries) ;;
                if negb i then ret true
                else lift (lt_int max_tries 1)) ;;
      if bad : bool then raise (RepoException max_tries_message)
      else
        let Ig := kwargs_get (kw_Ig kw) None in
        r <- active_reset threshold qubit resonator max_tries Ig ;;
        ret (Some r)
  else ret None.

End Reset.

(** ** Python data: the values configuration dictionaries are made of *)

Module PyData.
Local Open Scope R_scope.

(** A dictionary keeps its items in insertion order; keys are strings or
    integers (port numbers). *)
Inductive pyval : Type :=
| PNone
| PBool (b : bool)
| PInt (z : Z)
| PFloat (r : R)
| PStr (s : string)
| PTuple (items : list pyval)
| PList (items : list pyval)
| PDict (items : list (pyval * pyval)).

Definition key_is (k : string) (key : pyval) : bool :=
  match key with
  | PStr s => String.eqb k s
  | _ => false
  end.

Fixpoint assoc (k : string) (items : list (pyval * pyval))
  : option pyval :=
  match items with
  | [] => None
  | (key, v) :: rest => if key_is k key then Some v else assoc k rest
  end.

(** [d[k]] for a string key; [None] when [d] is not a dictionary or has
    no such key. *)
Definition dict_get (k : string) (d : pyval) : option pyval :=
  match d with
  | PDict items => assoc k items
  | _ => None
  end.

(** [d.items()], empty when [d] is not a dictionary. *)
Definition dict_items (d : pyval) : list (pyval * pyval) :=
  match d with
  | PDict items => items
  | _ => []
  end.

Definition has_key (k : string) (d : pyval) : bool :=
  match dict_get k d with
  | Some _ => true
  | None => false
  end.

(** The table stored under a top-level key (empty when missing). *)
Definition table (k : string) (cfg : pyval) : list (pyval * pyval) :=
  match dict_get k cfg with
  | Some d => dict_items d
  | None => []
  end.

Definition is_numeric (v : pyval) : bool :=
  match v with
  | PInt _ | PFloat _ => true
  | _ => false
  end.

Definition is_str (v : pyval) : bool :=
  match v with
  | PStr _ => true
  | _ => false
  end.

(** The number a numeric value denotes. *)
Definition num (v : pyval) : option R :=
  match v with
  | PInt z => Some (IZR z)
  | PFloat r => Some r
  | _ => None
  end.

(** The duration a list of [(coefficient, duration)] pairs covers. *)
Fixpoint covered (segments : list pyval) : option R :=
  match segments with
  | [] => Some 0
  | PTuple [_; d] :: rest =>
      match num d, covered rest with
      | Some x, Some y => Some (x + y)
      | _, _ => None
      end
  | _ :: _ => None
  end.

Definition floats (l : list R) : pyval := PList (map PFloat l).

End PyData.

Declare Scope pydict_scope.
Delimit Scope pydict_scope with pydict.
Notation "k :-> v" := (PyData.PStr k, v) (at level 60, no associativity)
  : pydict_scope.
Notation "k #-> v" := (PyData.PInt k, v) (at level 60, no associativity)
  : pydict_scope.

(** ** configuration_cavity_locking_ETHZ_OPX1.py: the configuration *)

Module CavityLocking.
Import PyData.

Section Config.
Local Open Scope pydict_scope.

(** [u.us] and [u.kHz] of the vendor's unit helper ([u = unit()]); the
    helper is not part of the repository. *)
Variables (u_us u_kHz : Z).

Definition config_angle : Z := 1.

(* Phase modulation *)
Definition phase_modulation_IF : Z := 250 * u_kHz.
Definition phase_mod_amplitude : R := 0.48.
Definition phase_mod_len : Z := 100 * u_us.

(* AOM *)
Definition AOM_IF : Z := 0.
Definition const_amplitude : R := 0.1.
Definition const_len : Z := 100.

(* Filter cavity *)
Definition offset_amplitude : R := 0.25.
Definition offset_len : Z := 16.
Definition setpoint_filter_cavity_1 : R := 0.0.

(* Photo-diode *)
Definition readout_len : Z := phase_mod_len.
Definition time_of_flight : Z := 192.

Definition config : pyval :=
  PDict [
    "version" :-> PInt 1;
    "controllers" :-> PDict [
      "con1" :-> PDict [
        "analog_outputs" :-> PDict [
          6 #-> PDict ["offset" :-> PFloat setpoint_filter_cavity_1];
          8 #-> PDict ["offset" :-> PFloat 0.0]
        ];
        "digital_outputs" :-> PDict [];
        "analog_inputs" :-> PDict [
          2 #-> PDict ["offset" :-> PInt 0]
        ]
      ]
    ];
    "elements" :-> PDict [
      "phase_modulator" :-> PDict [
        "singleInput" :-> PDict [
          "port" :-> PTuple [PStr "con1"; PInt 8]
        ];
        "intermediate_frequency" :-> PInt phase_modulation_IF;
        "operations" :-> PDict [
          "cw" :-> PStr "phase_mod_pulse"
        ]
      ];
      "filter_cavity_1" :-> PDict [
        "singleInput" :-> PDict [
          "port" :-> PTuple [PStr "con1"; PInt 6]
        ];
        "operations" :-> PDict [
          "offset" :-> PStr "offset_pulse"
        ];
        "sticky" :-> PDict ["analog" :-> PBool true; "duration" :-> PInt 60]
      ];
      "detector_DC" :-> PDict [
        "singleInput" :-> PDict [
          "port" :-> PTuple [PStr "con1"; PInt 6]
        ];
        "operations" :-> PDict [
          "readout" :-> PStr "DC_readout_pulse"
        ];
        "outputs" :-> PDict [
          "out1" :-> PTuple [PStr "con1"; PInt 2]
        ];
        "time_of_flight" :-> PInt time_of_flight;
        "smearing" :-> PInt 0
      ];
      "detector_AC" :-> PDict [
        "singleInput" :-> PDict [
          "port" :-> PTuple [PStr "con1"; PInt 6]
        ];
        "intermediate_frequency" :-> PInt phase_modulation_IF;
        "operations" :-> PDict [
          "readout" :-> PStr "AC_readout_pulse"
        ];
        "outputs" :-> PDict [
          "out1" :-> PTuple [PStr "con1"; PInt 2]
        ];
        "time_of_flight" :-> PInt time_of_flight;
        "smearing" :-> PInt 0
      ]
    ];
    "pulses" :-> PDict [
      "offset_pulse" :-> PDict [
        "operation" :-> PStr "control";
        "length" :-> PInt offset_len;
        "waveforms" :-> PDict [
          "single" :-> PStr "offset_wf"
        ]
      ];
      "phase_mod_pulse" :-> PDict [
        "operation" :-> PStr "control";
        "length" :-> PInt phase_mod_len;
        "waveforms" :-> PDict [
          "single" :-> PStr "phase_mod_wf"
        ]
      ];
      "cw_pulse" :-> PDict [
        "operation" :-> PStr "control";
        "length" :-> PInt const_len;
        "waveforms" :-> PDict [
          "single" :-> PStr "const_wf"
        ]
      ];
      "DC_readout_pulse" :-> PDict [
        "operation" :-> PStr "measurement";
        "length" :-> PInt readout_len;
        "waveforms" :-> PDict [
          "single" :-> PStr "zero_wf"
        ];
        "integration_weights" :-> PDict [
          "constant" :-> PStr "constant_weights"
        ];
        "digital_marker" :-> PStr "ON"
      ];
      "AC_readout_pulse" :-> PDict [
        "operation" :-> PStr "measurement";
        "length" :-> PInt readout_len;
        "waveforms" :-> PDict [
          "single" :-> PStr "zero_wf"
        ];
        "integration_weights" :-> PDict [
          "constant" :-> PStr "constant_weights"
        ];
        "digital_marker" :-> PStr "ON"
      ]
    ];
    "waveforms" :-> PDict [
      "phase_mod_wf" :-> PDict ["type" :-> PStr "constant";
                                "sample" :-> PFloat phase_mod_amplitude];
      "const_wf" :-> PDict ["type" :-> PStr "constant";
                            "sample" :-> PFloat const_amplitude];
      "offset_wf" :-> PDict ["type" :-> PStr "constant";
                             "sample" :-> PFloat offset_amplitude];
      "zero_wf" :-> PDict ["type" :-> PStr "constant";
                           "sample" :-> PFloat 0.0]
    ];
    "digital_waveforms" :-> PDict [
      "ON" :-> PDict ["samples" :-> PList [PTuple [PInt 1; PInt 0]]];
      "OFF" :-> PDict ["samples" :-> PList [PTuple [PInt 0; PInt 0]]]
    ];
    "integration_weights" :-> PDict [
      "constant_weights" :-> PDict [
        "cosine" :-> PList [PTuple [PFloat 1.0; PInt readout_len]];
        "sine" :-> PList [PTuple [PFloat 0.0; PInt readout_len]]
      ]
    ]
  ].

End Config.

End CavityLocking.

(** ** two_qubit_rb_config.py: the configuration *)

Module TwoQubitRB.
Import PyData.

Section Config.
Local Open Scope pydict_scope.
Local Open Scope R_scope.

(** [u.MHz] and [u.GHz] of the vendor's unit helper. *)
Variables (u_MHz u_GHz : Z).

(** [scipy.signal.windows.gaussian(M, std)] *)
Variable gaussian : Z -> R -> list R.

(** [qualang_tools.config.waveform_tools.drag_gaussian_pulse_waveforms
    (amplitude, length, sigma, alpha, anharmonicity, detuning)]: the
    waveform and its derivative. *)
Variable drag_gaussian_pulse_waveforms :
  R -> Z -> R -> R -> R -> R -> list R * list R.

(** [c * wf] on a sample array. *)
Definition scale (c : R) (wf : list R) : list R := map (Rmult c) wf.

(* qe0s *)
Definition qe0_IF : Z := 50 * u_MHz.
Definition qe0_LO : Z := 7 * u_GHz.
Definition mixer_qe0_g : R := 0.0.
Definition mixer_qe0_phi : R := 0.0.
Definition qe1_IF : Z := 50 * u_MHz.
Definition qe1_LO : Z := 7 * u_GHz.
Definition mixer_qe1_g : R := 0.0.
Definition mixer_qe1_phi : R := 0.0.

Definition saturation_len : Z := 1000.
Definition saturation_amp : R := 0.1.
Definition const_len : Z := 100.
Definition const_amp : R := 0.1.
Definition square_pi_len : Z := 100.
Definition square_pi_amp : R := 0.1.

Definition drag_coef : R := 0.
Definition anharmonicity : R := IZR (-200 * u_MHz).
Definition AC_stark_detuning : R := IZR (0 * u_MHz).

Definition gauss_len : Z := 200.
Definition gauss_sigma : R := IZR gauss_len / 5.
Definition gauss_amp : R := 0.25.
Definition gauss_wf : list R :=
  scale gauss_amp (gaussian gauss_len gauss_sigma).

Definition displace_len : Z := 40.
Definition displace_sigma : R := IZR displace_len / 5.
Definition displace_amp : R := 0.35.
Definition displace_wf : list R :=
  scale displace_amp (gaussian displace_len displace_sigma).

Definition drag (amp : R) (len : Z) (sigma : R) : list R * list R :=
  drag_gaussian_pulse_waveforms amp len sigma drag_coef anharmonicity
    AC_stark_detuning.

Definition x180_len : Z := 40.
Definition x180_sigma : R := IZR x180_len / 5.
Definition x180_amp : R := 0.35.
Definition x180_I_wf : list R := fst (drag x180_amp x180_len x180_sigma).
Definition x180_Q_wf : list R := snd (drag x180_amp x180_len x180_sigma).

Definition x90_len : Z := x180_len.
Definition x90_sigma : R := IZR x90_len / 5.
Definition x90_amp : R := x180_amp / 2.
Definition x90_I_wf : list R := fst (drag x90_amp x90_len x90_sigma).
Definition x90_Q_wf : list R := snd (drag x90_amp x90_len x90_sigma).

Definition minus_x90_len : Z := x180_len.
Definition minus_x90_sigma : R := IZR minus_x90_len / 5.
Definition minus_x90_amp : R := - x90_amp.
Definition minus_x90_I_wf : list R :=
  fst (drag minus_x90_amp minus_x90_len minus_x90_sigma).
Definition minus_x90_Q_wf : list R :=
  snd (drag minus_x90_amp minus_x90_len minus_x90_sigma).

Definition y180_len : Z := x180_len.
Definition y180_sigma : R := IZR y180_len / 5.
Definition y180_amp : R := x180_amp.
Definition y180_I_wf : list R :=
  scale (-1) (snd (drag y180_amp y180_len y180_sigma)).
Definition y180_Q_wf : list R := fst (drag y180_amp y180_len y180_sigma).

Definition y90_len : Z := x180_len.
Definition y90_sigma : R := IZR y90_len / 5.
Definition y90_amp : R := y180_amp / 2.
Definition y90_I_wf : list R :=
  scale (-1) (snd (drag y90_amp y90_len y90_sigma)).
Definition y90_Q_wf : list R := fst (drag y90_amp y90_len y90_sigma).

Definition minus_y90_len : Z := y180_len.
Definition minus_y90_sigma : R := IZR minus_y90_len / 5.
Definition minus_y90_amp : R := - y90_amp.
Definition minus_y90_I_wf : list R :=
  scale (-1) (snd (drag minus_y90_amp minus_y90_len minus_y90_sigma)).
Definition minus_y90_Q_wf : list R :=
  fst (drag minus_y90_amp minus_y90_len minus_y90_sigma).

(* rr0 *)
Definition rr0_IF : Z := 60 * u_MHz.
Definition rr0_LO : R := 5.5 * IZR u_GHz.
Definition mixer_rr0_g : R := 0.0.
Definition mixer_rr0_phi : R := 0.0.
Definition rr1_IF : Z := 60 * u_MHz.
Definition rr1_LO : R := 5.5 * IZR u_GHz.
Definition mixer_rr1_g : R := 0.0.
Definition mixer_rr1_phi : R := 0.0.

Definition time_of_flight : Z := 180.

Definition short_readout_len : Z := 500.
Definition short_readout_amp : R := 0.4.
Definition readout_len : Z := 500.
Definition readout_amp : R := 0.1.
Definition long_readout_len : Z := 50000.
Definition long_readout_amp : R := 0.1.

(* IQ Plane *)
Definition rotation_angle : R := (0.0 / 180) * PI.
Definition ge_threshold : R := 0.0.

(* Flux line *)
Definition const_flux_len : Z := 612.
Definition const_flux_amp : R := 0.05.

Definition control_pulse (len : Z) (wfs : list (pyval * pyval)) : pyval :=
  PDict [
    "operation" :-> PStr "control";
    "length" :-> PInt len;
    "waveforms" :-> PDict wfs
  ].

Definition readout_pulse_entry (len : Z) (wf prefix : string) : pyval :=
  PDict [
    "operation" :-> PStr "measurement";
    "length" :-> PInt len;
    "waveforms" :-> PDict [
      "I" :-> PStr wf;
      "Q" :-> PStr "zero_wf"
    ];
    "integration_weights" :-> PDict [
      "cos" :-> PStr (prefix ++ "cosine_weights");
      "sin" :-> PStr (prefix ++ "sine_weights");
      "minus_sin" :-> PStr (prefix ++ "minus_sine_weights");
      "rotated_cos" :-> PStr (prefix ++ "rotated_cosine_weights");
      "rotated_sin" :-> PStr (prefix ++ "rotated_sine_weights");
      "rotated_minus_sin" :-> PStr (prefix ++ "rotated_minus_sine_weights")
    ];
    "digital_marker" :-> PStr "ON"
  ].

Definition weights (c s : R) (len : Z) : pyval :=
  PDict [
    "cosine" :-> PList [PTuple [PFloat c; PInt len]];
    "sine" :-> PList [PTuple [PFloat s; PInt len]]
  ].

(** The six kernels declared for one readout length. *)
Definition weights_family (prefix : string) (len : Z)
  : list (pyval * pyval) :=
  [ (prefix ++ "cosine_weights")%string :-> weights 1.0 0.0 len;
    (prefix ++ "sine_weights")%string :-> weights 0.0 1.0 len;
    (prefix ++ "minus_sine_weights")%string :-> weights 0.0 (-1.0) len;
    (prefix ++ "rotated_cosine_weights")%string :->
      weights (cos rotation_angle) (- sin rotation_angle) len;
    (prefix ++ "rotated_sine_weights")%string :->
      weights (sin rotation_angle) (cos rotation_angle) len;
    (prefix ++ "rotated_minus_sine_weights")%string :->
      weights (- sin rotation_angle) (- cos rotation_angle) len ].

Definition constant_wf (sample : R) : pyval :=
  PDict ["type" :-> PStr "constant"; "sample" :-> PFloat sample].

Definition arbitrary_wf (samples : list R) : pyval :=
  PDict ["type" :-> PStr "arbitrary"; "samples" :-> floats samples].

Definition qubit_operations : pyval :=
  PDict [
    "cw" :-> PStr "const_pulse";
    "saturation" :-> PStr "saturation_pulse";
    "gauss" :-> PStr "gaussian_pulse";
    "pi" :-> PStr "x180_pulse";
    "pi_half" :-> PStr "x90_pulse";
    "x90" :-> PStr "x90_pulse";
    "x180" :-> PStr "x180_pulse";
    "-x90" :-> PStr "-x90_pulse";
    "y90" :-> PStr "y90_pulse";
    "y180" :-> PStr "y180_pulse";
    "-y90" :-> PStr "-y90_pulse"
  ].

Definition resonator_operations : pyval :=
  PDict [
    "cw" :-> PStr "const_pulse";
    "displace" :-> PStr "displace_pulse";
    "short_readout" :-> PStr "short_readout_pulse";
    "readout" :-> PStr "readout_pulse";
    "long_readout" :-> PStr "long_readout_pulse"
  ].

Definition mix_inputs (i q : Z) (lo : pyval) (mixer : string) : pyval :=
  PDict [
    "I" :-> PTuple [PStr "con1"; PInt i];
    "Q" :-> PTuple [PStr "con1"; PInt q];
    "lo_frequency" :-> lo;
    "mixer" :-> PStr mixer
  ].

Definition resonator_element (lo : R) (mixer : string) (if_ : Z) : pyval :=
  PDict [
    "mixInputs" :-> mix_inputs 3 4 (PFloat lo) mixer;
    "intermediate_frequency" :-> PInt if_;
    "operations" :-> resonator_operations;
    "outputs" :-> PDict [
      "out1" :-> PTuple [PStr "con1"; PInt 1];
      "out2" :-> PTuple [PStr "con1"; PInt 2]
    ];
    "time_of_flight" :-> PInt time_of_flight;
    "smearing" :-> PInt 0
  ].

(** The list a call of [IQ_imbalance] returns while the module is loaded.
    An exception there would end the import, and no dictionary would be
    built: [PNone] stands for the entry that is then never made. *)
Definition returned_floats (r : Py.res (list R)) : pyval :=
  match r with
  | Py.Ok l => floats l
  | Py.Raise _ => PNone
  end.

Definition mixer_entry (if_ : Z) (lo : pyval) (g phi : R) : pyval :=
  PList [
    PDict [
      "intermediate_frequency" :-> PInt if_;
      "lo_frequency" :-> lo;
      "correction" :-> returned_floats (IQ_imbalance g phi)
    ]
  ].

Definition config : pyval :=
  PDict [
    "version" :-> PInt 1;
    "controllers" :-> PDict [
      "con1" :-> PDict [
        "analog_outputs" :-> PDict [
          1 #-> PDict ["offset" :-> PFloat 0.0];
          2 #-> PDict ["offset" :-> PFloat 0.0];
          3 #-> PDict ["offset" :-> PFloat 0.0];
          4 #-> PDict ["offset" :-> PFloat 0.0];
          5 #-> PDict ["offset" :-> PFloat 0.0];
          6 #-> PDict ["offset" :-> PFloat 0.0];
          7 #-> PDict ["offset" :-> PFloat 0.0]
        ];
        "digital_outputs" :-> PDict [];
        "analog_inputs" :-> PDict [
          1 #-> PDict ["offset" :-> PFloat 0.0; "gain_db" :-> PInt 0];
          2 #-> PDict ["offset" :-> PFloat 0.0; "gain_db" :-> PInt 0]
        ]
      ]
    ];
    "elements" :-> PDict [
      "qe0" :-> PDict [
        "mixInputs" :-> mix_inputs 1 2 (PInt qe0_LO) "mixer_qe0";
        "intermediate_frequency" :-> PInt qe0_IF;
        "operations" :-> qubit_operations
      ];
      "qe1" :-> PDict [
        "mixInputs" :-> mix_inputs 5 6 (PInt qe1_LO) "mixer_qe1";
        "intermediate_frequency" :-> PInt qe1_IF;
        "operations" :-> qubit_operations
      ];
      "crtqe1cqe0" :-> PDict [
        "mixInputs" :-> mix_inputs 1 2 (PInt qe0_LO) "mixer_qe1";
        "intermediate_frequency" :-> PInt qe1_IF;
        "operations" :-> PDict [
          "cw" :-> PStr "const_pulse"
        ]
      ];
      "rr0" :-> resonator_element rr0_LO "mixer_rr0" rr0_IF;
      "rr1" :-> resonator_element rr1_LO "mixer_rr1" rr1_IF;
      "qubit0_flux_qe" :-> PDict [
        "singleInput" :-> PDict [
          "port" :-> PTuple [PStr "con1"; PInt 7]
        ];
        "operations" :-> PDict [
          "iswap_pulse" :-> PStr "const_flux_pulse"
        ]
      ]
    ];
    "pulses" :-> PDict [
      "const_flux_pulse" :->
        control_pulse const_flux_len ["single" :-> PStr "const_flux_wf"];
      "const_pulse" :->
        control_pulse const_len
          ["I" :-> PStr "const_wf"; "Q" :-> PStr "zero_wf"];
      "square_pi_pulse" :->
        control_pulse square_pi_len
          ["I" :-> PStr "square_pi_wf"; "Q" :-> PStr "zero_wf"];
      "saturation_pulse" :->
        control_pulse saturation_len
          ["I" :-> PStr "saturation_drive_wf"; "Q" :-> PStr "zero_wf"];
      "gaussian_pulse" :->
        control_pulse gauss_len
          ["I" :-> PStr "gauss_wf"; "Q" :-> PStr "zero_wf"];
      "displace_pulse" :->
        control_pulse displace_len
          ["I" :-> PStr "displace_wf"; "Q" :-> PStr "displace_wf"];
      "x90_pulse" :->
        control_pulse x90_len
          ["I" :-> PStr "x90_I_wf"; "Q" :-> PStr "x90_Q_wf"];
      "x180_pulse" :->
        control_pulse x180_len
          ["I" :-> PStr "x180_I_wf"; "Q" :-> PStr "x180_Q_wf"];
      "-x90_pulse" :->
        control_pulse minus_x90_len
          ["I" :-> PStr "minus_x90_I_wf"; "Q" :-> PStr "minus_x90_Q_wf"];
      "y90_pulse" :->
        control_pulse y90_len
          ["I" :-> PStr "y90_I_wf"; "Q" :-> PStr "y90_Q_wf"];
      "y180_pulse" :->
        control_pulse y180_len
          ["I" :-> PStr "y180_I_wf"; "Q" :-> PStr "y180_Q_wf"];
      "-y90_pulse" :->
        control_pulse minus_y90_len
          ["I" :-> PStr "minus_y90_I_wf"; "Q" :-> PStr "minus_y90_Q_wf"];
      "short_readout_pulse" :->
        readout_pulse_entry short_readout_len "short_readout_wf" "short_";
      "readout_pulse" :->
        readout_pulse_entry readout_len "readout_wf" "";
      "long_readout_pulse" :->
        readout_pulse_entry long_readout_len "long_readout_wf" "long_"
    ];
    "waveforms" :-> PDict [
      "const_flux_wf" :-> constant_wf const_flux_amp;
      "const_wf" :-> constant_wf const_amp;
      "saturation_drive_wf" :-> constant_wf saturation_amp;
      "square_pi_wf" :-> constant_wf square_pi_amp;
      "displace_wf" :-> arbitrary_wf displace_wf;
      "zero_wf" :-> constant_wf 0.0;
      "gauss_wf" :-> arbitrary_wf gauss_wf;
      "x90_I_wf" :-> arbitrary_wf x90_I_wf;
      "x90_Q_wf" :-> arbitrary_wf x90_Q_wf;
      "x180_I_wf" :-> arbitrary_wf x180_I_wf;
      "x180_Q_wf" :-> arbitrary_wf x180_Q_wf;
      "minus_x90_I_wf" :-> arbitrary_wf minus_x90_I_wf;
      "minus_x90_Q_wf" :-> arbitrary_wf minus_x90_Q_wf;
      "y90_Q_wf" :-> arbitrary_wf y90_Q_wf;
      "y90_I_wf" :-> arbitrary_wf y90_I_wf;
      "y180_Q_wf" :-> arbitrary_wf y180_Q_wf;
      "y180_I_wf" :-> arbitrary_wf y180_I_wf;
      "minus_y90_Q_wf" :-> arbitrary_wf minus_y90_Q_wf;
      "minus_y90_I_wf" :-> arbitrary_wf minus_y90_I_wf;
      "short_readout_wf" :-> constant_wf short_readout_amp;
      "readout_wf" :-> constant_wf readout_amp;
      "long_readout_wf" :-> constant_wf long_readout_amp
    ];
    "digital_waveforms" :-> PDict [
      "ON" :-> PDict ["samples" :-> PList [PTuple [PInt 1; PInt 0]]]
    ];
    "integration_weights" :-> PDict (
      weights_family "short_" short_readout_len ++
      weights_family "" readout_len ++
      weights_family "long_" long_readout_len);
    "mixers" :-> PDict [
      "mixer_qe0" :->
        mixer_entry qe0_IF (PInt qe0_LO) mixer_qe0_g mixer_qe0_phi;
      "mixer_qe1" :->
        mixer_entry qe1_IF (PInt qe1_LO) mixer_qe1_g mixer_qe1_phi;
      "mixer_rr0" :->
        mixer_entry rr0_IF (PFloat rr0_LO) mixer_rr0_g mixer_rr0_phi;
      "mixer_rr1" :->
        mixer_entry rr1_IF (PFloat rr1_LO) mixer_rr1_g mixer_rr1_phi
    ]
  ].

End Config.

End TwoQubitRB.

(** ** Well-formedness of a configuration dictionary *)

Module Schema.
Import PyData.

(** [v] is a string naming a key of the dictionary [d]. *)
Definition names_key (d v : pyval) : bool :=
  match v with
  | PStr name => has_key name d
  | _ => false
  end.

(** A pulse entry: an operation type, a numeric length and a waveform
    mapping into the waveform table. *)
Definition pulse_ok (waveforms p : pyval) : bool :=
  match dict_get "operation" p, dict_get "length" p,
        dict_get "waveforms" p with
  | Some op, Some len, Some (PDict wfs) =>
      is_str op && is_numeric len &&
      forallb (fun kv => names_key waveforms (snd kv)) wfs
  | _, _, _ => false
  end.

Definition pulses_ok (cfg : pyval) : bool :=
  match dict_get "pulses" cfg, dict_get "waveforms" cfg with
  | Some (PDict ps), Some (PDict wfs) =>
      forallb (fun kv => pulse_ok (PDict wfs) (snd kv)) ps
  | _, _ => false
  end.

(** Every operation of an element names a pulse. *)
Definition element_ok (pulses e : pyval) : bool :=
  forallb (fun kv => names_key pulses (snd kv)) (table "operations" e).

Definition elements_ok (cfg : pyval) : bool :=
  match dict_get "elements" cfg, dict_get "pulses" cfg with
  | Some (PDict es), Some (PDict ps) =>
      forallb (fun kv => element_ok (PDict ps) (snd kv)) es
  | _, _ => false
  end.

Definition is_measurement (p : pyval) : bool :=
  match dict_get "operation" p with
  | Some (PStr op) => String.eqb op "measurement"
  | _ => false
  end.

(** The kernel named by [wname] exists in [weights], has a cosine and a
    sine list, and each list covers exactly the duration [len]. *)
Definition kernel_covers (weights len wname : pyval) : Prop :=
  exists name w cosl sinl d,
    wname = PStr name /\
    dict_get name weights = Some w /\
    dict_get "cosine" w = Some (PList cosl) /\
    dict_get "sine" w = Some (PList sinl) /\
    num len = Some d /\
    covered cosl = Some d /\
    covered sinl = Some d.

(** Every kernel a measurement pulse refers to covers the pulse. *)
Definition measurement_ok (weights p : pyval) : Prop :=
  is_measurement p = true ->
  exists len,
    dict_get "length" p = Some len /\
    Forall (fun kv => kernel_covers weights len (snd kv))
           (table "integration_weights" p).

Definition weights_ok (cfg : pyval) : Prop :=
  exists weights,
    dict_get "integration_weights" cfg = Some weights /\
    Forall (fun kv => measurement_ok weights (snd kv)) (table "pulses" cfg).

End Schema.

(** ** Vocabulary of the statements *)

Section StoreVocabulary.
Import NumPy.
Local Open Scope list_scope.

(** [st'] keeps every array object of [st] as it was and only adds new
    ones; nothing but logarithm arguments is added to the record. *)
Definition extends (st st' : store) : Prop :=
  (exists new, cells st' = cells st ++ new) /\
  (exists args, logged st' = logged st ++ args).


End StoreVocabulary.

Section GaussVocabulary.
Import Py NumPy.
Local Open Scope list_scope.
Local Open Scope R_scope.



(** The [i]-th point of the grid of [num >= 2] points. *)
Definition grid_point (start stop : R) (num : Z) (i : nat) : R :=
  start + INR i * ((stop - start) / IZR (num - 1)).


(** [g**2] is within the range of the doubles: not out of range, and zero
    only if [g] is. *)
Definition square_in_range (g : R) : Prop :=
  PyFloat.overflows (g ^ 2) = false /\
  (PyFloat.underflows (g ^ 2) = false \/ g = 0).


End GaussVocabulary.

Section FittingVocabulary.
Import Py NumPy.
Local Open Scope list_scope.
Local Open Scope R_scope.

(** The elementwise maximum with [epsilon]. *)
Definition clamp (epsilon : R) (qv : list R) : list R :=
  map (fun x => Rmax x epsilon) qv.

(** What [cross_entropy] computes from the contents of its operands. *)
Definition cross_entropy_outcome (pv qv : list R) (epsilon : R) : res R :=
  match broadcast2 Rmult pv (map ln (clamp epsilon qv)) with
  | Some w => Ok (- fold_left Rplus w 0)
  | None => Raise ValueError
  end.

(** What [gauss] computes from its arguments. *)
Definition gauss_outcome (amplitude mu sigma : R) (length : Z)
  : res (list R) :=
  match PyFloat.int_true_divide (- length) 2 with
  | Raise e => Raise e
  | Ok start =>
      match PyFloat.int_true_divide length 2 with
      | Raise e => Raise e
      | Ok stop =>
          if (length <? 0)%Z then Raise ValueError
          else
            match PyFloat.float_pow sigma 2 with
            | Raise e => Raise e
            | Ok s2 =>
                match PyFloat.float_mul 2 s2 with
                | Raise e => Raise e
                | Ok c =>
                    match linspace_samples start stop length with
                    | [] => Ok []
                    | ts =>
                        if Req_dec_T c 0 then Raise NonFinite
                        else
                          Ok (map (fun t =>
                                     amplitude * exp (- ((t - mu) ^ 2) / c))
                                ts)
                    end
                end
            end
      end
  end.

End FittingVocabulary.

Section ResetVocabulary.
Import Py Qua.

(** [v < k] holds ([false] when the comparison is undefined). *)
Definition is_lt (v : value) (k : Z) : bool :=
  match lt_int v k with
  | Ok b => b
  | Raise _ => false
  end.

(** [v] is a number that is not integer-valued. *)
Definition not_integer_valued (v : value) : bool :=
  match float_is_integer v with
  | Ok b => negb b
  | Raise _ => false
  end.

(** The [max_tries] keyword (1 when absent) is [None], not integer-valued,
    or less than 1. *)
Definition max_tries_rejected (kw : kwargs) : bool :=
  let m := kwargs_get (kw_max_tries kw) (VInt 1) in
  is_none m || not_integer_valued m || is_lt m 1.

Definition absent {A : Type} (field : option A) : bool :=
  match field with
  | None => true
  | Some _ => false
  end.

(** The condition under which [reset_qubit] raises, read literally:
    [cooldown_time] absent or less than 4; [threshold] absent; [max_tries]
    rejected. *)
Definition stated_raise_condition (method : string) (kw : kwargs) : bool :=
  (String.eqb method "cooldown" &&
   (absent (kw_cooldown_time kw) ||
    is_lt (kwargs_get (kw_cooldown_time kw) VNone) 4))
  || (String.eqb method "active" &&
      (absent (kw_threshold kw) || max_tries_rejected kw)).

(** The condition of the code: a keyword given as [None] counts as absent. *)
Definition raise_condition (method : string) (kw : kwargs) : bool :=
  (String.eqb method "cooldown" &&
   (is_none (kwargs_get (kw_cooldown_time kw) VNone) ||
    is_lt (kwargs_get (kw_cooldown_time kw) VNone) 4))
  || (String.eqb method "active" &&
      (is_none (kwargs_get (kw_threshold kw) VNone) ||
       max_tries_rejected kw)).

Definition validation_messages : list string :=
  [cooldown_message; threshold_message; max_tries_message].

Definition empty_program : program := mkProgram [] [].

(** The keyword was given, as Python [None]. *)
Definition explicit_none (field : option value) : bool :=
  match field with
  | Some VNone => true
  | _ => false
  end.

End ResetVocabulary.

Section SchemaVocabulary.
Import PyData.

(** [v] is a string that is a key of the table [tbl]. *)
Definition names_entry_of (tbl : list (pyval * pyval)) (v : pyval) : Prop :=
  exists name x, v = PStr name /\ assoc name tbl = Some x.

(** Every pulse carries an operation type, a numeric length and a waveform
    mapping whose waveform names are keys of the waveform table. *)
Definition pulses_well_formed (cfg : pyval) : Prop :=
  forall pname p,
    In (pname, p) (table "pulses" cfg) ->
    (exists op, dict_get "operation" p = Some (PStr op)) /\
    (exists len, dict_get "length" p = Some len /\ is_numeric len = true) /\
    (exists wfs,
       dict_get "waveforms" p = Some (PDict wfs) /\
       forall k w, In (k, w) wfs ->
                   names_entry_of (table "waveforms" cfg) w).

(** Every operation listed under an element names a pulse. *)
Definition operations_well_formed (cfg : pyval) : Prop :=
  forall ename e op pn,
    In (ename, e) (table "elements" cfg) ->
    In (op, pn) (table "operations" e) ->
    names_entry_of (table "pulses" cfg) pn.

End SchemaVocabulary.

Section CrossEntropyVocabulary.
Local Open Scope list_scope.
Local Open Scope R_scope.



End CrossEntropyVocabulary.

Section ResetNumbers.
Import Qua.

(** [v] is an int too large to be converted to a float. *)
Definition too_large (v : value) : bool :=
  match v with
  | VInt z => Py.raises (float_of_int z)
  | _ => false
  end.

(** The keywords make [reset_qubit] convert an int that is too large:
    method ['active'] with a threshold, and [max_tries] (1 when absent) or
    the threshold is such an int. *)
Definition overflow_condition (method : string) (kw : kwargs) : bool :=
  String.eqb method "active" &&
  negb (is_none (kwargs_get (kw_threshold kw) VNone)) &&
  (too_large (kwargs_get (kw_max_tries kw) (VInt 1)) ||
   too_large (kwargs_get (kw_threshold kw) VNone)).

(** The conversion [float(max_tries)] of the validation fails, before the
    validation has come to a verdict on [max_tries]. *)
Definition overflow_in_validation (method : string) (kw : kwargs) : bool :=
  String.eqb method "active" &&
  negb (is_none (kwargs_get (kw_threshold kw) VNone)) &&
  too_large (kwargs_get (kw_max_tries kw) (VInt 1)).

(** The body of the loop of [active_reset]. *)
Definition active_reset_body (threshold : value) (qubit resonator : string)
    (Ig counter : var) : list stmt :=
  [Measure "readout" resonator None
     [DualDemodFull "rotated_cos" "out1" "rotated_sin" "out2" Ig];
   Play "x180" qubit (Some (Gt (Var Ig) (Lit threshold)));
   Assign counter (Add (Var counter) (Lit (VInt 1)))].

End ResetNumbers.

Section ProgramVocabulary.
Import Qua.
Local Open Scope list_scope.

(** [l'] is [l] followed by further entries. *)
Definition list_extends {A : Type} (l l' : list A) : Prop :=
  exists more, l' = l ++ more.

(** [st'] keeps every declaration and every statement of [st], in place,
    and only adds new ones after them. *)
Definition program_extends (st st' : program) : Prop :=
  list_extends (declared st) (declared st') /\
  list_extends (emitted st) (emitted st').

End ProgramVocabulary.

(** ** two_qubit_rb_config.py: the measurement macros *)

Section MeasureMacros.
Import Py Qua.
Local Open Scope py_scope.

(**
<<
def measure_qubit_0(qubit):
    I = declare(fixed)
    Q = declare(fixed)
    measure(
        "readout",
        "rr0",
        None,
        dual_demod.full("cos", "out1", "sin", "out2", I),
        dual_demod.full("minus_sin", "out1", "cos", "out2", Q),
    )
    assign(qubit, I > 0)
    return Q
>>
*)
Definition measure_qubit_0 (qubit : var) : qua var :=
  I <- declare fixed ;;
  Q <- declare fixed ;;
  measure "readout" "rr0" None
    [DualDemodFull "cos" "out1" "sin" "out2" I;
     DualDemodFull "minus_sin" "out1" "cos" "out2" Q] ;;;
  assign qubit (Gt (Var I) (Lit (VInt 0))) ;;;
  ret Q.

(** The same macro for the second resonator, ["rr1"]. *)
Definition measure_qubit_1 (qubit : var) : qua var :=
  I <- declare fixed ;;
  Q <- declare fixed ;;
  measure "readout" "rr1" None
    [DualDemodFull "cos" "out1" "sin" "out2" I;
     DualDemodFull "minus_sin" "out1" "cos" "out2" Q] ;;;
  assign qubit (Gt (Var I) (Lit (VInt 0))) ;;;
  ret Q.

End MeasureMacros.

(** ** A statement against a configuration *)

Module Resolve.
Import PyData Qua.

(** The pulse entry an operation of an element stands for. *)
Definition pulse_of (cfg : pyval) (element operation : string)
  : option pyval :=
  match dict_get "elements" cfg with
  | Some els =>
      match dict_get element els with
      | Some el =>
          match dict_get "operations" el with
          | Some ops =>
              match dict_get operation ops, dict_get "pulses" cfg with
              | Some (PStr pname), Some pulses => dict_get pname pulses
              | _, _ => None
              end
          | None => None
          end
      | None => None
      end
  | None => None
  end.

(** The named output of an element is declared. *)
Definition has_output (cfg : pyval) (element out : string) : bool :=
  match dict_get "elements" cfg with
  | Some els =>
      match dict_get element els with
      | Some el =>
          match dict_get "outputs" el with
          | Some outs => has_key out outs
          | None => false
          end
      | None => false
      end
  | None => false
  end.

(** The integration-weights label is declared by the pulse. *)
Definition has_weights (pulse : pyval) (label : string) : bool :=
  match dict_get "integration_weights" pulse with
  | Some ws => has_key label ws
  | None => false
  end.

Definition demod_resolves (cfg pulse : pyval) (element : string)
    (d : demod) : bool :=
  match d with
  | DualDemodFull iw1 out1 iw2 out2 _ =>
      has_weights pulse iw1 && has_output cfg element out1 &&
      has_weights pulse iw2 && has_output cfg element out2
  end.

(** Every name a statement uses is defined by the configuration: a played
    operation is an operation of the element; a measured operation is an
    operation of the element that stands for a measurement pulse, and the
    integration weights and outputs of each demodulation are declared. *)
Fixpoint resolves (cfg : pyval) (s : stmt) : bool :=
  match s with
  | Play operation element _ =>
      match pulse_of cfg element operation with
      | Some _ => true
      | None => false
      end
  | Measure operation element _ outputs =>
      match pulse_of cfg element operation with
      | Some pulse =>
          Schema.is_measurement pulse &&
          forallb (demod_resolves cfg pulse element) outputs
      | None => false
      end
  | While _ body => forallb (resolves cfg) body
  | UnfinishedWhile _ body => forallb (resolves cfg) body
  | _ => true
  end.

End Resolve.

(** ** Cross references inside a configuration dictionary *)

Module Wiring.
Import PyData.

Definition has_int_key (n : Z) (d : pyval) : bool :=
  existsb (fun kv => match fst kv with
                     | PInt m => Z.eqb n m
                     | _ => false
                     end)
          (dict_items d).

(** The port [(controller, number)] is declared under [kind]
    (["analog_outputs"] or ["analog_inputs"]) of that controller. *)
Definition port_declared (cfg : pyval) (kind : string) (port : pyval)
  : bool :=
  match port with
  | PTuple [PStr con; PInt n] =>
      match dict_get "controllers" cfg with
      | Some cs =>
          match dict_get con cs with
          | Some c =>
              match dict_get kind c with
              | Some ports => has_int_key n ports
              | None => false
              end
          | None => false
          end
      | None => false
      end
  | _ => false
  end.

(** The ports an element drives ([singleInput] or [mixInputs]). *)
Definition input_ports (el : pyval) : list pyval :=
  match dict_get "singleInput" el, dict_get "mixInputs" el with
  | Some si, _ =>
      match dict_get "port" si with
      | Some p => [p]
      | None => []
      end
  | None, Some mi =>
      match dict_get "I" mi, dict_get "Q" mi with
      | Some i, Some q => [i; q]
      | _, _ => []
      end
  | None, None => []
  end.

(** An element drives at least one port, every port it drives is a
    declared analog output and every port it reads is a declared analog
    input. *)
Definition element_wired (cfg el : pyval) : bool :=
  negb (Nat.eqb (List.length (input_ports el)) 0) &&
  forallb (port_declared cfg "analog_outputs") (input_ports el) &&
  forallb (fun kv => port_declared cfg "analog_inputs" (snd kv))
          (table "outputs" el).

(** The digital marker of a pulse, when it has one, names a digital
    waveform. *)
Definition marker_declared (cfg p : pyval) : bool :=
  match dict_get "digital_marker" p with
  | Some m =>
      match dict_get "digital_waveforms" cfg with
      | Some dw => Schema.names_key dw m
      | None => false
      end
  | None => true
  end.

Definition wired (cfg : pyval) : bool :=
  forallb (fun kv => element_wired cfg (snd kv)) (table "elements" cfg) &&
  forallb (fun kv => marker_declared cfg (snd kv)) (table "pulses" cfg).

(** An element driven through a mixer names a mixer of the configuration
    that has an entry for exactly the element's intermediate and local
    oscillator frequencies; [correction] is the correction of that
    entry. *)
Definition mixer_matches (cfg el : pyval) (correction : pyval) : Prop :=
  match dict_get "mixInputs" el with
  | None => True
  | Some mi =>
      exists name entries entry f lo,
        dict_get "mixer" mi = Some (PStr name) /\
        assoc name (table "mixers" cfg) = Some (PList entries) /\
        In entry entries /\
        dict_get "intermediate_frequency" el = Some f /\
        dict_get "intermediate_frequency" entry = Some f /\
        dict_get "lo_frequency" mi = Some lo /\
        dict_get "lo_frequency" entry = Some lo /\
        dict_get "correction" entry = Some correction
  end.

(** The waveform named [w] exists, and if it is given by samples there are
    exactly [len] of them. *)
Definition waveform_fits (cfg : pyval) (len : Z) (w : pyval) : Prop :=
  exists wname wf,
    w = PStr wname /\
    assoc wname (table "waveforms" cfg) = Some wf /\
    forall samples,
      dict_get "samples" wf = Some (PList samples) ->
      Z.of_nat (List.length samples) = len.

Definition pulse_samples_fit (cfg p : pyval) : Prop :=
  exists len,
    dict_get "length" p = Some (PInt len) /\
    Forall (fun kv => waveform_fits cfg len (snd kv))
           (table "waveforms" p).

End Wiring.

(** ** Further Python exceptions *)

Module PyX.

(** The exceptions of [Py], and those raised by subscripting a dictionary
    or a list and by reading an attribute. *)
Inductive exn : Type :=
| Core (e : Py.exn)
| KeyError
| IndexError
| AttributeError.

Inductive res (A : Type) : Type :=
| Ok (a : A)
| Raise (e : exn).
Arguments Ok {A} a.
Arguments Raise {A} e.

Definition M (S A : Type) : Type := S -> res A * S.

Definition ret {S A : Type} (a : A) : M S A := fun s => (Ok a, s).

Definition raise {S A : Type} (e : exn) : M S A := fun s => (Raise e, s).

Definition bind {S A B : Type} (m : M S A) (k : A -> M S B) : M S B :=
  fun s =>
    match m s with
    | (Ok a, s') => k a s'
    | (Raise e, s') => (Raise e, s')
    end.

(** A computation of [Py] as a computation with the larger set of
    exceptions. *)
Definition of_py {S A : Type} (m : Py.M S A) : M S A :=
  fun s =>
    match m s with
    | (Py.Ok a, s') => (Ok a, s')
    | (Py.Raise e, s') => (Raise (Core e), s')
    end.

(** [for x in l: body(x)] *)
Fixpoint for_each {S A : Type} (l : list A) (body : A -> M S unit)
  : M S unit :=
  match l with
  | [] => ret tt
  | x :: rest => bind (body x) (fun _ => for_each rest body)
  end.

(** [[f(x) for x in l]] *)
Fixpoint comprehension {S A B : Type} (l : list A) (f : A -> M S B)
  : M S (list B) :=
  match l with
  | [] => ret []
  | x :: rest =>
      bind (f x) (fun y =>
      bind (comprehension rest f) (fun ys => ret (y :: ys)))
  end.

(** [range(n)] *)
Definition range (n : Z) : list Z := map Z.of_nat (seq 0 (Z.to_nat n)).

(** [l[i]] for a list and an index [i >= 0]. *)
Definition getitem {S A : Type} (l : list A) (i : Z) : M S A :=
  match (if i <? 0 then None else nth_error l (Z.to_nat i)) with
  | Some x => ret x
  | None => raise IndexError
  end.

(** [d[k]] for a dictionary, given the equality of its keys. *)
Fixpoint lookup {K V : Type} (eqb : K -> K -> bool) (d : list (K * V))
    (k : K) : option V :=
  match d with
  | [] => None
  | (k', v) :: rest => if eqb k k' then Some v else lookup eqb rest k
  end.

Definition subscript {S K V : Type} (eqb : K -> K -> bool)
    (d : list (K * V)) (k : K) : M S V :=
  match lookup eqb d k with
  | Some v => ret v
  | None => raise KeyError
  end.

(** [obj.attr] for an attribute the object may lack. *)
Definition getattr {S A : Type} (field : option A) : M S A :=
  match field with
  | Some v => ret v
  | None => raise AttributeError
  end.

Definition raises {A : Type} (r : res A) : bool :=
  match r with
  | Raise _ => true
  | Ok _ => false
  end.

End PyX.

Declare Scope pyx_scope.
Delimit Scope pyx_scope with pyx.
Notation "x <- m ;; k" := (PyX.bind m (fun x => k))
  (at level 61, m at next level, right associativity) : pyx_scope.
Notation "m ;;; k" := (PyX.bind m (fun _ => k))
  (at level 61, right associativity) : pyx_scope.

(** ** The QUA program builder with switch statements and streams *)

Module QuaX.
Import PyX.
Local Open Scope pyx_scope.

Definition var : Type := Qua.var.

Definition stream : Type := nat.

(** Statements: those of [Qua], and the further ones the gate macros
    emit.  [PlayAmp op el vs] is [el.play(op, amp( *vs ))] on a channel;
    [AssignVariablesToElement] is the call of the vendor's helper of that
    name. *)
Inductive stmt : Type :=
| Base (s : Qua.stmt)
| PlayAmp (operation element : string) (amp : list var)
| FrameRotation2pi (angle : Q) (element : string)
| Switch (on : var) (unsafe : bool) (cases : list (Z * list stmt))
| UnfinishedSwitch (on : var) (unsafe : bool)
    (cases : list (Z * list stmt))
| AssignVariablesToElement (element : string) (I Q : var).

(** The program under construction.  [cases] collects the cases of the
    [switch_] block being built. *)
Record builder : Type := mkBuilder {
  declared : list Qua.qtype;
  streams : nat;
  emitted : list stmt;
  cases : list (Z * list stmt)
}.

Definition qua (A : Type) : Type := M builder A.

Definition declare (t : Qua.qtype) : qua var :=
  fun st =>
    (Ok (List.length (declared st)),
     mkBuilder (declared st ++ [t]) (streams st) (emitted st) (cases st)).

Definition declare_stream : qua stream :=
  fun st =>
    (Ok (streams st),
     mkBuilder (declared st) (S (streams st)) (emitted st) (cases st)).

Definition emit (s : stmt) : qua unit :=
  fun st =>
    (Ok tt,
     mkBuilder (declared st) (streams st) (emitted st ++ [s]) (cases st)).

(** [assign(target, value)] with a Python number. *)
Definition assign (target : var) (value : Qua.value) : qua unit :=
  emit (Base (Qua.Assign target (Qua.Lit value))).

(** [play(operation, element)] *)
Definition play (operation element : string) : qua unit :=
  emit (Base (Qua.Play operation element None)).

(** [with case_(i): body], inside a [switch_] block: the body is emitted in
    a scope of its own and becomes the case [i] of the block.  When the
    body ends in an exception nothing it has emitted is taken back: the
    case stays as far as it got, the last one of its block. *)
Definition case_ (i : Z) (body : qua unit) : qua unit :=
  fun st =>
    match body (mkBuilder (declared st) (streams st) [] (cases st)) with
    | (r, st') =>
        (r,
         mkBuilder (declared st') (streams st') (emitted st)
           (cases st' ++ [(i, emitted st')]))
    end.

(** [with switch_(on, unsafe=...): body]: the cases registered by the body
    make one switch statement of the enclosing scope.  When the body ends
    in an exception the block stays in the program as it stands,
    unfinished, with the cases registered so far. *)
Definition switch_ (on : var) (unsafe : bool) (body : qua unit) : qua unit :=
  fun st =>
    match body (mkBuilder (declared st) (streams st) [] []) with
    | (Ok _, st') =>
        (Ok tt,
         mkBuilder (declared st') (streams st')
           (emitted st ++ [Switch on unsafe (cases st')]) (cases st))
    | (Raise e, st') =>
        (Raise e,
         mkBuilder (declared st') (streams st')
           (emitted st ++ [UnfinishedSwitch on unsafe (cases st')])
           (cases st))
    end.

End QuaX.

(** ** macros.py: the gate macros *)

Module Gates.
Import PyX QuaX.
Local Open Scope pyx_scope.

(** A gate object: its [name] and [label] attributes, when it has them. *)
Record gate_obj : Type := mkGate {
  name : option string;
  label : option string
}.

(** An entry of [gate_dict]: [{"gate": ..., "amp_matrix": [...]}]. *)
Record gate_entry : Type := mkEntry {
  gate : gate_obj;
  amp_matrix : list Qua.value
}.

(** [gate_dict], keyed by the gate index. *)
Definition gate_dict : Type := list (Z * gate_entry).

(**
<<
    with switch_(gate):
        for i in range(len(gate_dict)):
            with case_(i):
                for j in range(4):
                    assign(amp_matrix[j], gate_dict[i]["amp_matrix"][j])
>>
*)
Definition assign_amplitude_matrix (gate : var) (amp_matrix : list var)
    (gate_dict : gate_dict) : qua unit :=
  switch_ gate false
    (for_each (range (Z.of_nat (List.length gate_dict))) (fun i =>
       case_ i
         (for_each (range 4) (fun j =>
            target <- getitem amp_matrix j ;;
            entry <- subscript Z.eqb gate_dict i ;;
            value <- getitem (Gates.amp_matrix entry) j ;;
            assign target value)))).

(**
<<
    I, Q = [[declare(fixed) for _ in range(n_qubits)] for _ in range(2)]
    I_st, Q_st = [[declare_stream() for _ in range(n_qubits)] for _ in range(2)]
    for i in range(n_qubits):
        assign_variables_to_element(readout_elements[i].name, I[i], Q[i])
    return I, I_st, Q, Q_st
>>
    [readout_elements] is given by the names of its elements. *)
Definition qua_declaration (n_qubits : Z) (readout_elements : list string)
  : qua (list var * list stream * list var * list stream) :=
  I <- comprehension (range n_qubits) (fun _ => declare Qua.fixed) ;;
  Q <- comprehension (range n_qubits) (fun _ => declare Qua.fixed) ;;
  I_st <- comprehension (range n_qubits) (fun _ => declare_stream) ;;
  Q_st <- comprehension (range n_qubits) (fun _ => declare_stream) ;;
  for_each (range n_qubits) (fun i =>
    element <- getitem readout_elements i ;;
    Ii <- getitem I i ;;
    Qi <- getitem Q i ;;
    emit (AssignVariablesToElement element Ii Qi)) ;;;
  ret (I, I_st, Q, Q_st).

(**
<<
    with switch_(gate, unsafe=True):
        for j in range(2):  # X90, Y90
            with case_(j):
                qubit_el.play(baseline_op, amp( *amp_matrix ))
        with case_(2):  # T gate
            frame_rotation_2pi(0.125, qubit_el.name)
>>
    [qubit_el] is given by the name of the channel. *)
Definition play_T_gate_set (gate : var) (amp_matrix : list var)
    (qubit_el baseline_op : string) : qua unit :=
  switch_ gate true
    (for_each (range 2) (fun j =>
       case_ j (emit (PlayAmp baseline_op qubit_el amp_matrix))) ;;;
     case_ 2 (emit (FrameRotation2pi (1 # 8) qubit_el))).

(**
<<
    with switch_(gate, unsafe=True):
        for j in range(3):  # X90, Y90, SW
            with case_(j):
                qubit_el.play(baseline_op, amp( *amp_matrix ))
>>
*)
Definition play_SW_gate_set (gate : var) (amp_matrix : list var)
    (qubit_el baseline_op : string) : qua unit :=
  switch_ gate true
    (for_each (range 3) (fun j =>
       case_ j (emit (PlayAmp baseline_op qubit_el amp_matrix)))).

(**
<<
    if gate_dict[2]["gate"].name == "t":  # T gate involves frame rotation
        play_T_gate_set(gate, amp_matrix, qubit_el, baseline_op)
    elif gate_dict[2]["gate"].label == "sw":
        play_SW_gate_set(gate, amp_matrix, qubit_el, baseline_op)
    else:
        qubit_el.play(baseline_op, amp( *amp_matrix ))
>>
*)
Definition play_random_sq_gate (gate : var) (amp_matrix : list var)
    (qubit_el : string) (gate_dict : gate_dict) (baseline_op : string)
  : qua unit :=
  entry <- subscript Z.eqb gate_dict 2 ;;
  n <- getattr (name (Gates.gate entry)) ;;
  if String.eqb n "t" then
    play_T_gate_set gate amp_matrix qubit_el baseline_op
  else
    entry' <- subscript Z.eqb gate_dict 2 ;;
    l <- getattr (label (Gates.gate entry')) ;;
    if String.eqb l "sw" then
      play_SW_gate_set gate amp_matrix qubit_el baseline_op
    else emit (PlayAmp baseline_op qubit_el amp_matrix).

(** Equality of the keys [(control, target)] of [CZ_operations]. *)
Definition pair_eqb (a b : Z * Z) : bool :=
  (fst a =? fst b) && (snd a =? snd b).

(**
<<
    cz_el, cz_op = CZ_operations[(control, target)]
    play(cz_op, cz_el)
>>
*)
Definition cz_gate (control target : Z)
    (CZ_operations : list ((Z * Z) * (string * string))) : qua unit :=
  op <- subscript pair_eqb CZ_operations (control, target) ;;
  let '(cz_el, cz_op) := op in
  play cz_op cz_el.

End Gates.

Section GateVocabulary.
Import QuaX.
Local Open Scope list_scope.

(** The calls [assign_variables_to_element(els[i], d + i, d + k + i)] for
    the indices [i] of a list. *)
Definition element_assignments (els : list string) (d k : nat)
    (indices : list nat) : list stmt :=
  map (fun i =>
         AssignVariablesToElement (nth i els EmptyString) (d + i)%nat
           (d + k + i)%nat)
      indices.

(** The four assignments of the case of one gate. *)
Definition amplitude_assignments (amp_matrix : list var)
    (values : list Qua.value) : list stmt :=
  map (fun tv => Base (Qua.Assign (fst tv) (Qua.Lit (snd tv))))
      (combine (firstn 4 amp_matrix) (firstn 4 values)).

(** A gate index has an entry with at least four amplitudes. *)
Definition entry_usable (gate_dict : Gates.gate_dict) (i : Z) : bool :=
  match PyX.lookup Z.eqb gate_dict i with
  | Some e => (4 <=? List.length (Gates.amp_matrix e))%nat
  | None => false
  end.

(** The case of the switch for the gate index [i]. *)
Definition amplitude_case (amp_matrix : list var)
    (gate_dict : Gates.gate_dict) (i : Z) : Z * list stmt :=
  (i,
   match PyX.lookup Z.eqb gate_dict i with
   | Some e => amplitude_assignments amp_matrix (Gates.amp_matrix e)
   | None => []
   end).

Definition is_lookup_error (e : PyX.exn) : bool :=
  match e with
  | PyX.KeyError | PyX.IndexError => true
  | _ => false
  end.

End GateVocabulary.

Section GateVocabulary2.
Import QuaX.

(** The case of gate index [i] can be built: there are four amplitude
    variables and the index has an entry with four amplitudes. *)
Definition case_buildable (amp_matrix : list var)
    (gate_dict : Gates.gate_dict) (i : Z) : bool :=
  (4 <=? List.length amp_matrix)%nat && entry_usable gate_dict i.

(** The loop [for j in range(4): assign(...)] of one case of
    [assign_amplitude_matrix]. *)
Definition four_assignments (amp_matrix : list var)
    (gate_dict : Gates.gate_dict) (i : Z) : qua unit :=
  PyX.for_each (PyX.range 4) (fun j =>
    PyX.bind (PyX.getitem amp_matrix j) (fun target =>
    PyX.bind (PyX.subscript Z.eqb gate_dict i) (fun entry =>
    PyX.bind (PyX.getitem (Gates.amp_matrix entry) j) (fun value =>
    assign target value)))).

End GateVocabulary2.

(** ** macros.py: [fit_exponential_decay] *)

Section FitDecay.
Import PyX NumPy.
Local Open Scope list_scope.
Local Open Scope R_scope.
Local Open Scope pyx_scope.

(** A float that may be [np.inf]. *)
Inductive xfloat : Type :=
| Finite (r : R)
| Inf.

(** The covariance matrix [pcov] of the two fitted parameters. *)
Definition cov : Type := ((R * R) * (R * R))%type.

(** [np.diag(pcov)] *)
Definition diag (pcov : cov) : R * R := (fst (fst pcov), snd (snd pcov)).

(** [np.clip(x, lo, hi)] on a scalar. *)
Definition np_clip (x lo hi : R) : R := Rmin (Rmax x lo) hi.

(** One entry of [(fidelities > 0) & (fidelities < 1)]. *)
Definition in_unit_interval (f : R) : bool :=
  if Rlt_dec 0 f then (if Rlt_dec f 1 then true else false) else false.

(** The entries of [v] selected by a boolean mask of the same length. *)
Definition select (v : list R) (mask : list bool) : list R :=
  map fst (filter snd (combine v mask)).

(** [a[mask]] with a boolean mask: a new array; numpy raises [IndexError]
    when the mask and the array differ in length.  The boolean arrays
    themselves are temporaries and are not kept in the store. *)
Definition boolean_index (a : ndarray) (mask : list bool)
  : M store ndarray :=
  v <- of_py (read a) ;;
  if Nat.eqb (List.length v) (List.length mask)
  then of_py (alloc (select v mask))
  else raise IndexError.

(** numpy's elementwise power, as for [exponential_decay]. *)
Variable power : R -> R -> R.

(** [scipy.stats.linregress(x, y)]: the slope and the intercept (the other
    three results are discarded by the caller). *)
Variable linregress : ndarray -> ndarray -> np (R * R).

(** [scipy.optimize.curve_fit(f, xdata, ydata, p0=..., bounds=((0, 0),
    (1, 1)), nan_policy="omit")]: the fitted parameters and [pcov]. *)
Variable curve_fit :
  (ndarray -> R -> R -> np ndarray) -> ndarray -> ndarray -> R * R ->
  np ((R * R) * cov).

(**
<<
    slope, intercept, _, _, _ = stats.linregress(masked_cycle_depths, log_fidelities)
    layer_fid_0 = np.clip(np.exp(slope), 0, 1)
    a_0 = np.clip(np.exp(intercept), 0, 1)

    try:
        (a, layer_fid), pcov = optimize.curve_fit(
            exponential_decay,
            masked_cycle_depths,
            masked_fidelities,
            p0=(a_0, layer_fid_0),
            bounds=((0, 0), (1, 1)),
            nan_policy="omit",
        )
    except ValueError:  # pragma: no cover
        return 0, 0, np.inf, np.inf

    a_std, layer_fid_std = np.sqrt(np.diag(pcov))
    return a, layer_fid, a_std, layer_fid_std
>>
    The second half of [fit_exponential_decay], from the regression on. *)
Definition fit_from_regression
    (masked_cycle_depths masked_fidelities log_fidelities : ndarray)
  : M store (xfloat * xfloat * xfloat * xfloat) :=
  si <- of_py (linregress masked_cycle_depths log_fidelities) ;;
  let slope := fst si in
  let intercept := snd si in
  let layer_fid_0 := np_clip (exp slope) 0 1 in
  let a_0 := np_clip (exp intercept) 0 1 in
  fun st =>
    match curve_fit (exponential_decay power) masked_cycle_depths
            masked_fidelities (a_0, layer_fid_0) st with
    | (Py.Ok (a, layer_fid, pcov), st') =>
        (Ok (Finite a, Finite layer_fid,
             Finite (sqrt (fst (diag pcov))),
             Finite (sqrt (snd (diag pcov)))), st')
    | (Py.Raise Py.ValueError, st') =>
        (Ok (Finite 0, Finite 0, Inf, Inf), st')
    | (Py.Raise e, st') => (Raise (Core e), st')
    end.

(**
<<
    cycle_depths = np.asarray(cycle_depths)
    fidelities = np.asarray(fidelities)
    mask = (fidelities > 0) & (fidelities < 1)
    print()
    masked_cycle_depths = cycle_depths[mask]
    masked_fidelities = fidelities[mask]

    log_fidelities = np.log(masked_fidelities)
>>
    followed by [fit_from_regression]. *)
Definition fit_exponential_decay (cycle_depths fidelities : ndarray)
  : M store (xfloat * xfloat * xfloat * xfloat) :=
  fv <- of_py (read fidelities) ;;
  let mask := map in_unit_interval fv in
  masked_cycle_depths <- boolean_index cycle_depths mask ;;
  masked_fidelities <- boolean_index fidelities mask ;;
  log_fidelities <- of_py (log masked_fidelities) ;;
  fit_from_regression masked_cycle_depths masked_fidelities log_fidelities.

End FitDecay.

Section FitDecayVocabulary.
Import NumPy.
Local Open Scope list_scope.

(** The store in which [fit_exponential_decay] calls the regression: the
    masked depths, the masked fidelities and their logarithms are new
    arrays, and the masked fidelities have been passed to [np.log]. *)
Definition regression_state (dv fv : list R) (st : store) : store :=
  mkStore
    (cells st ++
     [select dv (map in_unit_interval fv);
      filter in_unit_interval fv;
      map ln (filter in_unit_interval fv)])
    (logged st ++ filter in_unit_interval fv).

End FitDecayVocabulary.

Section ExceptionVocabulary.

(** The outcome is an exception constructed by the repository's code. *)
Definition is_own_exception {A : Type} (r : PyX.res A) : bool :=
  match r with
  | PyX.Raise (PyX.Core (Py.RepoException _)) => true
  | _ => false
  end.

(** No run of [m] ends in an exception constructed by the repository. *)
Definition never_raises_own {S A : Type} (m : PyX.M S A) : Prop :=
  forall s, is_own_exception (fst (m s)) = false.

(** Some run of the vendor's routine [m] raises [e]. *)
Definition raised_by {S A : Type} (m : Py.M S A) (e : Py.exn) : Prop :=
  exists s, fst (m s) = Py.Raise e.

End ExceptionVocabulary.

(** * Properties *)

(** ** [binary] *)

Section BinaryFacts.
Import PyStr.

Example binary_5_8 : binary 5 8 = "00000101".
Proof. reflexivity. Qed.

Example binary_5_2 : binary 5 2 = "101".
Proof. reflexivity. Qed.

Example binary_3_2 : binary 3 2 = "11".
Proof. reflexivity. Qed.

Lemma string_length_app (a b : string) :
  String.length (a ++ b) = (String.length a + String.length b)%nat.
Proof.
  induction a as [|c a IH]; simpl; [reflexivity | now rewrite IH].
Qed.

Lemma append_nil_r (a : string) : a ++ "" = a.
Proof. induction a as [|c a IH]; simpl; [reflexivity | now rewrite IH]. Qed.

Lemma len_app (a b : string) : len (a ++ b) = len a + len b.
Proof. unfold len. rewrite string_length_app. lia. Qed.

Lemma len_zeros (k : nat) : len (zeros k) = Z.of_nat k.
Proof.
  unfold len. induction k as [|k IH]; simpl String.length; lia.
Qed.

Lemma len_bits_pos_positive (p : positive) : 1 <= len (bits_pos p).
Proof.
  destruct p; simpl; rewrite ?len_app; unfold len; simpl; lia.
Qed.

(** A numeral of [d] digits denotes a number in [[2^(d-1), 2^d)]. *)
Lemma bits_pos_bounds (p : positive) :
  2 ^ (len (bits_pos p) - 1) <= Zpos p < 2 ^ len (bits_pos p).
Proof.
  induction p as [q IH|q IH|]; simpl bits_pos.
  - rewrite len_app. change (len "1") with 1.
    pose proof (len_bits_pos_positive q) as Hq.
    replace (len (bits_pos q) + 1 - 1) with (Z.succ (len (bits_pos q) - 1))
      by lia.
    replace (len (bits_pos q) + 1) with (Z.succ (len (bits_pos q))) by lia.
    rewrite !Z.pow_succ_r by lia. lia.
  - rewrite len_app. change (len "0") with 1.
    pose proof (len_bits_pos_positive q) as Hq.
    replace (len (bits_pos q) + 1 - 1) with (Z.succ (len (bits_pos q) - 1))
      by lia.
    replace (len (bits_pos q) + 1) with (Z.succ (len (bits_pos q))) by lia.
    rewrite !Z.pow_succ_r by lia. lia.
  - cbn. lia.
Qed.

Lemma len_digits_positive (n : Z) : 1 <= len (digits n).
Proof.
  destruct n; simpl; try (unfold len; simpl; lia).
  apply len_bits_pos_positive.
Qed.

(** The number of digits decides the comparison with a power of two. *)
Lemma digits_fit (n L : Z) :
  0 < n -> 0 <= L -> (len (digits n) <= L <-> n < 2 ^ L).
Proof.
  intros Hn HL. destruct n as [|p|p]; try lia. simpl digits.
  pose proof (bits_pos_bounds p) as [Hlo Hhi].
  pose proof (len_bits_pos_positive p) as Hd.
  split; intro H.
  - apply Z.lt_le_trans with (2 ^ len (bits_pos p)); [exact Hhi|].
    apply Z.pow_le_mono_r; lia.
  - destruct (Z_le_gt_dec (len (bits_pos p)) L) as [Hle|Hgt]; [exact Hle|].
    exfalso.
    assert (2 ^ L <= 2 ^ (len (bits_pos p) - 1))
      by (apply Z.pow_le_mono_r; lia).
    lia.
Qed.

Lemma value_from_app (a b : string) (acc : Z) :
  value_from acc (a ++ b) = value_from (value_from acc a) b.
Proof.
  revert acc. induction a as [|c a IH]; intro acc; simpl; [reflexivity|].
  apply IH.
Qed.

Lemma value_from_zeros (k : nat) (s : string) :
  value_from 0 (zeros k ++ s) = value_from 0 s.
Proof.
  induction k as [|k IH]; simpl; [reflexivity | exact IH].
Qed.

Lemma value_bits_pos (p : positive) : value (bits_pos p) = Zpos p.
Proof.
  unfold value.
  induction p as [q IH|q IH|]; simpl bits_pos;
    rewrite ?value_from_app, ?IH; simpl; lia.
Qed.

Lemma value_digits (n : Z) : 0 <= n -> value (digits n) = n.
Proof.
  destruct n as [|p|p]; intro H; try lia; [reflexivity|].
  apply value_bits_pos.
Qed.

Lemma all_binary_app (a b : string) :
  all_binary (a ++ b) = (all_binary a && all_binary b)%bool.
Proof.
  induction a as [|c a IH]; simpl; [reflexivity|].
  rewrite IH. now rewrite andb_assoc.
Qed.

Lemma all_binary_zeros (k : nat) : all_binary (zeros k) = true.
Proof. induction k; simpl; auto. Qed.

Lemma all_binary_bits_pos (p : positive) : all_binary (bits_pos p) = true.
Proof.
  induction p; simpl bits_pos; rewrite ?all_binary_app, ?IHp; reflexivity.
Qed.

Lemma all_binary_digits (n : Z) : all_binary (digits n) = true.
Proof. destruct n; simpl; auto using all_binary_bits_pos. Qed.

(** Slicing off the ["0b"] prefix of a non-negative number. *)
Lemma drop_bin (n : Z) : 0 <= n -> drop 2 (bin n) = digits n.
Proof. destruct n; intro H; try lia; reflexivity. Qed.

(** A string of binary digits carries no sign: [zfill] only prepends. *)
Lemma zfill_unsigned (w : Z) (s : string) :
  all_binary s = true ->
  zfill w s = zeros (Z.to_nat (w - len s)) ++ s.
Proof.
  intro Hs. unfold zfill.
  destruct (Z.leb_spec w (len s)) as [Hle|Hgt].
  - replace (Z.to_nat (w - len s)) with O by lia. reflexivity.
  - destruct s as [|c rest]; [now rewrite append_nil_r|].
    simpl in Hs. apply andb_prop in Hs as [Hc _].
    assert (is_sign c = false) as ->; [|reflexivity].
    unfold is_sign.
    apply orb_prop in Hc as [Hc|Hc]; apply Ascii.eqb_eq in Hc; subst c;
      reflexivity.
Qed.

End BinaryFacts.


Section BinaryClaim.
Import PyStr.

(** The length of the result is the larger of the requested length and the
    number of digits. *)
Lemma binary_shape (n L : Z) :
  0 <= n ->
  binary n L = zeros (Z.to_nat (L - len (digits n))) ++ digits n.
Proof.
  intro Hn. unfold binary. rewrite drop_bin by exact Hn.
  apply zfill_unsigned, all_binary_digits.
Qed.

Lemma len_binary (n L : Z) :
  0 <= n -> len (binary n L) = Z.max L (len (digits n)).
Proof.
  intro Hn. rewrite binary_shape by exact Hn.
  rewrite len_app, len_zeros. lia.
Qed.

(** C10, as stated, fails for [n = 0] and [length = 0]: [binary(0, 0)] is
    ["0"], one character long, although [0 < 2^0]. *)
Lemma binary_zero_width_counterexample :
  binary 0 0 = "0" /\
  ~ (len (binary 0 0) = 0 <-> 0 < 2 ^ 0).
Proof.
  split; [reflexivity|].
  intros [_ H]. specialize (H ltac:(reflexivity)). discriminate H.
Qed.

(** C10 (amended).  For [n >= 0] and [length >= 0], [binary n length] is the
    base-2 numeral of [n] (binary digits only, denoting [n]) preceded by
    ['0'] characters up to at least [length] characters; unless both [n] and
    [length] are zero, the result has exactly [length] characters if and
    only if [n < 2^length], and for [n >= 2^length] it is longer. *)
Theorem binary_pads_base2_numeral (n L : Z) :
  0 <= n -> 0 <= L ->
  binary n L = zeros (Z.to_nat (L - len (digits n))) ++ digits n /\
  all_binary (binary n L) = true /\
  value (digits n) = n /\
  value (binary n L) = n /\
  L <= len (binary n L) /\
  (n <> 0 \/ L <> 0 -> (len (binary n L) = L <-> n < 2 ^ L)) /\
  (2 ^ L <= n -> L < len (binary n L)).
Proof.
  intros Hn HL.
  pose proof (binary_shape n L Hn) as Hshape.
  pose proof (len_binary n L Hn) as Hlen.
  pose proof (len_digits_positive n) as Hd.
  assert (Hfit : 0 < n -> (len (digits n) <= L <-> n < 2 ^ L))
    by (intro; now apply digits_fit).
  repeat split.
  - exact Hshape.
  - rewrite Hshape, all_binary_app, all_binary_zeros, all_binary_digits.
    reflexivity.
  - now apply value_digits.
  - rewrite Hshape. unfold value. rewrite value_from_zeros.
    now apply value_digits.
  - lia.
  - intro Heq. destruct (Z.eq_dec n 0) as [->|Hnz].
    + apply Z.pow_pos_nonneg; lia.
    + apply Hfit; lia.
  - intro Hlt. destruct (Z.eq_dec n 0) as [->|Hnz].
    + assert (L <> 0) by (destruct H; congruence).
      change (len (digits 0)) with 1 in Hlen. lia.
    + assert (len (digits n) <= L) by (apply Hfit; lia). lia.
  - intro Hge.
    assert (0 < 2 ^ L) by (apply Z.pow_pos_nonneg; lia).
    assert (~ len (digits n) <= L) by (rewrite Hfit; lia). lia.
Qed.

Lemma binary_pads_base2_numeral_witness :
  binary 5 8 = "00000101" /\ (len (binary 5 8) = 8 <-> 5 < 2 ^ 8).
Proof.
  destruct (binary_pads_base2_numeral 5 8 ltac:(lia) ltac:(lia))
    as (_ & _ & _ & _ & _ & Hiff & _).
  split; [reflexivity|]. apply Hiff. left. discriminate.
Defined.

End BinaryClaim.

(** ** The array store *)

Section StoreFacts.
Import Py NumPy.
Local Open Scope list_scope.
Local Open Scope R_scope.
Local Open Scope py_scope.

Lemma extends_refl (st : store) : extends st st.
Proof.
  split; exists []; now rewrite app_nil_r.
Qed.

Lemma extends_trans (a b c : store) :
  extends a b -> extends b c -> extends a c.
Proof.
  intros [[n1 H1] [l1 L1]] [[n2 H2] [l2 L2]]. split.
  - exists (n1 ++ n2). now rewrite H2, H1, app_assoc.
  - exists (l1 ++ l2). now rewrite L2, L1, app_assoc.
Qed.

Lemma extends_alloc (st : store) (v : list R) :
  extends st (mkStore (cells st ++ [v]) (logged st)).
Proof.
  split; simpl; [now exists [v] | exists []; now rewrite app_nil_r].
Qed.

(** Existing array objects are untouched by an extension. *)
Lemma extends_contents (st st' : store) (a : ndarray) (v : list R) :
  extends st st' -> contents a st = Some v -> contents a st' = Some v.
Proof.
  intros [[new Hc] _] Ha. unfold contents in *. rewrite Hc.
  rewrite nth_error_app1; [exact Ha|].
  apply nth_error_Some. congruence.
Qed.

Lemma extends_valid (st st' : store) (a : ndarray) :
  extends st st' -> valid a st -> valid a st'.
Proof.
  intros [[new Hc] _] Ha. unfold valid in *. rewrite Hc, List.length_app. lia.
Qed.

Lemma valid_contents (a : ndarray) (st : store) :
  valid a st -> exists v, contents a st = Some v.
Proof.
  unfold valid, contents. intro H.
  destruct (nth_error (cells st) a) eqn:E; [eauto|].
  apply nth_error_None in E. lia.
Qed.

Lemma nth_error_fresh {A : Type} (c : list A) (x : A) :
  nth_error (c ++ [x]) (List.length c) = Some x.
Proof.
  rewrite nth_error_app2 by lia. now rewrite Nat.sub_diag.
Qed.

Lemma nth_error_kept {A : Type} (c : list A) (a : nat) (w v : A) :
  nth_error c a = Some v -> nth_error (c ++ [w]) a = Some v.
Proof.
  intro H. rewrite nth_error_app1; [exact H|].
  apply nth_error_Some. congruence.
Qed.

Lemma contents_fresh (c : list (list R)) (lg : list R) (v : list R) :
  contents (List.length c) (mkStore (c ++ [v]) lg) = Some v.
Proof.
  unfold contents. simpl. rewrite nth_error_app2 by lia.
  now rewrite Nat.sub_diag.
Qed.

Lemma contents_kept (c : list (list R)) (lg lg' : list R) (a : ndarray)
    (v w : list R) :
  contents a (mkStore c lg) = Some v ->
  contents a (mkStore (c ++ [w]) lg') = Some v.
Proof.
  unfold contents. simpl. intro H. rewrite nth_error_app1; [exact H|].
  apply nth_error_Some. congruence.
Qed.

Lemma bind_read {B : Type} (a : ndarray) (k : list R -> np B) (st : store)
    (v : list R) :
  contents a st = Some v ->
  (x <- read a ;; k x) st = k v st.
Proof.
  intro H. unfold bind, read. now rewrite H.
Qed.

Lemma bind_alloc {B : Type} (v : list R) (k : ndarray -> np B) (st : store) :
  (x <- alloc v ;; k x) st =
  k (List.length (cells st)) (mkStore (cells st ++ [v]) (logged st)).
Proof. reflexivity. Qed.

Lemma elementwise_run (f : R -> R) (a : ndarray) (st : store) (v : list R) :
  contents a st = Some v ->
  elementwise f a st =
  (Ok (List.length (cells st)),
   mkStore (cells st ++ [map f v]) (logged st)).
Proof.
  intro H. unfold elementwise. now rewrite (bind_read _ _ _ _ H).
Qed.

Lemma bind_elementwise {B : Type} (f : R -> R) (a : ndarray)
    (k : ndarray -> np B) (st : store) (v : list R) :
  contents a st = Some v ->
  (x <- elementwise f a ;; k x) st =
  k (List.length (cells st)) (mkStore (cells st ++ [map f v]) (logged st)).
Proof.
  intro H. unfold bind at 1. now rewrite (elementwise_run _ _ _ _ H).
Qed.

End StoreFacts.

(** Run one elementwise operation whose operand is the newest array. *)
Ltac np_elementwise :=
  erewrite bind_elementwise by (cbn [NumPy.cells]; apply contents_fresh);
  cbn [NumPy.cells NumPy.logged].

(** ** [np.linspace] and [gauss] *)

Section GaussFacts.
Import Py NumPy.
Local Open Scope list_scope.
Local Open Scope R_scope.
Local Open Scope py_scope.

Lemma set_last_snoc (l : list R) (x y : R) :
  set_last (l ++ [x]) y = l ++ [y].
Proof.
  induction l as [|h t IH]; [reflexivity|].
  simpl app. simpl set_last. rewrite IH.
  destruct t; reflexivity.
Qed.



Lemma linspace_samples_grid (start stop : R) (num : Z) :
  (2 <= num)%Z ->
  linspace_samples start stop num =
  map (grid_point start stop num) (seq 0 (Z.to_nat num)).
Proof.
  intro Hnum. unfold linspace_samples.
  destruct (Z.ltb_spec 1 num) as [_|?]; [|lia].
  destruct (Z.ltb_spec 0 (num - 1)) as [_|?]; [|lia].
  destruct (Z.to_nat num) as [|m] eqn:Em; [lia|].
  rewrite seq_S, !map_app. cbn [map].
  rewrite set_last_snoc. f_equal.
  - rewrite !map_map. apply map_ext. intro i. unfold grid_point. ring.
  - f_equal. unfold grid_point. simpl Nat.add.
    assert (Hm : IZR (num - 1) = INR m).
    { rewrite INR_IZR_INZ. f_equal. lia. }
    rewrite Hm.
    assert (INR m <> 0) by (apply not_0_INR; lia).
    field. assumption.
Qed.



Example linspace_three_points : linspace_samples (-1) 1 3 = [-1; 0; 1].
Proof.
  rewrite linspace_samples_grid by lia. unfold grid_point. simpl.
  repeat (f_equal; try lra).
Qed.

Example linspace_one_point : linspace_samples (-1 / 2) (1 / 2) 1 = [-1 / 2].
Proof.
  unfold linspace_samples. simpl. f_equal. lra.
Qed.

(** Facts about the range of the doubles. *)


Lemma overflows_false (x : R) :
  Rabs x < IZR PyFloat.overflow_bound -> PyFloat.overflows x = false.
Proof.
  intro H. unfold PyFloat.overflows.
  destruct (Rle_dec _ _); [lra | reflexivity].
Qed.




Lemma overflows_small (x : R) :
  Rabs x <= IZR (2 ^ 1000) -> PyFloat.overflows x = false.
Proof.
  intro H. apply overflows_false.
  apply Rle_lt_trans with (1 := H). apply IZR_lt. reflexivity.
Qed.





Lemma underflows_zero : PyFloat.underflows 0 = true.
Proof.
  unfold PyFloat.underflows. rewrite Rabs_R0.
  destruct (Rle_dec _ _); [reflexivity | lra].
Qed.

Lemma float_pow_in_range (x : R) (n : nat) :
  PyFloat.overflows (x ^ n) = false ->
  PyFloat.underflows (x ^ n) = false \/ x ^ n = 0 ->
  PyFloat.float_pow x n = Ok (x ^ n).
Proof.
  intros Ho Hu. unfold PyFloat.float_pow. rewrite Ho.
  destruct Hu as [-> | ->]; [reflexivity|].
  now rewrite underflows_zero.
Qed.







Lemma bind_lift {S A B : Type} (r : res A) (k : A -> M S B) (st : S) :
  (x <- lift r ;; k x) st =
  match r with
  | Ok a => k a st
  | Raise e => (Raise e, st)
  end.
Proof. unfold bind, lift. now destruct r. Qed.

Lemma bind_divide {B : Type} (a : ndarray) (c : R) (k : ndarray -> np B)
    (st : store) (v : list R) :
  contents a st = Some v -> c <> 0 ->
  (x <- divide a c ;; k x) st =
  k (List.length (cells st))
    (mkStore (cells st ++ [map (fun x => x / c) v]) (logged st)).
Proof.
  intros H Hc. unfold bind at 1. unfold divide.
  rewrite (bind_read _ _ _ _ H).
  destruct v as [|x v]; [reflexivity|].
  destruct (Req_dec_T c 0) as [E|_]; [contradiction | reflexivity].
Qed.

Lemma bind_divide_nil {B : Type} (a : ndarray) (c : R)
    (k : ndarray -> np B) (st : store) :
  contents a st = Some [] ->
  (x <- divide a c ;; k x) st =
  k (List.length (cells st)) (mkStore (cells st ++ [[]]) (logged st)).
Proof.
  intro H. unfold bind at 1. unfold divide.
  now rewrite (bind_read _ _ _ _ H).
Qed.

Lemma bind_divide_zero {B : Type} (a : ndarray) (k : ndarray -> np B)
    (st : store) (x : R) (v : list R) :
  contents a st = Some (x :: v) ->
  (y <- divide a 0 ;; k y) st = (Raise NonFinite, st).
Proof.
  intro H. unfold bind at 1. unfold divide.
  rewrite (bind_read _ _ _ _ H).
  destruct (Req_dec_T 0 0) as [_|E]; [reflexivity | now elim E].
Qed.


End GaussFacts.

Section GaussClaim.
Import Py NumPy.
Local Open Scope list_scope.
Local Open Scope R_scope.




End GaussClaim.

(** ** [IQ_imbalance] *)

Section IQImbalanceClaim.
Import Py.
Local Open Scope list_scope.
Local Open Scope R_scope.

Lemma square_in_range_pow (g : R) :
  square_in_range g -> PyFloat.float_pow g 2 = Ok (g ^ 2).
Proof.
  intros [Ho Hu]. apply float_pow_in_range; [exact Ho|].
  destruct Hu as [Hu | ->]; [now left | right; ring].
Qed.

Lemma square_in_range_zero : square_in_range 0.
Proof.
  split; [|now right].
  apply overflows_small. replace (0 ^ 2) with 0 by ring.
  rewrite Rabs_R0. apply IZR_le. discriminate.
Qed.

(** The run of [IQ_imbalance] when [g**2] is within range and the
    denominator is not zero. *)
Lemma IQ_imbalance_run (g phi : R) :
  square_in_range g ->
  (1 - g ^ 2) * (2 * cos phi ^ 2 - 1) <> 0 ->
  IQ_imbalance g phi =
    Ok (map (fun x => 1 / ((1 - g ^ 2) * (2 * cos phi ^ 2 - 1)) * x)
          [(1 - g) * cos phi; (1 + g) * sin phi;
           (1 - g) * sin phi; (1 + g) * cos phi]).
Proof.
  intros Hg Hden. unfold IQ_imbalance.
  rewrite (square_in_range_pow g Hg).
  destruct (Req_dec_T _ 0) as [E|_]; [contradiction | reflexivity].
Qed.

Example IQ_imbalance_no_imbalance : IQ_imbalance 0 0 = Ok [1; 0; 0; 1].
Proof.
  rewrite IQ_imbalance_run.
  - rewrite cos_0, sin_0. simpl. repeat (f_equal; try field).
  - exact square_in_range_zero.
  - rewrite cos_0. lra.
Qed.





End IQImbalanceClaim.

(** ** [exponential_decay] and [cross_entropy] *)

Section FittingFacts.
Import Py NumPy.
Local Open Scope list_scope.
Local Open Scope R_scope.
Local Open Scope py_scope.

Variable power : R -> R -> R.

Lemma exponential_decay_run (cycle_depths : ndarray) (a layer_fid : R)
    (st : store) (depths : list R) :
  contents cycle_depths st = Some depths ->
  exponential_decay power cycle_depths a layer_fid st =
  (Ok (S (List.length (cells st))),
   mkStore (cells st
            ++ [map (fun d => power layer_fid d) depths]
            ++ [map (fun d => a * power layer_fid d) depths])
           (logged st)).
Proof.
  intro H. unfold exponential_decay.
  rewrite (bind_elementwise _ _ _ _ _ H).
  erewrite elementwise_run by apply contents_fresh.
  cbn [cells logged]. rewrite List.length_app, map_map, <- app_assoc.
  simpl List.length. rewrite Nat.add_1_r. reflexivity.
Qed.

Lemma cross_entropy_run (p q : ndarray) (epsilon : R) (st : store)
    (pv qv : list R) :
  contents p st = Some pv ->
  contents q st = Some qv ->
  exists new,
    cross_entropy p q epsilon st =
    (cross_entropy_outcome pv qv epsilon,
     mkStore (cells st ++ new) (logged st ++ clamp epsilon qv)).
Proof.
  destruct st as [c lg]. unfold contents. cbn [cells logged]. intros Hp Hq.
  pose proof (nth_error_kept _ _ (map ln (clamp epsilon qv)) _
                (nth_error_kept _ _ (clamp epsilon qv) _ Hp)) as Hp'.
  unfold cross_entropy, cross_entropy_outcome, maximum, log, multiply, sum,
    elementwise, bind, read, alloc, ret, raise, contents.
  cbn [cells logged]. rewrite Hq. cbn [cells logged].
  rewrite nth_error_fresh. cbn [cells logged].
  fold (clamp epsilon qv). rewrite Hp'. cbn [cells logged].
  rewrite nth_error_fresh.
  destruct (broadcast2 Rmult pv (map ln (clamp epsilon qv))) as [w|].
  - cbn [cells logged]. rewrite nth_error_fresh.
    rewrite <- !app_assoc. eexists. reflexivity.
  - rewrite <- !app_assoc. eexists. reflexivity.
Qed.

(** C4.  [exponential_decay] returns a new array whose [i]-th entry is
    [a * layer_fid ** cycle_depths[i]], one entry per cycle depth; the
    operand array is left as it was. *)
Theorem exponential_decay_entries (cycle_depths : ndarray) (a layer_fid : R)
    (st : store) (depths : list R) :
  contents cycle_depths st = Some depths ->
  exists r st' out,
    exponential_decay power cycle_depths a layer_fid st = (Ok r, st') /\
    contents r st' = Some out /\
    List.length out = List.length depths /\
    (forall i d, nth_error depths i = Some d ->
                 nth_error out i = Some (a * power layer_fid d)) /\
    contents cycle_depths st' = Some depths /\
    extends st st'.
Proof.
  intro H. rewrite (exponential_decay_run _ _ _ _ _ H).
  eexists. eexists. exists (map (fun d => a * power layer_fid d) depths).
  split; [reflexivity|]. split; [|split; [|split; [|split]]].
  - unfold contents. cbn [cells]. rewrite app_assoc.
    replace (S (List.length (cells st)))
      with (List.length (cells st ++ [map (fun d => power layer_fid d) depths]))
      by (rewrite List.length_app; simpl; lia).
    apply nth_error_fresh.
  - apply length_map.
  - intros i d Hi. rewrite nth_error_map, Hi. reflexivity.
  - unfold contents in *. cbn [cells]. rewrite nth_error_app1; [exact H|].
    apply nth_error_Some. congruence.
  - split; cbn [cells logged]; [eexists; reflexivity|].
    exists []. now rewrite app_nil_r.
Qed.

(** C9.  For every epsilon > 0, whatever the store and the operands,
    [cross_entropy] applies the logarithm exactly to the entries of [q]
    clamped to at least [epsilon] (each is [>= epsilon], hence positive and
    with a finite logarithm), and the array [q] is left unchanged.  This
    holds whether the call returns or numpy rejects the shapes. *)
Theorem cross_entropy_log_clamped (p q : ndarray) (epsilon : R) (st : store)
    (pv qv : list R) :
  contents p st = Some pv ->
  contents q st = Some qv ->
  0 < epsilon ->
  exists r st' args,
    cross_entropy p q epsilon st = (r, st') /\
    logged st' = logged st ++ args /\
    args = clamp epsilon qv /\
    Forall (fun x => epsilon <= x /\ 0 < x) args /\
    contents q st' = Some qv /\
    extends st st'.
Proof.
  intros Hp Hq Heps.
  destruct (cross_entropy_run p q epsilon st pv qv Hp Hq) as [new Hrun].
  rewrite Hrun. eexists. eexists. exists (clamp epsilon qv).
  split; [reflexivity|]. split; [reflexivity|]. split; [reflexivity|].
  split; [|split].
  - unfold clamp. apply Forall_forall. intros x Hx.
    apply in_map_iff in Hx as (y & <- & _).
    pose proof (Rmax_r y epsilon). lra.
  - unfold contents in *. cbn [cells]. rewrite nth_error_app1; [exact Hq|].
    apply nth_error_Some. congruence.
  - split; cbn [cells logged]; eexists; reflexivity.
Qed.

Lemma extends_4 (st : store) (a b c d : list R) :
  extends st (mkStore ((((cells st ++ [a]) ++ [b]) ++ [c]) ++ [d])
                (logged st)).
Proof.
  split; cbn [cells logged];
    [rewrite <- !app_assoc; eexists; reflexivity
    | exists []; now rewrite app_nil_r].
Qed.

Lemma gauss_pure (amplitude mu sigma : R) (length : Z) (st : store) :
  fst (gauss amplitude mu sigma length st) =
    gauss_outcome amplitude mu sigma length /\
  extends st (snd (gauss amplitude mu sigma length st)).
Proof.
  unfold gauss, gauss_outcome.
  rewrite bind_lift.
  destruct (PyFloat.int_true_divide (- length) 2) as [start|e];
    [|split; [reflexivity | apply extends_refl]].
  rewrite bind_lift.
  destruct (PyFloat.int_true_divide length 2) as [stop|e];
    [|split; [reflexivity | apply extends_refl]].
  unfold linspace.
  destruct (length <? 0)%Z;
    [split; [reflexivity | apply extends_refl]|].
  rewrite bind_alloc.
  do 3 np_elementwise.
  rewrite bind_lift.
  destruct (PyFloat.float_pow sigma 2) as [s2|e];
    [|split; [reflexivity | apply extends_4]].
  rewrite bind_lift.
  destruct (PyFloat.float_mul 2 s2) as [c|e];
    [|split; [reflexivity | apply extends_4]].
  destruct (linspace_samples start stop length) as [|t0 ts] eqn:Ets.
  - erewrite bind_divide_nil by (cbn [cells]; apply contents_fresh).
    cbn [cells logged].
    do 2 np_elementwise.
    unfold tolist, read. rewrite contents_fresh.
    split; [reflexivity|].
    split; cbn [snd cells logged];
      [rewrite <- !app_assoc; eexists; reflexivity
      | exists []; now rewrite app_nil_r].
  - destruct (Req_dec_T c 0) as [E|Hc].
    + subst c.
      erewrite bind_divide_zero by (cbn [cells map]; apply contents_fresh).
      split; [reflexivity | apply extends_4].
    + erewrite bind_divide
        by (first [ cbn [cells]; apply contents_fresh | exact Hc ]).
      cbn [cells logged].
      do 2 np_elementwise.
      unfold tolist, read. rewrite contents_fresh.
      split.
      * cbn [fst]. f_equal. rewrite !map_map. reflexivity.
      * split; cbn [snd cells logged];
          [rewrite <- !app_assoc; eexists; reflexivity
          | exists []; now rewrite app_nil_r].
Qed.

(** C7.  [gauss], [IQ_imbalance] and [cross_entropy] are deterministic and
    pure: two calls with equal arguments (for arrays: equal contents),
    made in any two stores, return equal results, and a call leaves every
    existing array, its operands included, as it was. *)
Theorem numeric_helpers_pure :
  (forall amplitude mu sigma length st1 st2,
     fst (gauss amplitude mu sigma length st1) =
       fst (gauss amplitude mu sigma length st2) /\
     extends st1 (snd (gauss amplitude mu sigma length st1))) /\
  (forall g phi g' phi',
     g = g' -> phi = phi' -> IQ_imbalance g phi = IQ_imbalance g' phi') /\
  (forall p q p' q' epsilon st1 st2 pv qv,
     contents p st1 = Some pv -> contents q st1 = Some qv ->
     contents p' st2 = Some pv -> contents q' st2 = Some qv ->
     fst (cross_entropy p q epsilon st1) =
       fst (cross_entropy p' q' epsilon st2) /\
     extends st1 (snd (cross_entropy p q epsilon st1)) /\
     contents p (snd (cross_entropy p q epsilon st1)) = Some pv /\
     contents q (snd (cross_entropy p q epsilon st1)) = Some qv).
Proof.
  split; [|split].
  - intros. split.
    + now rewrite (proj1 (gauss_pure _ _ _ _ st1)),
        (proj1 (gauss_pure _ _ _ _ st2)).
    + apply gauss_pure.
  - intros; subst; reflexivity.
  - intros p q p' q' epsilon st1 st2 pv qv Hp Hq Hp' Hq'.
    destruct (cross_entropy_run p q epsilon st1 pv qv Hp Hq) as [n1 H1].
    destruct (cross_entropy_run p' q' epsilon st2 pv qv Hp' Hq') as [n2 H2].
    rewrite H1, H2. cbn [fst snd].
    assert (Hext : extends st1
              (mkStore (cells st1 ++ n1) (logged st1 ++ clamp epsilon qv)))
      by (split; cbn [cells logged]; eexists; reflexivity).
    split; [reflexivity|]. split; [exact Hext|].
    split; eapply extends_contents; eauto.
Qed.

End FittingFacts.

Section FittingWitnesses.
Import Py NumPy.
Local Open Scope list_scope.
Local Open Scope R_scope.

Lemma exponential_decay_entries_witness :
  exists r st' out,
    exponential_decay Rpower 0%nat 3 (1 / 2) (mkStore [[1; 2]] []) =
      (Ok r, st') /\
    contents r st' = Some out /\
    List.length out = 2%nat.
Proof.
  destruct (exponential_decay_entries Rpower 0%nat 3 (1 / 2)
              (mkStore [[1; 2]] []) [1; 2] eq_refl)
    as (r & st' & out & Hrun & Hout & Hlen & _).
  exists r, st', out. repeat split; assumption.
Defined.

Lemma cross_entropy_log_clamped_witness :
  exists r st' args,
    cross_entropy 0%nat 1%nat (1 / 10)
      (mkStore [[1 / 2; 1 / 2]; [0; 1]] []) = (r, st') /\
    logged st' = args /\
    Forall (fun x => 1 / 10 <= x /\ 0 < x) args.
Proof.
  destruct (cross_entropy_log_clamped 0%nat 1%nat (1 / 10)
              (mkStore [[1 / 2; 1 / 2]; [0; 1]] [])
              [1 / 2; 1 / 2] [0; 1] eq_refl eq_refl ltac:(lra))
    as (r & st' & args & Hrun & Hlog & _ & Hall & _).
  exists r, st', args. repeat split; assumption.
Defined.

Lemma numeric_helpers_pure_witness :
  fst (cross_entropy 0%nat 1%nat (1 / 10)
         (mkStore [[1 / 2; 1 / 2]; [0; 1]] [])) =
  fst (cross_entropy 2%nat 0%nat (1 / 10)
         (mkStore [[0; 1]; [7]; [1 / 2; 1 / 2]] [5])).
Proof.
  destruct numeric_helpers_pure as (_ & _ & H).
  exact (proj1 (H 0%nat 1%nat 2%nat 0%nat (1 / 10)
                  (mkStore [[1 / 2; 1 / 2]; [0; 1]] [])
                  (mkStore [[0; 1]; [7]; [1 / 2; 1 / 2]] [5])
                  [1 / 2; 1 / 2] [0; 1] eq_refl eq_refl eq_refl eq_refl)).
Defined.

End FittingWitnesses.

(** ** [reset_qubit] and [active_reset] *)

(** Unfold the macros down to the comparisons on the keyword values. *)
Ltac reset_unfold :=
  unfold reset_qubit, active_reset, raise_condition, overflow_condition,
    overflow_in_validation, max_tries_rejected, is_lt, not_integer_valued,
    too_large, kwargs_get, Py.bind, Qua.lift, Py.ret, Py.raise;
  cbn [kw_cooldown_time kw_threshold kw_max_tries kw_Ig Qua.is_none
       Qua.lt_int Qua.float_is_integer Qua.add_2_pow_m28 negb].

Ltac reset_compare :=
  repeat match goal with
         | |- context [(?z <? ?k)%Z] => destruct (z <? k)%Z eqn:?
         | |- context [Qua.float_of_int ?z] =>
             destruct (Qua.float_of_int z) eqn:?
         | |- context [PrimFloat.ltb ?a ?b] =>
             destruct (PrimFloat.ltb a b) eqn:?
         | |- context [Qua.is_integer ?f] =>
             destruct (Qua.is_integer f) eqn:?
         end.

Lemma float_of_int_raises (z : Z) (e : Py.exn) :
  Qua.float_of_int z = Py.Raise e -> e = Py.OverflowError.
Proof.
  unfold Qua.float_of_int.
  destruct (Qua.nearest_double z); intro H; try discriminate H.
  now injection H.
Qed.

(** An exception of a conversion is [OverflowError]. *)
Ltac reset_exn :=
  repeat match goal with
         | H : Qua.float_of_int _ = Py.Raise ?e |- _ =>
             apply float_of_int_raises in H; subst e
         end.

Section ResetFacts.
Import PrimFloat.
Import Py Qua.
Local Open Scope py_scope.

Example reset_cooldown_500 :
  reset_qubit "cooldown" "q0" "rr0"
    (mkKwargs (Some (VInt 500)) None None None) empty_program
  = (Ok None, mkProgram [] [Wait (VInt 500) "q0"]).
Proof. reflexivity. Qed.

Example reset_cooldown_3 :
  fst (reset_qubit "cooldown" "q0" "rr0"
         (mkKwargs (Some (VInt 3)) None None None) empty_program)
  = Raise (RepoException cooldown_message).
Proof. reflexivity. Qed.

Example reset_active_three_tries :
  reset_qubit "active" "q0" "rr0"
    (mkKwargs None (Some (VFloat (-0.5)%float)) (Some (VInt 3)) None)
    empty_program
  = (Ok (Some (0%nat, 1%nat)),
     mkProgram [fixed; int]
       [Assign 0%nat (Lit (VFloat (-0.5 + two_pow_m28)%float));
        Assign 1%nat (Lit (VInt 0));
        Align ["q0"; "rr0"];
        While (And (Gt (Var 0%nat) (Lit (VFloat (-0.5)%float)))
                   (Lt (Var 1%nat) (Lit (VInt 3))))
          [Measure "readout" "rr0" None
             [DualDemodFull "rotated_cos" "out1" "rotated_sin" "out2" 0%nat];
           Play "x180" "q0"
             (Some (Gt (Var 0%nat) (Lit (VFloat (-0.5)%float))));
           Assign 1%nat (Add (Var 1%nat) (Lit (VInt 1)))]]).
Proof. reflexivity. Qed.

Example reset_active_half_try :
  fst (reset_qubit "active" "q0" "rr0"
         (mkKwargs None (Some (VInt 0)) (Some (VFloat 2.5%float)) None)
         empty_program)
  = Raise (RepoException max_tries_message).
Proof. reflexivity. Qed.

(** An int of [10**400] cannot be converted: [float(max_tries)] and
    [threshold + 2**-28] raise [OverflowError]. *)
Example reset_active_huge_max_tries :
  reset_qubit "active" "q0" "rr0"
    (mkKwargs None (Some (VFloat 0.5%float)) (Some (VInt (10 ^ 400))) None)
    empty_program
  = (Raise OverflowError, empty_program).
Proof. reflexivity. Qed.

Example reset_active_huge_threshold :
  reset_qubit "active" "q0" "rr0"
    (mkKwargs None (Some (VInt (10 ^ 400))) None None) empty_program
  = (Raise OverflowError, mkProgram [fixed] []).
Proof. reflexivity. Qed.

(** The ints that cannot be converted start at [2^1024 - 2^970]. *)
Example too_large_from :
  too_large (VInt (2 ^ 1024 - 2 ^ 970)) = true /\
  too_large (VInt (2 ^ 1024 - 2 ^ 970 - 1)) = false /\
  too_large (VInt (- (2 ^ 1024 - 2 ^ 970))) = true.
Proof. repeat split; reflexivity. Qed.

(** From [2**25] on, adding [2**-28] to a double does not change it. *)
Example threshold_plus_2_pow_m28_is_rounded :
  add_2_pow_m28 (VFloat 33554432%float) = Ok (VFloat 33554432%float) /\
  add_2_pow_m28 (VInt 33554432) = Ok (VFloat 33554432%float).
Proof. split; reflexivity. Qed.

(** Every exception raised by [active_reset] with a numeric [max_tries]
    and [threshold] that can be converted is its own validation error. *)
Lemma active_reset_outcome (threshold : value) (qubit resonator : string)
    (max_tries : value) (Ig : option var) (st : program) :
  is_none threshold = false ->
  is_none max_tries = false ->
  too_large threshold = false ->
  too_large max_tries = false ->
  (is_lt max_tries 1 || not_integer_valued max_tries = true ->
   fst (active_reset threshold qubit resonator max_tries Ig st) =
     Raise (RepoException max_count_message)) /\
  (is_lt max_tries 1 || not_integer_valued max_tries = false ->
   exists r, fst (active_reset threshold qubit resonator max_tries Ig st) =
               Ok r).
Proof.
  intros Ht Hm Hlt Hlm.
  destruct threshold as [|t|t]; try discriminate Ht;
    destruct max_tries as [|m|m]; try discriminate Hm;
    destruct Ig;
    revert Hlt Hlm;
    unfold active_reset, is_lt, not_integer_valued, too_large, bind, lift,
      ret, raise;
    cbn [lt_int float_is_integer add_2_pow_m28 negb orb];
    reset_compare; cbn; intros Hlt Hlm; try discriminate;
    split; intro H; try discriminate H; try reflexivity; eauto.
Qed.

(** The outcome of [reset_qubit]: it raises exactly under [raise_condition]
    or [overflow_condition]; what it raises is one of its three validation
    errors, unless a conversion fails first, and then [OverflowError]. *)
Lemma reset_qubit_outcome (method qubit resonator : string) (kw : kwargs)
    (st : program) :
  raises (fst (reset_qubit method qubit resonator kw st)) =
    (raise_condition method kw || overflow_condition method kw)%bool /\
  is_repo_exception (fst (reset_qubit method qubit resonator kw st)) =
    (raise_condition method kw &&
     negb (overflow_in_validation method kw))%bool /\
  (forall e, fst (reset_qubit method qubit resonator kw st) = Raise e ->
             (exists msg, e = RepoException msg /\
                          In msg validation_messages) \/
             e = OverflowError).
Proof.
  destruct kw as [ct th mt ig].
  destruct (String.eqb_spec method "cooldown") as [->|Hc].
  - reset_unfold. change ("cooldown" =? "cooldown")%string with true.
    change ("cooldown" =? "active")%string with false.
    destruct ct as [[|z|x]|]; reset_unfold; reset_compare; reset_exn; cbn;
      (split; [reflexivity|]); (split; [reflexivity|]);
      intros e He; try discriminate He;
      injection He as <-;
      first [ right; reflexivity
            | left; eexists; split; [reflexivity | cbn; auto] ].
  - destruct (String.eqb_spec method "active") as [->|Ha].
    + reset_unfold. change ("active" =? "cooldown")%string with false.
      change ("active" =? "active")%string with true.
      destruct th as [[|t|t]|], mt as [[|z|x]|], ig as [[i|]|];
        reset_unfold; reset_compare; reset_exn; cbn;
        (split; [reflexivity|]); (split; [reflexivity|]);
        intros e He; try discriminate He;
        injection He as <-;
        first [ right; reflexivity
              | left; eexists; split; [reflexivity | cbn; auto] ].
    + unfold reset_qubit, raise_condition, overflow_condition,
        overflow_in_validation.
      apply String.eqb_neq in Hc, Ha. rewrite Hc, Ha. cbn.
      split; [reflexivity|]. split; [reflexivity|].
      intros e He. discriminate He.
Qed.

(** For any other method nothing is emitted and [None] is returned. *)
Lemma reset_qubit_other_method (method qubit resonator : string)
    (kw : kwargs) (st : program) :
  method <> "cooldown" -> method <> "active" ->
  reset_qubit method qubit resonator kw st = (Ok None, st).
Proof.
  intros Hc Ha. unfold reset_qubit.
  apply String.eqb_neq in Hc, Ha. now rewrite Hc, Ha.
Qed.

End ResetFacts.

Section ResetClaims.
Import Py Qua NumPy.
Local Open Scope py_scope.

Lemma raise_condition_vs_stated (method : string) (kw : kwargs) :
  raise_condition method kw =
  (stated_raise_condition method kw
   || (String.eqb method "cooldown" && explicit_none (kw_cooldown_time kw))
   || (String.eqb method "active" && explicit_none (kw_threshold kw)))%bool.
Proof.
  destruct kw as [ct th mt ig].
  unfold raise_condition, stated_raise_condition, max_tries_rejected,
    kwargs_get, absent, explicit_none.
  cbn [kw_cooldown_time kw_threshold kw_max_tries].
  destruct (String.eqb method "cooldown"), (String.eqb method "active");
    cbn [andb orb];
    destruct ct as [[|z|x]|], th as [[|t|t]|]; cbn [is_none andb orb];
    rewrite ?orb_false_r, ?orb_true_r; try reflexivity;
    destruct mt as [[|m|m]|]; cbn [is_none andb orb];
    rewrite ?orb_false_r, ?orb_true_r; try reflexivity;
    repeat match goal with
           | |- context [if ?b then _ else _] => destruct b
           | |- context [(?a || ?b)%bool] => destruct a
           end; reflexivity.
Qed.

(** C8, as stated, fails when [cooldown_time] is given as [None]: the
    keyword is neither absent nor less than 4, and the macro raises. *)
Lemma reset_qubit_explicit_none_counterexample :
  fst (reset_qubit "cooldown" "q0" "rr0"
         (mkKwargs (Some VNone) None None None) empty_program)
    = Raise (RepoException cooldown_message) /\
  ~ (raises (fst (reset_qubit "cooldown" "q0" "rr0"
                    (mkKwargs (Some VNone) None None None) empty_program))
       = true
     <-> stated_raise_condition "cooldown"
           (mkKwargs (Some VNone) None None None) = true).
Proof.
  split; [reflexivity|].
  intros [H _]. specialize (H eq_refl). discriminate H.
Qed.

(** C8 (amended).  [reset_qubit] raises an exception exactly when: method is
    ['cooldown'] and [cooldown_time] is absent, [None] or less than 4; or
    method is ['active'] and [threshold] is absent or [None], or [max_tries]
    (1 when absent) is [None], not integer-valued or less than 1; or method
    is ['active'] with a threshold, and [max_tries] or the threshold is an
    int too large to be converted to a float.  The first two are the stated
    condition plus the two cases of a keyword given as [None]; in the last
    case, when the validation has nothing to reject, the exception is
    Python's [OverflowError].  For any other method nothing is emitted and
    [None] is returned, and [cooldown_time = 4] is accepted: the macro emits
    the wait and returns. *)
Theorem reset_qubit_raises_exactly (method qubit resonator : string)
    (kw : kwargs) (st : program) :
  (raises (fst (reset_qubit method qubit resonator kw st)) = true <->
   (raise_condition method kw || overflow_condition method kw)%bool = true)
  /\
  raise_condition method kw =
    (stated_raise_condition method kw
     || (String.eqb method "cooldown" && explicit_none (kw_cooldown_time kw))
     || (String.eqb method "active" && explicit_none (kw_threshold kw)))%bool
  /\
  (raise_condition method kw = false ->
   overflow_condition method kw = true ->
   fst (reset_qubit method qubit resonator kw st) = Raise OverflowError) /\
  (method <> "cooldown" -> method <> "active" ->
   reset_qubit method qubit resonator kw st = (Ok None, st)) /\
  (kw_cooldown_time kw = Some (VInt 4) ->
   reset_qubit "cooldown" qubit resonator kw st =
     (Ok None,
      mkProgram (declared st) (emitted st ++ [Wait (VInt 4) qubit]))).
Proof.
  destruct (reset_qubit_outcome method qubit resonator kw st)
    as (Hraises & Hrepo & Hexn).
  split; [|split; [|split; [|split]]].
  - now rewrite Hraises.
  - apply raise_condition_vs_stated.
  - intros Hv Ho. rewrite Hv, Ho in Hraises. rewrite Hv in Hrepo.
    cbn [andb orb] in *.
    destruct (fst (reset_qubit method qubit resonator kw st)) as [r|e];
      [discriminate Hraises|].
    destruct (Hexn e eq_refl) as [(msg & -> & _) | ->];
      [discriminate Hrepo | reflexivity].
  - apply reset_qubit_other_method.
  - intro H4. unfold reset_qubit, kwargs_get. rewrite H4. reflexivity.
Qed.

Lemma reset_qubit_raises_exactly_witness :
  reset_qubit "warmup" "q0" "rr0" no_kwargs empty_program
    = (Ok None, empty_program) /\
  reset_qubit "cooldown" "q0" "rr0"
    (mkKwargs (Some (VInt 4)) None None None) empty_program
    = (Ok None, mkProgram [] [Wait (VInt 4) "q0"]) /\
  fst (reset_qubit "active" "q0" "rr0"
         (mkKwargs None (Some (VInt 0)) (Some (VInt (10 ^ 400))) None)
         empty_program)
    = Raise OverflowError.
Proof.
  split; [|split].
  - apply (proj1 (proj2 (proj2 (proj2 (reset_qubit_raises_exactly
                                         "warmup" "q0" "rr0" no_kwargs
                                         empty_program)))));
      discriminate.
  - apply (proj2 (proj2 (proj2 (proj2 (reset_qubit_raises_exactly
                                         "warmup" "q0" "rr0"
                                         (mkKwargs (Some (VInt 4)) None None
                                            None)
                                         empty_program))))).
    reflexivity.
  - apply (proj1 (proj2 (proj2 (reset_qubit_raises_exactly
                                  "active" "q0" "rr0"
                                  (mkKwargs None (Some (VInt 0))
                                     (Some (VInt (10 ^ 400))) None)
                                  empty_program))));
      reflexivity.
Defined.

End ResetClaims.

(** ** The configuration dictionaries *)

Section SchemaFacts.
Import PyData Schema.

Lemma names_key_sound (tbl : list (pyval * pyval)) (v : pyval) :
  names_key (PDict tbl) v = true -> names_entry_of tbl v.
Proof.
  unfold names_key, has_key, names_entry_of.
  destruct v as [| | | |name| | |]; try discriminate.
  cbn [dict_get]. destruct (assoc name tbl) as [x|] eqn:E; [|discriminate].
  intros _. now exists name, x.
Qed.

Lemma pulses_ok_sound (cfg : pyval) :
  pulses_ok cfg = true -> pulses_well_formed cfg.
Proof.
  unfold pulses_ok, pulses_well_formed, table.
  destruct (dict_get "pulses" cfg) as [[| | | | | | |ps]|]; try discriminate.
  destruct (dict_get "waveforms" cfg) as [[| | | | | | |wfs]|];
    try discriminate.
  intros Hall pname p Hin. cbn [dict_items] in *.
  rewrite forallb_forall in Hall. specialize (Hall (pname, p) Hin).
  cbn [snd] in Hall. unfold pulse_ok in Hall.
  destruct (dict_get "operation" p) as [op|]; [|discriminate].
  destruct (dict_get "length" p) as [len|]; [|discriminate].
  destruct (dict_get "waveforms" p) as [[| | | | | | |w]|]; try discriminate.
  apply andb_prop in Hall as [Hall Hw]. apply andb_prop in Hall as [Hop Hlen].
  split; [|split].
  - destruct op; try discriminate. eauto.
  - eauto.
  - exists w. split; [reflexivity|]. intros k v Hv.
    rewrite forallb_forall in Hw. specialize (Hw (k, v) Hv).
    now apply names_key_sound.
Qed.

Lemma elements_ok_sound (cfg : pyval) :
  elements_ok cfg = true -> operations_well_formed cfg.
Proof.
  unfold elements_ok, operations_well_formed.
  unfold table at 1 3.
  destruct (dict_get "elements" cfg) as [[| | | | | | |es]|]; try discriminate.
  destruct (dict_get "pulses" cfg) as [[| | | | | | |ps]|]; try discriminate.
  intros Hall ename e op pn He Hop. cbn [dict_items] in *.
  rewrite forallb_forall in Hall. specialize (Hall (ename, e) He).
  cbn [snd] in Hall. unfold element_ok in Hall.
  rewrite forallb_forall in Hall. specialize (Hall (op, pn) Hop).
  now apply names_key_sound.
Qed.

End SchemaFacts.

Lemma covered_single (c d : PyData.pyval) (x : R) :
  PyData.num d = Some x ->
  PyData.covered [PyData.PTuple [c; d]] = Some x.
Proof.
  intro H. cbn [PyData.covered]. rewrite H. f_equal. apply Rplus_0_r.
Qed.

(** One kernel: look the entry up and add up the two coefficient lists. *)
Ltac check_kernel :=
  unfold Schema.kernel_covers;
  eexists _, _, _, _, _;
  do 5 (split; [reflexivity|]);
  split; apply covered_single; reflexivity.

(** One pulse: control pulses are not measurements; for a measurement pulse
    every kernel it refers to is checked. *)
Ltac check_pulse :=
  let Hm := fresh "Hm" in
  unfold Schema.measurement_ok; intro Hm;
  first
    [ lazy in Hm; discriminate Hm
    | eexists; split; [reflexivity|];
      repeat (apply Forall_cons; [check_kernel|]); apply Forall_nil ].

Ltac check_weights :=
  unfold Schema.weights_ok;
  eexists; split; [reflexivity|];
  repeat (apply Forall_cons; [check_pulse|]); apply Forall_nil.

Section ConfigClaims.
Import PyData Schema.
Local Open Scope list_scope.

Variables (u_us u_kHz u_MHz u_GHz : Z).
Variable gaussian : Z -> R -> list R.
Variable drag_gaussian_pulse_waveforms :
  R -> Z -> R -> R -> R -> R -> list R * list R.

(** C5.  In both configuration dictionaries every entry of the pulse table
    (5 and 15 entries) carries an operation type, a numeric length and a
    waveform mapping whose waveform names are keys of the waveform table,
    and every operation listed under every element (4 and 6 elements)
    names a key of the pulse table. *)
Theorem configurations_reference_declared_names :
  (pulses_well_formed (CavityLocking.config u_us u_kHz) /\
   operations_well_formed (CavityLocking.config u_us u_kHz) /\
   List.length (table "pulses" (CavityLocking.config u_us u_kHz)) = 5%nat /\
   List.length (table "elements" (CavityLocking.config u_us u_kHz)) = 4%nat)
  /\
  (pulses_well_formed
     (TwoQubitRB.config u_MHz u_GHz gaussian drag_gaussian_pulse_waveforms) /\
   operations_well_formed
     (TwoQubitRB.config u_MHz u_GHz gaussian drag_gaussian_pulse_waveforms) /\
   List.length
     (table "pulses"
        (TwoQubitRB.config u_MHz u_GHz gaussian
           drag_gaussian_pulse_waveforms)) = 15%nat /\
   List.length
     (table "elements"
        (TwoQubitRB.config u_MHz u_GHz gaussian
           drag_gaussian_pulse_waveforms)) = 6%nat).
Proof.
  split; (split; [apply pulses_ok_sound; reflexivity|]);
    (split; [apply elements_ok_sound; reflexivity|]);
    split; reflexivity.
Qed.

(** C6.  In both configuration dictionaries every integration-weights entry
    referenced by a measurement pulse (2 and 3 measurement pulses) has a
    cosine and a sine coefficient list, and the total duration each list
    covers equals the length of every measurement pulse referring to it. *)
Theorem integration_weights_cover_measurement_pulses :
  (weights_ok (CavityLocking.config u_us u_kHz) /\
   List.length
     (filter (fun kv => is_measurement (snd kv))
        (table "pulses" (CavityLocking.config u_us u_kHz))) = 2%nat) /\
  (weights_ok
     (TwoQubitRB.config u_MHz u_GHz gaussian drag_gaussian_pulse_waveforms) /\
   List.length
     (filter (fun kv => is_measurement (snd kv))
        (table "pulses"
           (TwoQubitRB.config u_MHz u_GHz gaussian
              drag_gaussian_pulse_waveforms))) = 3%nat).
Proof.
  split; (split; [check_weights | reflexivity]).
Qed.

End ConfigClaims.

(** * Further properties *)

(** ** [binary]: bit strings of a fixed length *)

Section BinaryBitStrings.
Import PyStr.

Lemma value_from_acc (s : string) (acc : Z) :
  value_from acc s = acc * 2 ^ len s + value s.
Proof.
  unfold value. revert acc.
  induction s as [|c r IH]; intro acc.
  - change (len "") with 0. cbn [value_from]. rewrite Z.pow_0_r. lia.
  - set (b := if Ascii.eqb c "1" then 1 else 0).
    change (value_from acc (String c r)) with (value_from (2 * acc + b) r).
    change (value_from 0 (String c r)) with (value_from (2 * 0 + b) r).
    rewrite (IH (2 * acc + b)), (IH (2 * 0 + b)).
    replace (len (String c r)) with (Z.succ (len r))
      by (unfold len; simpl String.length; lia).
    rewrite Z.pow_succ_r by (unfold len; lia). ring.
Qed.

Lemma value_cons (c : ascii) (r : string) :
  value (String c r) =
  (if Ascii.eqb c "1" then 1 else 0) * 2 ^ len r + value r.
Proof.
  unfold value at 1.
  change (value_from 0 (String c r))
    with (value_from (2 * 0 + (if Ascii.eqb c "1" then 1 else 0)) r).
  rewrite value_from_acc. ring.
Qed.

Lemma value_bounds (s : string) : 0 <= value s < 2 ^ len s.
Proof.
  induction s as [|c r IH].
  - cbn. lia.
  - rewrite value_cons.
    replace (len (String c r)) with (Z.succ (len r))
      by (unfold len; simpl String.length; lia).
    rewrite Z.pow_succ_r by (unfold len; lia).
    destruct (Ascii.eqb c "1"); lia.
Qed.

(** Two strings of binary digits of the same length that denote the same
    number are the same string. *)
Lemma binary_strings_unique (s t : string) :
  all_binary s = true -> all_binary t = true ->
  len s = len t -> value s = value t -> s = t.
Proof.
  revert t. induction s as [|c r IH]; intros [|d u] Hs Ht Hlen Hval;
    try reflexivity; try (unfold len in Hlen; simpl in Hlen; lia).
  simpl in Hs, Ht.
  apply andb_prop in Hs as [Hc Hr]. apply andb_prop in Ht as [Hd Hu].
  assert (Hlen' : len r = len u)
    by (unfold len in *; simpl String.length in Hlen; lia).
  rewrite !value_cons, <- Hlen' in Hval.
  pose proof (value_bounds r) as Br. pose proof (value_bounds u) as Bu.
  rewrite <- Hlen' in Bu.
  assert (Hbits : (if Ascii.eqb c "1" then 1 else 0) =
                  (if Ascii.eqb d "1" then 1 else 0) /\ value r = value u).
  { destruct (Ascii.eqb c "1"), (Ascii.eqb d "1"); split; nia. }
  destruct Hbits as [Hb Hv].
  f_equal.
  - apply orb_prop in Hc as [Hc|Hc]; apply orb_prop in Hd as [Hd|Hd];
      apply Ascii.eqb_eq in Hc, Hd; subst c d;
      try reflexivity; discriminate Hb.
  - now apply IH.
Qed.

(** For a width [L >= 1], [binary(., L)] is one-to-one on [[0, 2^L)] and
    reaches every string of [L] binary digits: reading a bit string as a
    number and converting it back gives the bit string. *)
Theorem binary_enumerates_bit_strings (L : Z) :
  1 <= L ->
  (forall s, all_binary s = true -> len s = L ->
             0 <= value s < 2 ^ L /\ binary (value s) L = s) /\
  (forall n m, 0 <= n < 2 ^ L -> 0 <= m < 2 ^ L ->
               binary n L = binary m L -> n = m).
Proof.
  intro HL. split.
  - intros s Hs Hlen.
    pose proof (value_bounds s) as B. rewrite Hlen in B. split; [exact B|].
    apply binary_strings_unique.
    + rewrite binary_shape by lia.
      now rewrite all_binary_app, all_binary_zeros, all_binary_digits.
    + exact Hs.
    + rewrite len_binary, Hlen by lia.
      pose proof (len_digits_positive (value s)).
      destruct (Z.eq_dec (value s) 0) as [E|E].
      * rewrite E. change (len (digits 0)) with 1. lia.
      * assert (len (digits (value s)) <= L) by (apply digits_fit; lia). lia.
    + rewrite binary_shape by lia. unfold value at 1.
      rewrite value_from_zeros. apply value_digits. lia.
  - intros n m Hn Hm E.
    assert (V : value (binary n L) = value (binary m L)) by now rewrite E.
    rewrite !binary_shape in V by lia. unfold value in V.
    rewrite !value_from_zeros in V.
    fold (value (digits n)) in V. fold (value (digits m)) in V.
    rewrite !value_digits in V by lia. exact V.
Qed.

Lemma binary_enumerates_bit_strings_witness :
  binary (value "0110") 4 = "0110".
Proof.
  destruct (binary_enumerates_bit_strings 4 ltac:(lia)) as [H _].
  exact (proj2 (H "0110" eq_refl eq_refl)).
Defined.

Lemma all_binary_with_b (k : nat) (s : string) :
  all_binary (zeros k ++ String "b" s) = false.
Proof.
  induction k as [|k IH]; [reflexivity|]. simpl. exact IH.
Qed.

(** For a negative [n] the slice [bin(n)[2:]] drops the sign and the ['0']
    but keeps the ['b']: the result is ['b'] followed by the digits of
    [-n], padded on the left, and is not a bit string. *)
Theorem binary_of_negative_keeps_b (n L : Z) :
  n < 0 ->
  binary n L =
    zeros (Z.to_nat (L - (1 + len (digits (- n)))))
    ++ String "b" (digits (- n)) /\
  all_binary (binary n L) = false.
Proof.
  intro Hn. destruct n as [|p|p]; try lia.
  assert (E : binary (Zneg p) L =
              zeros (Z.to_nat (L - (1 + len (digits (- Zneg p)))))
              ++ String "b" (digits (- Zneg p))).
  { unfold binary. simpl bin. simpl drop. simpl digits. unfold zfill.
    replace (len (String "b" (bits_pos p))) with (1 + len (bits_pos p))
      by (unfold len; simpl String.length; lia).
    destruct (Z.leb_spec L (1 + len (bits_pos p))) as [Hle|Hgt].
    - replace (Z.to_nat (L - (1 + len (bits_pos p)))) with O by lia.
      reflexivity.
    - reflexivity. }
  split; [exact E|]. rewrite E. apply all_binary_with_b.
Qed.

Lemma binary_of_negative_keeps_b_witness : binary (-5) 8 = "0000b101".
Proof.
  exact (proj1 (binary_of_negative_keeps_b (-5) 8 ltac:(lia))).
Defined.

End BinaryBitStrings.

(** ** [cross_entropy]: value and shapes *)

Section CrossEntropyValue.
Import Py NumPy.
Local Open Scope list_scope.
Local Open Scope R_scope.







End CrossEntropyValue.

Section CrossEntropyTheorems.
Import Py NumPy.
Local Open Scope list_scope.
Local Open Scope R_scope.






End CrossEntropyTheorems.

(** ** [active_reset] and [reset_qubit]: effects on the program *)

Section ResetEffects.
Import Py Qua.
Local Open Scope list_scope.
Local Open Scope py_scope.

(** With a threshold that is a number (an int of a size that can be
    converted) and an accepted number of tries, [active_reset] returns and
    adds exactly this to the program: [Ig] is assigned
    [threshold + 2**-28], computed in doubles, the counter is assigned 0,
    the two elements are aligned, and one loop on
    [(Ig > threshold) & (counter < max_tries)] makes one readout, one pi
    pulse conditioned on the threshold comparison and one increment per
    pass.  The counter is a newly declared variable, [Ig] is the given
    variable or a newly declared one. *)
Theorem active_reset_emits_one_loop (threshold : value)
    (qubit resonator : string) (max_tries : value) (Ig : option var)
    (st : program) (init : value) :
  add_2_pow_m28 threshold = Ok init ->
  is_none max_tries = false ->
  too_large max_tries = false ->
  (is_lt max_tries 1 || not_integer_valued max_tries)%bool = false ->
  exists ig counter dv,
    active_reset threshold qubit resonator max_tries Ig st =
      (Ok (ig, counter),
       mkProgram (declared st ++ dv ++ [int])
         (emitted st ++
          [Assign ig (Lit init);
           Assign counter (Lit (VInt 0));
           Align [qubit; resonator];
           While (And (Gt (Var ig) (Lit threshold))
                      (Lt (Var counter) (Lit max_tries)))
             (active_reset_body threshold qubit resonator ig counter)])) /\
    counter = List.length (declared st ++ dv) /\
    match Ig with
    | Some v => ig = v /\ dv = []
    | None => ig = List.length (declared st) /\ dv = [fixed]
    end.
Proof.
  intros Hadd Hm Hlarge Hok.
  apply orb_false_iff in Hok as [Hlt Hint].
  assert (Hlt' : lt_int max_tries 1 = Ok false).
  { destruct max_tries; try discriminate Hm; unfold is_lt in Hlt;
      cbn [lt_int] in *; now rewrite Hlt. }
  assert (Hint' : float_is_integer max_tries = Ok true).
  { destruct max_tries as [|m|m]; try discriminate Hm;
      unfold not_integer_valued, too_large in *;
      cbn [float_is_integer] in *.
    - destruct (float_of_int m); [reflexivity | discriminate Hlarge].
    - apply negb_false_iff in Hint. now rewrite Hint. }
  destruct st as [ds es].
  unfold active_reset, active_reset_body, bind, lift, ret, raise.
  destruct Ig as [v|];
    cbv beta iota delta [declare declared emitted];
    rewrite Hlt'; cbv beta iota; rewrite Hint'; cbv beta iota delta [negb];
    rewrite Hadd;
    cbv beta iota delta [assign declare align while_ measure play emit
                         declared emitted];
    [ exists v, (List.length ds), []
    | exists (List.length ds), (List.length (ds ++ [fixed])), [fixed] ];
    (split; [rewrite <- !app_assoc; cbn [app]; reflexivity|]);
    (split; [now rewrite ?app_nil_r|]); split; reflexivity.
Qed.

End ResetEffects.

Lemma list_extends_refl {A : Type} (l : list A) : list_extends l l.
Proof. exists []. now rewrite app_nil_r. Qed.

Lemma list_extends_snoc {A : Type} (l l' t : list A) :
  list_extends l l' -> list_extends l (l' ++ t).
Proof.
  intros [more ->]. exists (more ++ t)%list. now rewrite app_assoc.
Qed.

Ltac solve_extends :=
  repeat first [ apply list_extends_refl | apply list_extends_snoc ].

Section ResetFailures.
Import PrimFloat.
Import Py Qua.
Local Open Scope list_scope.
Local Open Scope py_scope.

(** [reset_qubit] validates before it touches the program: when it raises
    one of its validation errors, no variable has been declared and no
    statement emitted.  No failure emits a statement; the only failure
    that leaves a trace is the [OverflowError] of a threshold too large to
    be converted, which comes after [active_reset] has declared [Ig], if
    none was given.  Earlier declarations and statements are always kept,
    in place. *)
Theorem reset_qubit_fails_without_effect (method qubit resonator : string)
    (kw : kwargs) (st : program) :
  let run := reset_qubit method qubit resonator kw st in
  (is_repo_exception (fst run) = true -> snd run = st) /\
  (raises (fst run) = true ->
   snd run = st \/
   (too_large (kwargs_get (kw_threshold kw) VNone) = true /\
    kwargs_get (kw_Ig kw) None = None /\
    snd run = mkProgram (declared st ++ [fixed]) (emitted st))) /\
  program_extends st (snd run).
Proof.
  intro run. subst run.
  destruct kw as [ct th mt ig]. destruct st as [ds es].
  unfold program_extends.
  destruct (String.eqb_spec method "cooldown") as [->|Hc].
  - reset_unfold. change ("cooldown" =? "cooldown")%string with true.
    destruct ct as [[|z|x]|]; reset_unfold; reset_compare;
      unfold wait, emit;
      cbn [fst snd raises is_repo_exception declared emitted];
      (split; [intro H; (reflexivity || discriminate H)|]);
      (split; [intro H; try discriminate H; left; reflexivity|]);
      split; solve_extends.
  - destruct (String.eqb_spec method "active") as [->|Ha].
    + reset_unfold. change ("active" =? "cooldown")%string with false.
      change ("active" =? "active")%string with true.
      destruct th as [[|t|t]|], mt as [[|z|x]|], ig as [[i|]|];
        reset_unfold; reset_compare; reset_exn;
        unfold assign, declare, align, while_, measure, play, emit;
        cbn [fst snd raises is_repo_exception declared emitted];
        (split; [intro H; (reflexivity || discriminate H)|]);
        (split; [intro H; try discriminate H;
                 first [ left; reflexivity
                       | right; repeat split; reflexivity ]|]);
        split; solve_extends.
    + unfold reset_qubit.
      apply String.eqb_neq in Hc, Ha. rewrite Hc, Ha.
      cbn [fst snd ret raises is_repo_exception declared emitted].
      split; [reflexivity|]. split; [now left|]. split; solve_extends.
Qed.

Lemma reset_qubit_fails_without_effect_witness :
  snd (reset_qubit "active" "q0" "rr0"
         (mkKwargs None (Some (VFloat 0.5%float)) (Some (VInt 0)) None)
         (mkProgram [int] [Align ["q0"]]))
  = mkProgram [int] [Align ["q0"]].
Proof.
  apply (proj1 (reset_qubit_fails_without_effect "active" "q0" "rr0"
                  (mkKwargs None (Some (VFloat 0.5%float)) (Some (VInt 0))
                     None)
                  (mkProgram [int] [Align ["q0"]]))).
  reflexivity.
Defined.

(** Called directly, [active_reset] has no guard against [None]: a
    [max_tries] or (with an accepted [max_tries]) a [threshold] of [None]
    ends in a [TypeError] of the Python runtime, not in the validation
    error; an int [max_tries >= 1] too large to be converted ends in an
    [OverflowError].  Whatever makes the call fail, no statement has been
    emitted, but when [Ig] was not given its variable has already been
    declared. *)
Theorem active_reset_failure_modes (threshold : value)
    (qubit resonator : string) (max_tries : value) (Ig : option var)
    (st : program) :
  (max_tries = VNone ->
   fst (active_reset threshold qubit resonator max_tries Ig st)
     = Raise TypeError) /\
  (threshold = VNone -> max_tries <> VNone ->
   too_large max_tries = false ->
   (is_lt max_tries 1 || not_integer_valued max_tries)%bool = false ->
   fst (active_reset threshold qubit resonator max_tries Ig st)
     = Raise TypeError) /\
  (is_lt max_tries 1 = false -> too_large max_tries = true ->
   fst (active_reset threshold qubit resonator max_tries Ig st)
     = Raise OverflowError) /\
  (raises (fst (active_reset threshold qubit resonator max_tries Ig st))
     = true ->
   snd (active_reset threshold qubit resonator max_tries Ig st) =
     match Ig with
     | Some _ => st
     | None => mkProgram (declared st ++ [fixed]) (emitted st)
     end).
Proof.
  destruct st as [ds es].
  unfold active_reset, is_lt, not_integer_valued, too_large, bind, lift,
    ret, raise.
  destruct threshold, max_tries, Ig;
    cbn [lt_int float_is_integer add_2_pow_m28 negb];
    reset_compare; reset_exn;
    unfold assign, declare, align, while_, measure, play, emit;
    cbn [fst snd raises declared emitted orb negb];
    (split; [intro H; try discriminate H; reflexivity|]);
    (split; [intros H1 H2 H3 H4;
             try discriminate H1; try discriminate H3; try discriminate H4;
             try (now elim H2); reflexivity|]);
    (split; [intros H1 H2; try discriminate H1; try discriminate H2;
             reflexivity|]);
    intro H; try discriminate H; reflexivity.
Qed.

Lemma active_reset_failure_modes_witness :
  fst (active_reset (VFloat 0.5%float) "q0" "rr0" VNone None empty_program)
  = Raise TypeError.
Proof.
  exact (proj1 (active_reset_failure_modes (VFloat 0.5%float) "q0" "rr0"
                  VNone None empty_program) eq_refl).
Defined.

(** With accepted keywords, none of them an int too large to be converted
    to a float, [reset_qubit] cannot fail.  For ['cooldown'] it emits
    exactly one wait of [cooldown_time] on the qubit and declares nothing;
    for ['active'] it is [active_reset] called with the given threshold and
    [Ig] and with [max_tries] defaulting to 1, whose pair of variables it
    returns. *)
Theorem reset_qubit_accepted_keywords (qubit resonator : string)
    (kw : kwargs) (st : program) :
  (raise_condition "cooldown" kw = false ->
   reset_qubit "cooldown" qubit resonator kw st =
     (Ok None,
      mkProgram (declared st)
        (emitted st ++
         [Wait (kwargs_get (kw_cooldown_time kw) VNone) qubit]))) /\
  (raise_condition "active" kw = false ->
   overflow_condition "active" kw = false ->
   exists r st',
     active_reset (kwargs_get (kw_threshold kw) VNone) qubit resonator
       (kwargs_get (kw_max_tries kw) (VInt 1))
       (kwargs_get (kw_Ig kw) None) st = (Ok r, st') /\
     reset_qubit "active" qubit resonator kw st = (Ok (Some r), st')).
Proof.
  destruct kw as [ct th mt ig]. destruct st as [ds es].
  split.
  - intro Hok. revert Hok. reset_unfold.
    change ("cooldown" =? "cooldown")%string with true.
    change ("cooldown" =? "active")%string with false.
    destruct ct as [[|z|x]|]; reset_unfold; reset_compare;
      cbn [andb orb]; intro Hok; try discriminate Hok; reflexivity.
  - intros Hok Hov. revert Hok Hov. reset_unfold.
    change ("active" =? "cooldown")%string with false.
    change ("active" =? "active")%string with true.
    destruct th as [[|t|t]|], mt as [[|z|x]|], ig as [[i|]|];
      reset_unfold; reset_compare;
      cbn [andb orb negb raises]; intros Hok Hov;
      try discriminate Hok; try discriminate Hov;
      unfold assign, declare, align, while_, measure, play, emit;
      cbn [fst snd declared emitted];
      eexists; eexists; split; reflexivity.
Qed.

Lemma reset_qubit_accepted_keywords_witness :
  reset_qubit "cooldown" "q0" "rr0"
    (mkKwargs (Some (VFloat 4.5%float)) None None None) empty_program
  = (Ok None, mkProgram [] [Wait (VFloat 4.5%float) "q0"]).
Proof.
  exact (proj1 (reset_qubit_accepted_keywords "q0" "rr0"
                  (mkKwargs (Some (VFloat 4.5%float)) None None None)
                  empty_program) eq_refl).
Defined.

End ResetFailures.

(** ** The measurement macros of two_qubit_rb_config.py *)

Section MeasureMacroFacts.
Import Py Qua PyData.
Local Open Scope list_scope.
Local Open Scope py_scope.

Variables (u_MHz u_GHz : Z).
Variable gaussian : Z -> R -> list R.
Variable drag_gaussian_pulse_waveforms :
  R -> Z -> R -> R -> R -> R -> list R * list R.

(** The measurement macros never fail and use two new variables: the state
    variable [qubit] is assigned from the first one, the result is the
    second one.  A [qubit] declared beforehand is therefore never the
    returned variable, and whatever was declared or emitted before is
    kept. *)
Theorem measure_qubit_uses_fresh_variables (qubit : var) (st : program) :
  let I := List.length (declared st) in
  let Q := S (List.length (declared st)) in
  measure_qubit_0 qubit st =
    (Ok Q,
     mkProgram (declared st ++ [fixed; fixed])
       (emitted st ++
        [Measure "readout" "rr0" None
           [DualDemodFull "cos" "out1" "sin" "out2" I;
            DualDemodFull "minus_sin" "out1" "cos" "out2" Q];
         Assign qubit (Gt (Var I) (Lit (VInt 0)))])) /\
  measure_qubit_1 qubit st =
    (Ok Q,
     mkProgram (declared st ++ [fixed; fixed])
       (emitted st ++
        [Measure "readout" "rr1" None
           [DualDemodFull "cos" "out1" "sin" "out2" I;
            DualDemodFull "minus_sin" "out1" "cos" "out2" Q];
         Assign qubit (Gt (Var I) (Lit (VInt 0)))])) /\
  ((qubit < List.length (declared st))%nat -> Q <> qubit /\ I <> qubit).
Proof.
  destruct st as [ds es]. cbn [declared emitted].
  unfold measure_qubit_0, measure_qubit_1, bind, ret, declare, measure,
    assign, emit.
  cbn [declared emitted fst snd].
  rewrite List.length_app, <- !app_assoc. cbn [List.length app].
  rewrite Nat.add_1_r.
  repeat split; lia.
Qed.

Lemma measure_qubit_uses_fresh_variables_witness :
  fst (measure_qubit_0 0%nat (mkProgram [int] [])) = Ok 2%nat /\
  2%nat <> 0%nat.
Proof.
  destruct (measure_qubit_uses_fresh_variables 0%nat (mkProgram [int] []))
    as (H0 & _ & Hfresh).
  split.
  - rewrite H0. reflexivity.
  - exact (proj1 (Hfresh ltac:(cbn; lia))).
Defined.

(** Both measurement macros emit, first of all, a measurement of the
    operation ["readout"] on their resonator, ["rr0"] or ["rr1"], with two
    demodulations, and every name in it is defined by the configuration of
    the same file: ["readout"] is an operation of the resonator, it stands
    for a measurement pulse, that pulse declares the integration weights
    ["cos"], ["sin"] and ["minus_sin"], and the resonator declares the
    outputs ["out1"] and ["out2"]. *)
Theorem measure_qubit_resolves_in_config (qubit : var) (st : program) :
  let cfg :=
    TwoQubitRB.config u_MHz u_GHz gaussian drag_gaussian_pulse_waveforms in
  let measured (run : Py.res var * program) (rr : string) :=
    exists outputs rest pulse,
      emitted (snd run) =
        emitted st ++ Measure "readout" rr None outputs :: rest /\
      List.length outputs = 2%nat /\
      Resolve.pulse_of cfg rr "readout" = Some pulse /\
      Schema.is_measurement pulse = true /\
      Forall (fun w => Resolve.has_weights pulse w = true)
        ["cos"; "sin"; "minus_sin"] /\
      Forall (fun out => Resolve.has_output cfg rr out = true)
        ["out1"; "out2"] /\
      Forall (fun d => Resolve.demod_resolves cfg pulse rr d = true)
        outputs /\
      Forall (fun s => Resolve.resolves cfg s = true)
        (Measure "readout" rr None outputs :: rest) in
  measured (measure_qubit_0 qubit st) "rr0" /\
  measured (measure_qubit_1 qubit st) "rr1".
Proof.
  intros cfg measured. subst measured.
  destruct st as [ds es].
  unfold measure_qubit_0, measure_qubit_1, bind, ret, declare, measure,
    assign, emit.
  cbn [declared emitted fst snd].
  split.
  - do 3 eexists.
    split; [rewrite <- app_assoc; reflexivity|].
    split; [reflexivity|].
    split; [reflexivity|].
    split; [reflexivity|].
    repeat split; repeat constructor.
  - do 3 eexists.
    split; [rewrite <- app_assoc; reflexivity|].
    split; [reflexivity|].
    split; [reflexivity|].
    split; [reflexivity|].
    repeat split; repeat constructor.
Qed.

End MeasureMacroFacts.

(** ** Cross references of the configuration dictionaries *)

Lemma samples_of_arbitrary_wf (l : list R) :
  PyData.dict_get "samples" (TwoQubitRB.arbitrary_wf l) =
  Some (PyData.PList (map PyData.PFloat l)).
Proof. reflexivity. Qed.

Lemma samples_of_constant_wf (c : R) :
  PyData.dict_get "samples" (TwoQubitRB.constant_wf c) = None.
Proof. reflexivity. Qed.

Section WiringFacts.
Import PyData Wiring.
Local Open Scope list_scope.

Variables (u_us u_kHz u_MHz u_GHz : Z).
Variable gaussian : Z -> R -> list R.
Variable drag_gaussian_pulse_waveforms :
  R -> Z -> R -> R -> R -> R -> list R * list R.

(** In both configuration dictionaries every element drives at least one
    port, every port an element drives is a declared analog output of its
    controller, every port it reads is a declared analog input, and every
    digital marker of a pulse names a declared digital waveform. *)
Theorem configurations_are_wired :
  wired (CavityLocking.config u_us u_kHz) = true /\
  wired (TwoQubitRB.config u_MHz u_GHz gaussian
           drag_gaussian_pulse_waveforms) = true.
Proof. split; reflexivity. Qed.

Lemma IQ_imbalance_of_zero_literals :
  IQ_imbalance 0.0 0.0 = Py.Ok [1; 0; 0; 1]%R.
Proof.
  replace 0.0%R with 0%R by lra. exact IQ_imbalance_no_imbalance.
Qed.

(** One element: nothing to show without a mixer; otherwise the entry of
    the named mixer is exhibited. *)
Ltac check_mixer :=
  hnf;
  first
    [ exact I
    | eexists _, _, _, _, _;
      split; [reflexivity|];
      split; [reflexivity|];
      split; [left; reflexivity|];
      split; [reflexivity|];
      split; [reflexivity|];
      split; [reflexivity|];
      split; [reflexivity|];
      unfold TwoQubitRB.mixer_qe0_g, TwoQubitRB.mixer_qe0_phi,
        TwoQubitRB.mixer_qe1_g, TwoQubitRB.mixer_qe1_phi,
        TwoQubitRB.mixer_rr0_g, TwoQubitRB.mixer_rr0_phi,
        TwoQubitRB.mixer_rr1_g, TwoQubitRB.mixer_rr1_phi;
      rewrite IQ_imbalance_of_zero_literals; reflexivity ].

(** In the two-qubit configuration every element driven through a mixer
    names a declared mixer that has an entry for exactly the element's
    intermediate frequency and local-oscillator frequency, and the
    correction of that entry is the identity matrix: no imbalance is
    configured. *)
Theorem mixers_match_their_elements :
  Forall (fun kv =>
            mixer_matches
              (TwoQubitRB.config u_MHz u_GHz gaussian
                 drag_gaussian_pulse_waveforms)
              (snd kv) (floats [1; 0; 0; 1]%R))
    (table "elements"
       (TwoQubitRB.config u_MHz u_GHz gaussian
          drag_gaussian_pulse_waveforms)) /\
  List.length
    (filter (fun kv => has_key "mixInputs" (snd kv))
       (table "elements"
          (TwoQubitRB.config u_MHz u_GHz gaussian
             drag_gaussian_pulse_waveforms))) = 5%nat.
Proof.
  split; [|reflexivity].
  repeat (apply Forall_cons; [check_mixer|]). apply Forall_nil.
Qed.

Hypothesis gaussian_length :
  forall M std, List.length (gaussian M std) = Z.to_nat M.
Hypothesis drag_length_fst :
  forall a l s c an d,
    List.length (fst (drag_gaussian_pulse_waveforms a l s c an d)) =
    Z.to_nat l.
Hypothesis drag_length_snd :
  forall a l s c an d,
    List.length (snd (drag_gaussian_pulse_waveforms a l s c an d)) =
    Z.to_nat l.

(** One waveform of a pulse: a constant waveform has no samples; the
    samples of an arbitrary one are counted. *)
Ltac check_waveform :=
  let samples := fresh "samples" in
  let H := fresh "H" in
  eexists _, _;
  split; [reflexivity|];
  split; [reflexivity|];
  intros samples H;
  first
    [ rewrite samples_of_constant_wf in H; discriminate H
    | rewrite samples_of_arbitrary_wf in H; injection H as <-;
      rewrite length_map;
      unfold TwoQubitRB.gauss_wf, TwoQubitRB.displace_wf,
        TwoQubitRB.x90_I_wf, TwoQubitRB.x90_Q_wf,
        TwoQubitRB.x180_I_wf, TwoQubitRB.x180_Q_wf,
        TwoQubitRB.minus_x90_I_wf, TwoQubitRB.minus_x90_Q_wf,
        TwoQubitRB.y90_I_wf, TwoQubitRB.y90_Q_wf,
        TwoQubitRB.y180_I_wf, TwoQubitRB.y180_Q_wf,
        TwoQubitRB.minus_y90_I_wf, TwoQubitRB.minus_y90_Q_wf,
        TwoQubitRB.scale, TwoQubitRB.drag;
      rewrite ?length_map;
      rewrite ?gaussian_length, ?drag_length_fst, ?drag_length_snd;
      reflexivity ].

Ltac check_pulse_samples :=
  eexists; split; [reflexivity|];
  repeat (apply Forall_cons; [check_waveform|]); apply Forall_nil.

(** If the vendor's waveform generators return as many samples as the
    length they are given, then in the two-qubit configuration every pulse
    has an integer length, every waveform it names is declared, and every
    waveform given by samples has exactly as many samples as the pulse is
    long. *)
Theorem sampled_waveforms_fit_their_pulses :
  Forall (fun kv =>
            pulse_samples_fit
              (TwoQubitRB.config u_MHz u_GHz gaussian
                 drag_gaussian_pulse_waveforms)
              (snd kv))
    (table "pulses"
       (TwoQubitRB.config u_MHz u_GHz gaussian
          drag_gaussian_pulse_waveforms)) /\
  List.length
    (filter (fun kv => has_key "samples" (snd kv))
       (table "waveforms"
          (TwoQubitRB.config u_MHz u_GHz gaussian
             drag_gaussian_pulse_waveforms))) = 14%nat.
Proof.
  split; [|reflexivity].
  repeat (apply Forall_cons; [check_pulse_samples|]). apply Forall_nil.
Qed.

End WiringFacts.

Lemma sampled_waveforms_fit_their_pulses_witness :
  Forall (fun kv =>
            Wiring.pulse_samples_fit
              (TwoQubitRB.config 1000000 1000000000
                 (fun M _ => repeat 0%R (Z.to_nat M))
                 (fun _ l _ _ _ _ =>
                    (repeat 0%R (Z.to_nat l), repeat 0%R (Z.to_nat l))))
              (snd kv))
    (PyData.table "pulses"
       (TwoQubitRB.config 1000000 1000000000
          (fun M _ => repeat 0%R (Z.to_nat M))
          (fun _ l _ _ _ _ =>
             (repeat 0%R (Z.to_nat l), repeat 0%R (Z.to_nat l))))).
Proof.
  apply (sampled_waveforms_fit_their_pulses 1000000 1000000000
           (fun M _ => repeat 0%R (Z.to_nat M))
           (fun _ l _ _ _ _ =>
              (repeat 0%R (Z.to_nat l), repeat 0%R (Z.to_nat l)))).
  - intros. apply repeat_length.
  - intros. apply repeat_length.
  - intros. apply repeat_length.
Defined.

Lemma active_reset_emits_one_loop_witness :
  exists ig counter,
    fst (active_reset (Qua.VInt 33554432) "q0" "rr0" (Qua.VInt 3) None
           empty_program)
    = Py.Ok (ig, counter).
Proof.
  destruct (active_reset_emits_one_loop (Qua.VInt 33554432) "q0" "rr0"
              (Qua.VInt 3) None empty_program _ eq_refl eq_refl eq_refl
              eq_refl)
    as (ig & counter & dv & Hrun & _).
  exists ig, counter. now rewrite Hrun.
Defined.

(** ** The gate macros of macros.py *)

Section BuilderFacts.
Import PyX QuaX.
Local Open Scope list_scope.
Local Open Scope pyx_scope.

Lemma getitem_nat {S A : Type} (l : list A) (i : nat) (st : S) :
  getitem l (Z.of_nat i) st =
  match nth_error l i with
  | Some x => (Ok x, st)
  | None => (Raise IndexError, st)
  end.
Proof.
  unfold getitem.
  destruct (Z.ltb_spec (Z.of_nat i) 0) as [?|_]; [lia|].
  rewrite Nat2Z.id. destruct (nth_error l i); reflexivity.
Qed.

Lemma nth_error_seq_lt (a k i : nat) :
  (i < k)%nat -> nth_error (seq a k) i = Some (a + i)%nat.
Proof.
  intro H. rewrite nth_error_seq.
  destruct (Nat.ltb_spec i k); [reflexivity | lia].
Qed.

(** Declaring one variable per item of a list. *)
Lemma comprehension_declare {A : Type} (t : Qua.qtype) (l : list A)
    (st : builder) :
  comprehension l (fun _ => declare t) st =
  (Ok (seq (List.length (declared st)) (List.length l)),
   mkBuilder (declared st ++ repeat t (List.length l)) (streams st)
     (emitted st) (cases st)).
Proof.
  revert st. induction l as [|x l IH]; intro st.
  - cbn. rewrite app_nil_r. now destruct st.
  - cbn [comprehension]. unfold bind at 1. unfold declare at 1.
    unfold bind at 1. rewrite IH. cbn [declared streams emitted cases].
    unfold ret. rewrite List.length_app, Nat.add_1_r, <- app_assoc.
    reflexivity.
Qed.

Lemma comprehension_declare_stream {A : Type} (l : list A) (st : builder) :
  comprehension l (fun _ => declare_stream) st =
  (Ok (seq (streams st) (List.length l)),
   mkBuilder (declared st) (streams st + List.length l) (emitted st)
     (cases st)).
Proof.
  revert st. induction l as [|x l IH]; intro st.
  - cbn. rewrite Nat.add_0_r. now destruct st.
  - cbn [comprehension]. unfold bind at 1. unfold declare_stream at 1.
    unfold bind at 1. rewrite IH. cbn [declared streams emitted cases].
    unfold ret. cbn [List.length seq]. do 2 f_equal. lia.
Qed.

Lemma length_range (n : Z) : List.length (range n) = Z.to_nat n.
Proof. unfold range. now rewrite length_map, length_seq. Qed.

End BuilderFacts.

Section QuaDeclaration.
Import PyX QuaX Gates.
Local Open Scope list_scope.
Local Open Scope pyx_scope.

Lemma link_loop (els : list string) (d k : nat) (c j : nat) (st : builder) :
  (j + c <= k)%nat -> (j <= List.length els)%nat ->
  for_each (map Z.of_nat (seq j c))
    (fun i =>
       element <- getitem els i ;;
       Ii <- getitem (seq d k) i ;;
       Qi <- getitem (seq (d + k) k) i ;;
       emit (AssignVariablesToElement element Ii Qi)) st =
  if (j + c <=? List.length els)%nat
  then (Ok tt,
        mkBuilder (declared st) (streams st)
          (emitted st ++ element_assignments els d k (seq j c)) (cases st))
  else (Raise IndexError,
        mkBuilder (declared st) (streams st)
          (emitted st
           ++ element_assignments els d k (seq j (List.length els - j)))
          (cases st)).
Proof.
  revert j st. induction c as [|c IH]; intros j st Hk Hm.
  - cbn [seq map for_each]. rewrite Nat.add_0_r.
    destruct (Nat.leb_spec j (List.length els)) as [_|?]; [|lia].
    unfold ret, element_assignments. cbn [map]. rewrite app_nil_r.
    now destruct st.
  - cbn [seq map for_each]. unfold bind at 1. unfold bind at 1.
    rewrite getitem_nat.
    destruct (nth_error els j) as [name|] eqn:Ej.
    + assert (Hj : (j < List.length els)%nat)
        by (apply nth_error_Some; congruence).
      unfold bind at 1. rewrite getitem_nat, nth_error_seq_lt by lia.
      unfold bind at 1. rewrite getitem_nat, nth_error_seq_lt by lia.
      unfold emit at 1. rewrite IH by lia.
      cbn [declared streams emitted cases].
      replace (S j + c)%nat with (j + S c)%nat by lia.
      assert (Hname : nth j els EmptyString = name)
        by (now apply nth_error_nth).
      destruct (Nat.leb_spec (j + S c) (List.length els)) as [Hle|Hgt].
      * rewrite <- app_assoc. unfold element_assignments.
        cbn [seq map app]. now rewrite Hname.
      * rewrite <- app_assoc. unfold element_assignments.
        replace (List.length els - j)%nat
          with (S (List.length els - S j)) by lia.
        cbn [seq map app]. now rewrite Hname.
    + apply nth_error_None in Ej.
      destruct (Nat.leb_spec (j + S c) (List.length els)) as [?|_]; [lia|].
      replace (List.length els - j)%nat with O by lia.
      unfold element_assignments. cbn [seq map]. rewrite app_nil_r.
      now destruct st.
Qed.

(** [qua_declaration] declares [2 * n_qubits] new fixed variables and as
    many new streams, all distinct: first those of [I], then those of [Q].
    With at least [n_qubits] readout elements it links the [i]-th element
    to [I[i]] and [Q[i]] and returns the four lists, each of length
    [n_qubits].  With fewer readout elements it ends in an [IndexError],
    after all variables and streams have been declared and the elements
    that exist have been linked. *)
Theorem qua_declaration_declares_and_links (n_qubits : Z)
    (readout_elements : list string) (st : builder) :
  let k := Z.to_nat n_qubits in
  let d := List.length (declared st) in
  let s := streams st in
  let I := seq d k in
  let Q := seq (d + k) k in
  NoDup (I ++ Q) /\
  Forall (fun v => (d <= v)%nat) (I ++ Q) /\
  ((k <= List.length readout_elements)%nat ->
   qua_declaration n_qubits readout_elements st =
     (Ok (I, seq s k, Q, seq (s + k) k),
      mkBuilder (declared st ++ repeat Qua.fixed k ++ repeat Qua.fixed k)
        (s + k + k)
        (emitted st
         ++ element_assignments readout_elements d k (seq 0 k))
        (cases st))) /\
  ((List.length readout_elements < k)%nat ->
   qua_declaration n_qubits readout_elements st =
     (Raise IndexError,
      mkBuilder (declared st ++ repeat Qua.fixed k ++ repeat Qua.fixed k)
        (s + k + k)
        (emitted st
         ++ element_assignments readout_elements d k
              (seq 0 (List.length readout_elements)))
        (cases st))).
Proof.
  intros k d s I Q.
  assert (Hrun :
    qua_declaration n_qubits readout_elements st =
    match
      for_each (map Z.of_nat (seq 0 k))
        (fun i =>
           element <- getitem readout_elements i ;;
           Ii <- getitem I i ;;
           Qi <- getitem Q i ;;
           emit (AssignVariablesToElement element Ii Qi))
        (mkBuilder (declared st ++ repeat Qua.fixed k ++ repeat Qua.fixed k)
           (s + k + k) (emitted st) (cases st))
    with
    | (Ok _, st') => (Ok (I, seq s k, Q, seq (s + k) k), st')
    | (Raise e, st') => (Raise e, st')
    end).
  { unfold qua_declaration.
    unfold bind at 1. rewrite comprehension_declare.
    unfold bind at 1. rewrite comprehension_declare.
    unfold bind at 1. rewrite comprehension_declare_stream.
    unfold bind at 1. rewrite comprehension_declare_stream.
    cbn [declared streams emitted cases].
    rewrite !length_range, List.length_app, repeat_length.
    fold k d s I Q. rewrite <- app_assoc.
    unfold bind at 1. unfold range. fold k.
    destruct (for_each _ _ _) as [[u|e] st']; reflexivity. }
  split; [|split; [|split]].
  - subst I Q. rewrite <- seq_app. apply seq_NoDup.
  - subst I Q. rewrite <- seq_app. apply Forall_forall.
    intros v Hv. apply in_seq in Hv. lia.
  - intro Hle. rewrite Hrun. subst I Q.
    rewrite link_loop by lia. cbn [Nat.add].
    destruct (Nat.leb_spec k (List.length readout_elements)) as [_|?];
      [reflexivity | lia].
  - intro Hlt. rewrite Hrun. subst I Q.
    rewrite link_loop by lia. cbn [Nat.add].
    destruct (Nat.leb_spec k (List.length readout_elements)) as [?|_];
      [lia|].
    rewrite Nat.sub_0_r. reflexivity.
Qed.

Lemma qua_declaration_declares_and_links_witness :
  fst (qua_declaration 2 ["rr0"] (mkBuilder [] 0 [] [])) = Raise IndexError /\
  fst (qua_declaration 2 ["rr0"; "rr1"] (mkBuilder [] 0 [] []))
    = Ok ([0; 1], [0; 1], [2; 3], [2; 3])%nat.
Proof.
  destruct (qua_declaration_declares_and_links 2 ["rr0"]
              (mkBuilder [] 0 [] [])) as (_ & _ & _ & Hshort).
  destruct (qua_declaration_declares_and_links 2 ["rr0"; "rr1"]
              (mkBuilder [] 0 [] [])) as (_ & _ & Hok & _).
  split.
  - rewrite Hshort by (cbn; lia). reflexivity.
  - rewrite Hok by (cbn; lia). reflexivity.
Defined.

End QuaDeclaration.

Section AmplitudeMatrix.
Import PyX QuaX Gates.
Local Open Scope list_scope.
Local Open Scope pyx_scope.

Lemma four_assignments_run (amp_matrix : list var) (gate_dict : gate_dict)
    (i : Z) (st : builder) :
  if case_buildable amp_matrix gate_dict i
  then four_assignments amp_matrix gate_dict i st =
       (Ok tt,
        mkBuilder (declared st) (streams st)
          (emitted st ++ snd (amplitude_case amp_matrix gate_dict i))
          (cases st))
  else exists e es,
       four_assignments amp_matrix gate_dict i st =
       (Raise e, mkBuilder (declared st) (streams st) es (cases st)) /\
       is_lookup_error e = true.
Proof.
  destruct st as [ds ss es cs].
  unfold case_buildable, entry_usable, amplitude_case, four_assignments,
    subscript.
  change (range 4) with [0; 1; 2; 3].
  destruct (lookup Z.eqb gate_dict i) as [[g vs]|];
    destruct amp_matrix as [|a0 [|a1 [|a2 [|a3 amp]]]];
    try destruct vs as [|v0 [|v1 [|v2 [|v3 vs]]]];
    cbn [for_each]; unfold bind, getitem, ret, raise, assign, emit;
    cbv beta;
    change (Z.to_nat 0) with 0%nat; change (Z.to_nat 1) with 1%nat;
    change (Z.to_nat 2) with 2%nat; change (Z.to_nat 3) with 3%nat;
    cbn;
    try (rewrite <- !app_assoc; reflexivity);
    eexists; eexists; split; reflexivity.
Qed.

Lemma case_run (amp_matrix : list var) (gate_dict : gate_dict) (i : Z)
    (st : builder) :
  if case_buildable amp_matrix gate_dict i
  then case_ i (four_assignments amp_matrix gate_dict i) st =
       (Ok tt,
        mkBuilder (declared st) (streams st) (emitted st)
          (cases st ++ [amplitude_case amp_matrix gate_dict i]))
  else exists e es,
       case_ i (four_assignments amp_matrix gate_dict i) st =
       (Raise e,
        mkBuilder (declared st) (streams st) (emitted st)
          (cases st ++ [(i, es)])) /\
       is_lookup_error e = true.
Proof.
  pose proof (four_assignments_run amp_matrix gate_dict i
                (mkBuilder (declared st) (streams st) [] (cases st))) as H.
  destruct (case_buildable amp_matrix gate_dict i).
  - unfold case_. rewrite H. cbn [declared streams emitted cases app].
    reflexivity.
  - destruct H as (e & es & H & He). exists e, es. split; [|exact He].
    unfold case_. rewrite H. cbn [declared streams emitted cases].
    reflexivity.
Qed.

Lemma cases_loop (amp_matrix : list var) (gate_dict : gate_dict)
    (l : list Z) (st : builder) :
  if forallb (case_buildable amp_matrix gate_dict) l
  then for_each l
         (fun i => case_ i (four_assignments amp_matrix gate_dict i)) st =
       (Ok tt,
        mkBuilder (declared st) (streams st) (emitted st)
          (cases st ++ map (amplitude_case amp_matrix gate_dict) l))
  else exists e cs,
       for_each l
         (fun i => case_ i (four_assignments amp_matrix gate_dict i)) st =
       (Raise e, mkBuilder (declared st) (streams st) (emitted st) cs) /\
       is_lookup_error e = true.
Proof.
  revert st. induction l as [|i l IH]; intro st.
  - cbn. rewrite app_nil_r. now destruct st.
  - cbn [forallb for_each map].
    pose proof (case_run amp_matrix gate_dict i st) as Hi.
    destruct (case_buildable amp_matrix gate_dict i); cbn [andb].
    + specialize (IH (mkBuilder (declared st) (streams st) (emitted st)
                        (cases st ++ [amplitude_case amp_matrix gate_dict i]))).
      destruct (forallb (case_buildable amp_matrix gate_dict) l).
      * unfold bind at 1. rewrite Hi, IH.
        cbn [declared streams emitted cases]. now rewrite <- app_assoc.
      * destruct IH as (e & cs & IH & He). exists e, cs.
        unfold bind at 1. rewrite Hi, IH. split; [reflexivity | exact He].
    + destruct Hi as (e & es & Hi & He). exists e, (cases st ++ [(i, es)]).
      unfold bind at 1. rewrite Hi. split; [reflexivity | exact He].
Qed.

(** [assign_amplitude_matrix] builds one switch on the gate index, with one
    case per index [0 .. len(gate_dict) - 1] in this order, each case
    assigning the four amplitudes of that gate to the first four amplitude
    variables; for an empty [gate_dict] the switch has no case, whatever
    the amplitude variables are.  Every case needs four amplitude
    variables and an entry of its index with at least four amplitudes: if
    one of the indices below [len(gate_dict)] cannot be built, the macro
    ends in a [KeyError] or an [IndexError] inside the switch block;
    nothing has been declared and the earlier statements are kept. *)
Theorem assign_amplitude_matrix_builds_switch (gate : var)
    (amp_matrix : list var) (gate_dict : gate_dict) (st : builder) :
  let indices := range (Z.of_nat (List.length gate_dict)) in
  (forallb (case_buildable amp_matrix gate_dict) indices = true ->
   assign_amplitude_matrix gate amp_matrix gate_dict st =
     (Ok tt,
      mkBuilder (declared st) (streams st)
        (emitted st ++
         [Switch gate false
            (map (amplitude_case amp_matrix gate_dict) indices)])
        (cases st))) /\
  (forallb (case_buildable amp_matrix gate_dict) indices = false ->
   exists e st',
     assign_amplitude_matrix gate amp_matrix gate_dict st = (Raise e, st') /\
     is_lookup_error e = true /\
     declared st' = declared st /\
     streams st' = streams st /\
     list_extends (emitted st) (emitted st')) /\
  (gate_dict = [] ->
   assign_amplitude_matrix gate amp_matrix gate_dict st =
     (Ok tt,
      mkBuilder (declared st) (streams st)
        (emitted st ++ [Switch gate false []]) (cases st))).
Proof.
  intro indices.
  pose proof (cases_loop amp_matrix gate_dict indices
                (mkBuilder (declared st) (streams st) [] [])) as H.
  assert (Hfold :
    assign_amplitude_matrix gate amp_matrix gate_dict =
    switch_ gate false
      (for_each indices
         (fun i => case_ i (four_assignments amp_matrix gate_dict i))))
    by reflexivity.
  split; [|split].
  - intro Hall. rewrite Hall in H.
    rewrite Hfold. unfold switch_. rewrite H. reflexivity.
  - intro Hall. rewrite Hall in H.
    destruct H as (e & cs & H & He).
    rewrite Hfold. unfold switch_. rewrite H.
    eexists. eexists. split; [reflexivity|]. split; [exact He|].
    cbn [declared streams emitted].
    split; [reflexivity|]. split; [reflexivity|].
    eexists. reflexivity.
  - intros ->. reflexivity.
Qed.

Lemma assign_amplitude_matrix_builds_switch_witness :
  exists e st',
    assign_amplitude_matrix 0%nat [1; 2; 3; 4]%nat
      [(0, mkEntry (mkGate (Some "sx") None)
             [Qua.VInt 1; Qua.VInt 0; Qua.VInt 0; Qua.VInt 1]);
       (2, mkEntry (mkGate (Some "t") None)
             [Qua.VInt 1; Qua.VInt 0; Qua.VInt 0; Qua.VInt 1])]
      (mkBuilder [] 0 [] [])
    = (Raise e, st') /\
    is_lookup_error e = true /\
    declared st' = [] /\
    streams st' = 0%nat /\
    list_extends [] (emitted st').
Proof.
  exact (proj1 (proj2 (assign_amplitude_matrix_builds_switch 0%nat
                         [1; 2; 3; 4]%nat
                         [(0, mkEntry (mkGate (Some "sx") None)
                                [Qua.VInt 1; Qua.VInt 0; Qua.VInt 0;
                                 Qua.VInt 1]);
                          (2, mkEntry (mkGate (Some "t") None)
                                [Qua.VInt 1; Qua.VInt 0; Qua.VInt 0;
                                 Qua.VInt 1])]
                         (mkBuilder [] 0 [] []))) eq_refl).
Defined.

End AmplitudeMatrix.

Section GateDispatch.
Import PyX QuaX Gates.
Local Open Scope list_scope.
Local Open Scope pyx_scope.

Lemma play_T_gate_set_run (gate : var) (amp_matrix : list var)
    (qubit_el baseline_op : string) (st : builder) :
  play_T_gate_set gate amp_matrix qubit_el baseline_op st =
  (Ok tt,
   mkBuilder (declared st) (streams st)
     (emitted st ++
      [Switch gate true
         [(0, [PlayAmp baseline_op qubit_el amp_matrix]);
          (1, [PlayAmp baseline_op qubit_el amp_matrix]);
          (2, [FrameRotation2pi (1 # 8) qubit_el])]])
     (cases st)).
Proof. reflexivity. Qed.

Lemma play_SW_gate_set_run (gate : var) (amp_matrix : list var)
    (qubit_el baseline_op : string) (st : builder) :
  play_SW_gate_set gate amp_matrix qubit_el baseline_op st =
  (Ok tt,
   mkBuilder (declared st) (streams st)
     (emitted st ++
      [Switch gate true
         [(0, [PlayAmp baseline_op qubit_el amp_matrix]);
          (1, [PlayAmp baseline_op qubit_el amp_matrix]);
          (2, [PlayAmp baseline_op qubit_el amp_matrix])]])
     (cases st)).
Proof. reflexivity. Qed.

(** [play_random_sq_gate] reads only the entry of gate index 2.  Without
    such an entry it ends in a [KeyError], and with a gate object without
    [name] in an [AttributeError], leaving the program as it was.  A gate
    named ["t"] selects the T gate set, whatever its label (which is not
    even read): indices 0 and 1 play the baseline operation with the
    amplitude matrix and index 2 only rotates the frame by [0.125].
    Otherwise the label is read: ["sw"] selects the SW gate set, where all
    three indices play, and any other label plays the baseline operation
    with no switch at all. *)
Theorem play_random_sq_gate_dispatch (gate : var) (amp_matrix : list var)
    (qubit_el : string) (gate_dict : gate_dict) (baseline_op : string)
    (st : builder) :
  let run := play_random_sq_gate gate amp_matrix qubit_el gate_dict
               baseline_op st in
  let play := PlayAmp baseline_op qubit_el amp_matrix in
  let emits s :=
    (Ok tt,
     mkBuilder (declared st) (streams st) (emitted st ++ [s]) (cases st)) in
  (lookup Z.eqb gate_dict 2 = None -> run = (Raise KeyError, st)) /\
  (forall e, lookup Z.eqb gate_dict 2 = Some e ->
     (name (Gates.gate e) = None -> run = (Raise AttributeError, st)) /\
     (name (Gates.gate e) = Some "t" ->
      run = emits (Switch gate true
                     [(0, [play]); (1, [play]);
                      (2, [FrameRotation2pi (1 # 8) qubit_el])])) /\
     (forall n, name (Gates.gate e) = Some n -> n <> "t" ->
        (label (Gates.gate e) = None -> run = (Raise AttributeError, st)) /\
        (label (Gates.gate e) = Some "sw" ->
         run = emits (Switch gate true
                        [(0, [play]); (1, [play]); (2, [play])])) /\
        (forall l, label (Gates.gate e) = Some l -> l <> "sw" ->
                   run = emits play))).
Proof.
  intros run play emits. subst run play emits.
  unfold play_random_sq_gate, subscript, getattr.
  destruct st as [ds ss es cs].
  split.
  - intros ->. reflexivity.
  - intros [[nm lb] vs] ->. cbn [name label Gates.gate].
    split; [|split].
    + intros ->. reflexivity.
    + intros ->. reflexivity.
    + intros n -> Hn. apply String.eqb_neq in Hn.
      unfold bind, ret, raise. cbv beta iota. cbn [name label Gates.gate].
      cbv beta iota. rewrite Hn.
      split; [|split].
      * intros ->. reflexivity.
      * intros ->. reflexivity.
      * intros l -> Hl. apply String.eqb_neq in Hl.
        cbv beta iota. rewrite Hl. reflexivity.
Qed.

Lemma play_random_sq_gate_dispatch_witness :
  play_random_sq_gate 0%nat [1; 2; 3; 4]%nat "q0"
    [(2, mkEntry (mkGate (Some "t") (Some "sw")) [])] "sx"
    (mkBuilder [] 0 [] [])
  = (Ok tt,
     mkBuilder [] 0
       [Switch 0%nat true
          [(0, [PlayAmp "sx" "q0" [1; 2; 3; 4]%nat]);
           (1, [PlayAmp "sx" "q0" [1; 2; 3; 4]%nat]);
           (2, [FrameRotation2pi (1 # 8) "q0"])]] []).
Proof.
  destruct (play_random_sq_gate_dispatch 0%nat [1; 2; 3; 4]%nat "q0"
              [(2, mkEntry (mkGate (Some "t") (Some "sw")) [])] "sx"
              (mkBuilder [] 0 [] [])) as [_ H].
  destruct (H _ eq_refl) as (_ & Ht & _).
  exact (Ht eq_refl).
Defined.

Lemma lookup_pair_single (a b : Z * Z) (v : string * string) :
  a <> b -> lookup pair_eqb [(b, v)] a = None.
Proof.
  intro H. cbn. unfold pair_eqb.
  destruct (Z.eqb_spec (fst a) (fst b)) as [E1|E1]; [|reflexivity].
  destruct (Z.eqb_spec (snd a) (snd b)) as [E2|E2]; [|reflexivity].
  exfalso. apply H. destruct a, b. cbn in *. congruence.
Qed.

(** [cz_gate] plays the operation registered for the ordered pair
    [(control, target)] on the element registered with it, and nothing
    else.  A pair that is not a key ends in a [KeyError] with the program
    untouched; in particular an entry for the reversed pair does not
    serve. *)
Theorem cz_gate_needs_the_ordered_pair (control target : Z)
    (CZ_operations : list ((Z * Z) * (string * string))) (st : builder) :
  (forall cz_el cz_op,
     lookup pair_eqb CZ_operations (control, target) = Some (cz_el, cz_op) ->
     cz_gate control target CZ_operations st =
       (Ok tt,
        mkBuilder (declared st) (streams st)
          (emitted st ++ [Base (Qua.Play cz_op cz_el None)]) (cases st))) /\
  (lookup pair_eqb CZ_operations (control, target) = None ->
   cz_gate control target CZ_operations st = (Raise KeyError, st)) /\
  (forall v, control <> target ->
     cz_gate control target [((target, control), v)] st
       = (Raise KeyError, st)).
Proof.
  unfold cz_gate, subscript. split; [|split].
  - intros cz_el cz_op ->. reflexivity.
  - intros ->. reflexivity.
  - intros v Hne. rewrite lookup_pair_single; [reflexivity|].
    intro E. injection E as E1 E2. congruence.
Qed.

Lemma cz_gate_needs_the_ordered_pair_witness :
  cz_gate 1 0 [((0, 1), ("cz_el", "cz"))] (mkBuilder [] 0 [] [])
  = (Raise KeyError, mkBuilder [] 0 [] []).
Proof.
  apply (proj2 (proj2 (cz_gate_needs_the_ordered_pair 1 0 []
                         (mkBuilder [] 0 [] [])))).
  discriminate.
Defined.

End GateDispatch.

Section FitDecayFacts.
Import PyX NumPy.
Local Open Scope list_scope.
Local Open Scope R_scope.
Local Open Scope pyx_scope.

Variable power : R -> R -> R.
Variable linregress : ndarray -> ndarray -> np (R * R).
Variable curve_fit :
  (ndarray -> R -> R -> np ndarray) -> ndarray -> ndarray -> R * R ->
  np ((R * R) * cov).

Lemma in_unit_interval_spec (f : R) :
  in_unit_interval f = true <-> 0 < f < 1.
Proof.
  unfold in_unit_interval.
  destruct (Rlt_dec 0 f); destruct (Rlt_dec f 1); split;
    try discriminate; try reflexivity; try tauto.
Qed.

Lemma ln_negative (f : R) : 0 < f < 1 -> ln f < 0.
Proof.
  intros [H0 H1]. rewrite <- ln_1. now apply ln_increasing.
Qed.


Lemma select_self (p : R -> bool) (v : list R) :
  select v (map p v) = filter p v.
Proof.
  unfold select. induction v as [|x v IH]; [reflexivity|].
  cbn. destruct (p x); cbn; now rewrite IH.
Qed.

Lemma select_aligned (p : R -> bool) (dv fv : list R) :
  List.length dv = List.length fv ->
  combine (select dv (map p fv)) (filter p fv) =
  filter (fun x => p (snd x)) (combine dv fv).
Proof.
  unfold select. revert fv.
  induction dv as [|d dv IH]; intros [|f fv] H; try discriminate;
    [reflexivity|].
  injection H as H. cbn. destruct (p f); cbn; now rewrite IH.
Qed.

Lemma boolean_index_run (a : ndarray) (v : list R) (mask : list bool)
    (st : store) :
  contents a st = Some v ->
  boolean_index a mask st =
  if Nat.eqb (List.length v) (List.length mask)
  then (Ok (List.length (cells st)),
        mkStore (cells st ++ [select v mask]) (logged st))
  else (Raise IndexError, st).
Proof.
  intro H. unfold boolean_index, bind, of_py, read. rewrite H.
  destruct (Nat.eqb (List.length v) (List.length mask)); reflexivity.
Qed.

Lemma contents_after (a : ndarray) (v : list R) (st : store)
    (new : list (list R)) (l : list R) :
  contents a st = Some v ->
  contents a (mkStore (cells st ++ new) l) = Some v.
Proof.
  unfold contents. cbn [cells]. intro H.
  rewrite nth_error_app1; [exact H|].
  apply nth_error_Some. congruence.
Qed.

Lemma contents_new (st : store) (v : list R) (l : list R) :
  contents (List.length (cells st)) (mkStore (cells st ++ [v]) l) = Some v.
Proof.
  unfold contents. cbn [cells].
  rewrite nth_error_app2 by apply Nat.le_refl.
  now rewrite Nat.sub_diag.
Qed.

Lemma fit_exponential_decay_prefix (cycle_depths fidelities : ndarray)
    (dv fv : list R) (st : store) :
  contents cycle_depths st = Some dv ->
  contents fidelities st = Some fv ->
  List.length dv = List.length fv ->
  fit_exponential_decay power linregress curve_fit cycle_depths fidelities st
  = fit_from_regression power linregress curve_fit
      (List.length (cells st)) (S (List.length (cells st)))
      (S (S (List.length (cells st))))
      (regression_state dv fv st).
Proof.
  intros Hd Hf Hlen.
  unfold fit_exponential_decay.
  unfold bind at 1. unfold of_py at 1. unfold read at 1. rewrite Hf.
  unfold bind at 1.
  rewrite (boolean_index_run _ dv _ _ Hd).
  rewrite length_map, Hlen, Nat.eqb_refl.
  unfold bind at 1.
  rewrite (boolean_index_run fidelities fv)
    by (now apply contents_after).
  rewrite length_map, Nat.eqb_refl. cbn [cells logged].
  rewrite select_self.
  unfold bind at 1. unfold of_py at 1. unfold log, Py.bind, read, alloc.
  rewrite length_app. cbn [List.length]. rewrite Nat.add_1_r.
  set (st1 := mkStore _ (logged st)).
  assert (H1 : contents (S (List.length (cells st))) st1
               = Some (filter in_unit_interval fv)).
  { subst st1. unfold contents. cbn [cells].
    rewrite <- app_assoc. cbn [app].
    rewrite nth_error_app2 by auto with arith.
    replace (S (List.length (cells st)) - List.length (cells st))%nat
      with 1%nat by (rewrite Nat.sub_succ_l, Nat.sub_diag; auto).
    reflexivity. }
  rewrite H1. subst st1. cbn [cells logged].
  rewrite !length_app. cbn [List.length].
  rewrite <- !app_assoc. cbn [app].
  replace (List.length (cells st) + 1 + 1)%nat
    with (S (S (List.length (cells st))))
    by (rewrite !Nat.add_1_r; reflexivity).
  reflexivity.
Qed.

(** [fit_exponential_decay] masks before it takes logarithms.  With a
    fidelity array and a depth array of different lengths it ends in an
    [IndexError] and the store is as before.  With equal lengths the
    regression runs on three new arrays: the depths and the fidelities of
    exactly the points whose fidelity lies strictly between 0 and 1, still
    paired as in the input, and the logarithms of these fidelities; so
    [np.log] is only applied to numbers in the open unit interval and every
    logarithm is negative. *)
Theorem fit_exponential_decay_masks_before_log
    (cycle_depths fidelities : ndarray) (dv fv : list R) (st : store) :
  contents cycle_depths st = Some dv ->
  contents fidelities st = Some fv ->
  let fit := fit_exponential_decay power linregress curve_fit in
  let kept := filter in_unit_interval fv in
  let depths := select dv (map in_unit_interval fv) in
  let n := List.length (cells st) in
  (List.length dv <> List.length fv ->
   fit cycle_depths fidelities st = (Raise IndexError, st)) /\
  (List.length dv = List.length fv ->
   fit cycle_depths fidelities st =
     fit_from_regression power linregress curve_fit n (S n) (S (S n))
       (mkStore (cells st ++ [depths; kept; map ln kept])
          (logged st ++ kept)) /\
   combine depths kept =
     filter (fun p => in_unit_interval (snd p)) (combine dv fv) /\
   Forall (fun f => 0 < f < 1) kept /\
   Forall (fun y => y < 0) (map ln kept)).
Proof.
  intros Hd Hf fit kept depths n. subst fit kept depths n.
  assert (Hkept : Forall (fun f => 0 < f < 1) (filter in_unit_interval fv)).
  { apply Forall_forall. intros f Hin. apply filter_In in Hin.
    now apply in_unit_interval_spec. }
  split.
  - intro Hne. unfold fit_exponential_decay.
    unfold bind at 1. unfold of_py at 1. unfold read at 1. rewrite Hf.
    unfold bind at 1.
    rewrite (boolean_index_run _ dv _ _ Hd).
    rewrite length_map.
    apply Nat.eqb_neq in Hne. rewrite Hne. reflexivity.
  - intro Hlen. split; [|split; [|split]].
    + now apply fit_exponential_decay_prefix.
    + now apply select_aligned.
    + exact Hkept.
    + apply Forall_map. revert Hkept. apply Forall_impl.
      intros f. apply ln_negative.
Qed.


End FitDecayFacts.


Lemma fit_exponential_decay_masks_before_log_witness :
  fit_exponential_decay (fun x _ => x)
    (fun _ _ st => (Py.Raise Py.ValueError, st))
    (fun _ _ _ p st => (Py.Ok (p, ((0, 0), (0, 0))), st))%R
    0%nat 1%nat (NumPy.mkStore [[1; 2]; [1]]%R [])
  = (PyX.Raise PyX.IndexError, NumPy.mkStore [[1; 2]; [1]]%R []).
Proof.
  apply (proj1 (fit_exponential_decay_masks_before_log (fun x _ => x)
                  (fun _ _ st => (Py.Raise Py.ValueError, st))
                  (fun _ _ _ p st => (Py.Ok (p, ((0, 0), (0, 0))), st))%R
                  0%nat 1%nat [1; 2]%R [1]%R
                  (NumPy.mkStore [[1; 2]; [1]]%R [])
                  eq_refl eq_refl)).
  discriminate.
Defined.

(** ** The exceptions the repository constructs *)

Section OwnExceptions.
Import PyX QuaX Gates.
Local Open Scope pyx_scope.

Lemma own_ret {S A : Type} (a : A) : never_raises_own (@ret S A a).
Proof. intro s. reflexivity. Qed.

Lemma own_bind {S A B : Type} (m : M S A) (k : A -> M S B) :
  never_raises_own m -> (forall a, never_raises_own (k a)) ->
  never_raises_own (bind m k).
Proof.
  intros Hm Hk s. unfold bind. specialize (Hm s).
  destruct (m s) as [[a|e] s']; [apply Hk | exact Hm].
Qed.

Lemma own_for_each {S A : Type} (l : list A) (body : A -> M S unit) :
  (forall a, never_raises_own (body a)) -> never_raises_own (for_each l body).
Proof.
  intro H. induction l as [|x l IH]; [apply own_ret|].
  cbn [for_each]. apply own_bind; [apply H | intros _; exact IH].
Qed.

Lemma own_comprehension {S A B : Type} (l : list A) (f : A -> M S B) :
  (forall a, never_raises_own (f a)) ->
  never_raises_own (comprehension l f).
Proof.
  intro H. induction l as [|x l IH]; [apply own_ret|].
  cbn [comprehension]. apply own_bind; [apply H|]. intro y.
  apply own_bind; [exact IH | intro ys; apply own_ret].
Qed.

Lemma own_getitem {S A : Type} (l : list A) (i : Z) :
  never_raises_own (@getitem S A l i).
Proof.
  intro s. unfold getitem.
  destruct (if i <? 0 then None else nth_error l (Z.to_nat i)); reflexivity.
Qed.

Lemma own_subscript {S K V : Type} (eqb : K -> K -> bool)
    (d : list (K * V)) (k : K) :
  never_raises_own (@subscript S K V eqb d k).
Proof.
  intro s. unfold subscript. destruct (lookup eqb d k); reflexivity.
Qed.

Lemma own_getattr {S A : Type} (field : option A) :
  never_raises_own (@getattr S A field).
Proof. intro s. destruct field; reflexivity. Qed.

Lemma own_declare (t : Qua.qtype) : never_raises_own (declare t).
Proof. intro s. reflexivity. Qed.

Lemma own_declare_stream : never_raises_own declare_stream.
Proof. intro s. reflexivity. Qed.

Lemma own_emit (s : stmt) : never_raises_own (emit s).
Proof. intro st. reflexivity. Qed.

Lemma own_case (i : Z) (body : qua unit) :
  never_raises_own body -> never_raises_own (case_ i body).
Proof.
  intros H st. unfold case_.
  specialize (H (mkBuilder (declared st) (streams st) [] (cases st))).
  destruct (body _) as [r st']. exact H.
Qed.

Lemma own_switch (on : var) (unsafe : bool) (body : qua unit) :
  never_raises_own body -> never_raises_own (switch_ on unsafe body).
Proof.
  intros H st. unfold switch_.
  specialize (H (mkBuilder (declared st) (streams st) [] [])).
  destruct (body _) as [[u|e] st']; [reflexivity | exact H].
Qed.

(** One step of a macro. *)
Ltac own_step :=
  first
    [ apply own_ret | apply own_emit | apply own_declare
    | apply own_declare_stream | apply own_getitem | apply own_subscript
    | apply own_getattr
    | apply own_case | apply own_switch
    | apply own_for_each; intro
    | apply own_comprehension; intro
    | apply own_bind; [|intro] ].

Lemma own_assign_amplitude_matrix (gate : var) (amp_matrix : list var)
    (gate_dict : gate_dict) :
  never_raises_own (assign_amplitude_matrix gate amp_matrix gate_dict).
Proof. unfold assign_amplitude_matrix, assign. repeat own_step. Qed.

Lemma own_qua_declaration (n_qubits : Z) (readout_elements : list string) :
  never_raises_own (qua_declaration n_qubits readout_elements).
Proof. unfold qua_declaration. repeat own_step. Qed.

Lemma own_play_T_gate_set (gate : var) (amp_matrix : list var)
    (qubit_el baseline_op : string) :
  never_raises_own (play_T_gate_set gate amp_matrix qubit_el baseline_op).
Proof. unfold play_T_gate_set. repeat own_step. Qed.

Lemma own_play_SW_gate_set (gate : var) (amp_matrix : list var)
    (qubit_el baseline_op : string) :
  never_raises_own (play_SW_gate_set gate amp_matrix qubit_el baseline_op).
Proof. unfold play_SW_gate_set. repeat own_step. Qed.

Lemma own_play_random_sq_gate (gate : var) (amp_matrix : list var)
    (qubit_el : string) (gate_dict : gate_dict) (baseline_op : string) :
  never_raises_own
    (play_random_sq_gate gate amp_matrix qubit_el gate_dict baseline_op).
Proof.
  unfold play_random_sq_gate.
  apply own_bind; [own_step|]. intro entry.
  apply own_bind; [own_step|]. intro n.
  destruct (String.eqb n "t"); [apply own_play_T_gate_set|].
  apply own_bind; [own_step|]. intro entry'.
  apply own_bind; [own_step|]. intro l.
  destruct (String.eqb l "sw"); [apply own_play_SW_gate_set | own_step].
Qed.

Lemma own_cz_gate (control target : Z)
    (CZ_operations : list ((Z * Z) * (string * string))) :
  never_raises_own (cz_gate control target CZ_operations).
Proof.
  unfold cz_gate. apply own_bind; [own_step|].
  intros [cz_el cz_op]. unfold play. own_step.
Qed.

End OwnExceptions.

Section ExceptionFacts.
Import Py Qua NumPy.
Local Open Scope py_scope.

(** [active_reset] raises its own error exactly when [max_tries] is a number
    below 1 or not integer-valued; what else it raises is a [TypeError] or
    an [OverflowError] of the Python runtime. *)
Lemma active_reset_repo_exception (threshold : value)
    (qubit resonator : string) (max_tries : value) (Ig : option var)
    (st : program) :
  (is_repo_exception
     (fst (active_reset threshold qubit resonator max_tries Ig st)) = true <->
   (is_lt max_tries 1 || not_integer_valued max_tries)%bool = true) /\
  (forall e,
     fst (active_reset threshold qubit resonator max_tries Ig st) = Raise e ->
     e = RepoException max_count_message \/ e = TypeError \/
     e = OverflowError).
Proof.
  unfold active_reset, is_lt, not_integer_valued, bind, lift, ret, raise.
  destruct threshold, max_tries, Ig;
    cbn [lt_int float_is_integer add_2_pow_m28 negb];
    reset_compare; reset_exn; cbn;
    (split; [split; intro H; (discriminate H || reflexivity)|]);
    intros e H; try discriminate H; injection H as <-; auto.
Qed.

(** The numeric helpers raise nothing but what Python and numpy raise. *)
Lemma cross_entropy_no_repo_exception (p q : ndarray) (epsilon : R)
    (st : store) :
  is_repo_exception (fst (cross_entropy p q epsilon st)) = false.
Proof.
  unfold cross_entropy, maximum, log, multiply, sum, elementwise, bind, read,
    alloc, ret, raise.
  repeat match goal with
         | |- context [match ?x with Some _ => _ | None => _ end] =>
             destruct x
         end; reflexivity.
Qed.

Lemma exponential_decay_no_repo_exception (power : R -> R -> R)
    (cycle_depths : ndarray) (a layer_fid : R) (st : store) :
  is_repo_exception
    (fst (exponential_decay power cycle_depths a layer_fid st)) = false.
Proof.
  unfold exponential_decay, elementwise, bind, read, alloc, ret.
  repeat match goal with
         | |- context [match ?x with Some _ => _ | None => _ end] =>
             destruct x
         end; reflexivity.
Qed.

Lemma gauss_no_repo_exception (amplitude mu sigma : R) (length : Z)
    (st : store) :
  is_repo_exception (fst (gauss amplitude mu sigma length st)) = false.
Proof.
  rewrite (proj1 (gauss_pure amplitude mu sigma length st)).
  unfold gauss_outcome, PyFloat.int_true_divide, PyFloat.float_pow,
    PyFloat.float_mul.
  cbn [Z.eqb].
  repeat match goal with
         | |- context [if ?b then _ else _] => destruct b
         | |- context [match ?x with [] => _ | _ :: _ => _ end] =>
             destruct x
         end; reflexivity.
Qed.

Lemma IQ_imbalance_no_repo_exception (g phi : R) :
  is_repo_exception (IQ_imbalance g phi) = false.
Proof.
  unfold IQ_imbalance, PyFloat.float_pow.
  repeat match goal with
         | |- context [if ?b then _ else _] => destruct b
         end; reflexivity.
Qed.

(** Whatever [fit_exponential_decay] raises was raised by numpy's indexing
    or by one of the two fitting routines. *)
Lemma fit_exponential_decay_exceptions (power : R -> R -> R)
    (linregress : ndarray -> ndarray -> np (R * R))
    (curve_fit :
       (ndarray -> R -> R -> np ndarray) -> ndarray -> ndarray -> R * R ->
       np ((R * R) * cov))
    (cycle_depths fidelities : ndarray) (st : store) (e : PyX.exn) :
  fst (fit_exponential_decay power linregress curve_fit cycle_depths
         fidelities st) = PyX.Raise e ->
  e = PyX.IndexError \/ e = PyX.Core DanglingRef \/
  (exists e0, e = PyX.Core e0 /\
              exists a b, raised_by (linregress a b) e0) \/
  (exists e0, e = PyX.Core e0 /\ e0 <> ValueError /\
              exists f a b p0, raised_by (curve_fit f a b p0) e0).
Proof.
  unfold fit_exponential_decay, fit_from_regression, boolean_index,
    PyX.bind, PyX.of_py, PyX.raise, log, read, alloc, bind, ret.
  destruct (contents fidelities st) as [fv|]; cbn [fst snd];
    [|intros [= <-]; auto].
  destruct (contents cycle_depths st) as [dv|]; cbn [fst snd];
    [|intros [= <-]; auto].
  destruct (Nat.eqb (List.length dv) _); cbn [fst snd];
    [|intros [= <-]; auto].
  match goal with
  | |- context [contents fidelities ?s] =>
      destruct (contents fidelities s) as [fv'|]; cbn [fst snd];
        [|intros [= <-]; auto]
  end.
  destruct (Nat.eqb (List.length fv') _); cbn [fst snd];
    [|intros [= <-]; auto].
  match goal with
  | |- context [contents ?a ?s] =>
      destruct (contents a s) as [lv|]; cbn [fst snd cells logged];
        [|intros [= <-]; auto]
  end.
  match goal with
  | |- context [linregress ?a ?b ?s] =>
      destruct (linregress a b s) as [[[slope intercept]|e0] s1] eqn:Hl
  end; cbn [fst snd].
  - match goal with
    | |- context [curve_fit ?f ?a ?b ?p0 ?s] =>
        destruct (curve_fit f a b p0 s) as [[[[a1 l1] pcov]|e0] s2] eqn:Hc
    end; cbn [fst snd]; [discriminate|].
    destruct e0; cbn [fst]; try discriminate; intros [= <-];
      right; right; right; eexists; (split; [reflexivity|]);
      (split; [discriminate|]);
      do 4 eexists; eexists; rewrite Hc; reflexivity.
  - intros [= <-]. right. right. left. eexists. split; [reflexivity|].
    do 2 eexists. eexists. rewrite Hl. reflexivity.
Qed.

(** C1, as stated, fails: [reset_qubit] called for a cooldown without
    [cooldown_time] raises an exception constructed in the repository. *)
Lemma reset_qubit_constructs_exception_counterexample :
  fst (reset_qubit "cooldown" "q0" "rr0" no_kwargs empty_program)
    = Raise (RepoException cooldown_message) /\
  ~ (forall method qubit resonator kw st,
       is_repo_exception
         (fst (reset_qubit method qubit resonator kw st)) = false).
Proof.
  split; [reflexivity|].
  intro H.
  specialize (H "cooldown" "q0" "rr0" no_kwargs empty_program).
  discriminate H.
Qed.

(** C1 (amended).  The failure handling the repository has of its own is
    the validation of [reset_qubit] and [active_reset] and one [except]
    clause of [fit_exponential_decay].  [reset_qubit] raises an exception it
    constructs exactly when its keyword validation rejects the keywords,
    unless the conversion [float(max_tries)] of an int too large fails
    first, and it is then one of its three validation errors; the only
    other exception it raises is Python's [OverflowError].  [active_reset]
    raises its own error exactly when [max_tries] is below 1 or not
    integer-valued, and otherwise only a [TypeError] or an [OverflowError]
    of Python.  [fit_exponential_decay] answers a [ValueError] of
    [curve_fit] with [(0, 0, inf, inf)]; every exception it raises comes
    from numpy's indexing, from [linregress], or from [curve_fit] and is
    not a [ValueError].  [gauss], [IQ_imbalance], [cross_entropy],
    [exponential_decay], the measurement macros and the gate macros never
    raise an exception constructed in the repository. *)
Theorem repository_exceptions_are_validation_errors :
  (forall method qubit resonator kw st,
     (is_repo_exception
        (fst (reset_qubit method qubit resonator kw st)) = true <->
      (raise_condition method kw &&
       negb (overflow_in_validation method kw))%bool = true) /\
     (forall e,
        fst (reset_qubit method qubit resonator kw st) = Raise e ->
        (exists msg, e = RepoException msg /\ In msg validation_messages) \/
        e = OverflowError)) /\
  (forall threshold qubit resonator max_tries Ig st,
     (is_repo_exception
        (fst (active_reset threshold qubit resonator max_tries Ig st)) = true
      <-> (is_lt max_tries 1 || not_integer_valued max_tries)%bool = true) /\
     (forall e,
        fst (active_reset threshold qubit resonator max_tries Ig st) =
          Raise e ->
        e = RepoException max_count_message \/ e = TypeError \/
        e = OverflowError)) /\
  (forall power linregress curve_fit cycle_depths fidelities st,
     (forall dv fv slope intercept st1 st2,
        contents cycle_depths st = Some dv ->
        contents fidelities st = Some fv ->
        List.length dv = List.length fv ->
        linregress (List.length (cells st))
          (S (S (List.length (cells st)))) (regression_state dv fv st) =
          (Ok (slope, intercept), st1) ->
        curve_fit (exponential_decay power) (List.length (cells st))
          (S (List.length (cells st)))
          (np_clip (exp intercept) 0 1, np_clip (exp slope) 0 1) st1 =
          (Raise ValueError, st2) ->
        fit_exponential_decay power linregress curve_fit cycle_depths
          fidelities st = (PyX.Ok (Finite 0, Finite 0, Inf, Inf), st2)) /\
     (forall e,
        fst (fit_exponential_decay power linregress curve_fit cycle_depths
               fidelities st) = PyX.Raise e ->
        e = PyX.IndexError \/ e = PyX.Core DanglingRef \/
        (exists e0, e = PyX.Core e0 /\
                    exists a b, raised_by (linregress a b) e0) \/
        (exists e0, e = PyX.Core e0 /\ e0 <> ValueError /\
                    exists f a b p0, raised_by (curve_fit f a b p0) e0))) /\
  (forall amplitude mu sigma length st,
     is_repo_exception (fst (gauss amplitude mu sigma length st)) = false) /\
  (forall g phi, is_repo_exception (IQ_imbalance g phi) = false) /\
  (forall p q epsilon st,
     is_repo_exception (fst (cross_entropy p q epsilon st)) = false) /\
  (forall power cycle_depths a layer_fid st,
     is_repo_exception
       (fst (exponential_decay power cycle_depths a layer_fid st)) = false) /\
  (forall qubit st,
     is_repo_exception (fst (measure_qubit_0 qubit st)) = false /\
     is_repo_exception (fst (measure_qubit_1 qubit st)) = false) /\
  (forall gate amp_matrix gate_dict,
     never_raises_own
       (Gates.assign_amplitude_matrix gate amp_matrix gate_dict)) /\
  (forall n_qubits readout_elements,
     never_raises_own (Gates.qua_declaration n_qubits readout_elements)) /\
  (forall gate amp_matrix qubit_el baseline_op,
     never_raises_own
       (Gates.play_T_gate_set gate amp_matrix qubit_el baseline_op) /\
     never_raises_own
       (Gates.play_SW_gate_set gate amp_matrix qubit_el baseline_op)) /\
  (forall gate amp_matrix qubit_el gate_dict baseline_op,
     never_raises_own
       (Gates.play_random_sq_gate gate amp_matrix qubit_el gate_dict
          baseline_op)) /\
  (forall control target CZ_operations,
     never_raises_own (Gates.cz_gate control target CZ_operations)).
Proof.
  repeat match goal with |- _ /\ _ => split end.
  - intros method qubit resonator kw st.
    destruct (reset_qubit_outcome method qubit resonator kw st)
      as (_ & Hrepo & Hexn).
    split; [now rewrite Hrepo | exact Hexn].
  - intros. apply active_reset_repo_exception.
  - intros power linregress curve_fit cycle_depths fidelities st. split.
    + intros dv fv slope intercept st1 st2 Hd Hf Hlen Hl Hc.
      rewrite (fit_exponential_decay_prefix _ _ _ _ _ _ _ _ Hd Hf Hlen).
      unfold fit_from_regression, PyX.bind, PyX.of_py.
      rewrite Hl. cbn [fst snd]. rewrite Hc. reflexivity.
    + apply fit_exponential_decay_exceptions.
  - intros. apply gauss_no_repo_exception.
  - intros. apply IQ_imbalance_no_repo_exception.
  - intros. apply cross_entropy_no_repo_exception.
  - intros. apply exponential_decay_no_repo_exception.
  - intros. split; reflexivity.
  - intros. apply own_assign_amplitude_matrix.
  - intros. apply own_qua_declaration.
  - intros. split; [apply own_play_T_gate_set | apply own_play_SW_gate_set].
  - intros. apply own_play_random_sq_gate.
  - intros. apply own_cz_gate.
Qed.

Lemma repository_exceptions_are_validation_errors_witness :
  exists msg,
    fst (reset_qubit "active" "q0" "rr0" no_kwargs empty_program)
      = Raise (RepoException msg) /\
    In msg validation_messages.
Proof.
  destruct repository_exceptions_are_validation_errors as [H _].
  destruct (H "active" "q0" "rr0" no_kwargs empty_program) as [_ Hexn].
  destruct (Hexn (RepoException threshold_message) eq_refl)
    as [(msg & Hmsg & Hin) | Hov]; [|discriminate Hov].
  exists msg. split; [|exact Hin].
  injection Hmsg as <-. reflexivity.
Defined.

End ExceptionFacts.
